(** * hourlies: the hourly scheduler and the worklog-file engine

    A shallow embedding of [hourlies.py] (classes [Config],
    [HourlyWorklogWindow] and [HourliesApp]) together with the parts of the
    Python runtime the program relies on: [datetime] arithmetic and
    formatting, text-mode file I/O with the UTF-8 codec, [str.strip], and a
    small model of the worklog directory tree. *)

From stdpp Require Import gmap strings list fin_maps sorting.
From Stdlib Require Import ZArith Lia Ascii String.

(** ** Outcomes of Python code

    A call either returns or raises.  The two [while] loops of the program
    are modelled with fuel and wrap their outcome in [option]: [None] means
    the fuel ran out before the loop ended. *)

Inductive exn :=
  | OverflowError          (* datetime arithmetic left year 1..9999 *)
  | ValueError             (* datetime.replace with a field out of range *)
  | TypeError
  | AttributeError         (* a method looked up on an object that lacks it *)
  | FileExistsError        (* os.makedirs over a regular file *)
  | FileNotFoundError
  | NotADirectoryError     (* os.listdir on a regular file *)
  | IsADirectoryError      (* open() on a directory *)
  | PermissionError        (* the operating system refuses the access *)
  | UnicodeEncodeError
  | UnicodeDecodeError
  | JSONDecodeError.

Inductive res (A : Type) :=
  | Ret (a : A)
  | Raise (e : exn).
Arguments Ret {A} a.
Arguments Raise {A} e.

Definition bind {A B} (m : res A) (k : A -> res B) : res B :=
  match m with
  | Ret a => k a
  | Raise e => Raise e
  end.

Notation "'let*' x ':=' m 'in' k" := (bind m (fun x => k))
  (at level 10, x name, m at level 100, k at level 200).

(** [try: m  except: h] with a bare [except] (or [except Exception]). *)
Definition try_except {A} (m : res A) (h : exn -> res A) : res A :=
  match m with
  | Ret a => Ret a
  | Raise e => h e
  end.

(** ** Python strings

    A [str] is a sequence of code points; file names are kept as byte
    strings (their UTF-8 form), on which byte order and code-point order
    agree. *)

Module PyStr.
Open Scope Z_scope.

Definition pystr := list Z.

(** [str.isspace] for one character (the Unicode White_Space property
    plus the four separators U+001C..U+001F, as CPython has it). *)
Definition isspace (c : Z) : bool :=
  ((9 <=? c) && (c <=? 13)) || ((28 <=? c) && (c <=? 32))
  || (c =? 133) || (c =? 160) || (c =? 5760)
  || ((8192 <=? c) && (c <=? 8202))
  || (c =? 8232) || (c =? 8233) || (c =? 8239) || (c =? 8287) || (c =? 12288).

Fixpoint lstrip (s : pystr) : pystr :=
  match s with
  | c :: r => if isspace c then lstrip r else s
  | [] => []
  end.

Definition rstrip (s : pystr) : pystr := rev (lstrip (rev s)).

(** [s.strip()] *)
Definition strip (s : pystr) : pystr := rstrip (lstrip s).

(** Truthiness of a [str]: [if content], [if not content]. *)
Definition truthy (s : pystr) : bool :=
  match s with [] => false | _ => true end.

Definition of_string (s : string) : pystr :=
  (fun c => Z.of_N (N_of_ascii c)) <$> list_ascii_of_string s.

(** [s.endswith(suffix)] and [s.startswith(prefix)] on file names. *)
Definition endswith (s suffix : string) : bool :=
  let n := String.length s in
  let k := String.length suffix in
  (k <=? n)%nat && String.eqb (String.substring (n - k) k s) suffix.

Definition startswith (s pre : string) : bool := String.prefix pre s.
End PyStr.

(** ** The UTF-8 codec ([encoding='utf-8'], [errors='strict']) *)

Module Utf8.
Open Scope Z_scope.

Definition is_surrogate (c : Z) : bool := (55296 <=? c) && (c <=? 57343).

(** A character [str.encode] accepts: a Unicode scalar value. *)
Definition scalar (c : Z) : bool :=
  (0 <=? c) && (c <=? 1114111) && negb (is_surrogate c).

Definition encode_char (c : Z) : option (list Z) :=
  if negb (scalar c) then None
  else if c <? 128 then Some [c]
  else if c <? 2048 then Some [192 + c / 64; 128 + c mod 64]
  else if c <? 65536 then
    Some [224 + c / 4096; 128 + (c / 64) mod 64; 128 + c mod 64]
  else
    Some [240 + c / 262144; 128 + (c / 4096) mod 64;
          128 + (c / 64) mod 64; 128 + c mod 64].

Fixpoint encode_bytes (s : list Z) : option (list Z) :=
  match s with
  | [] => Some []
  | c :: r =>
      match encode_char c, encode_bytes r with
      | Some bs, Some rest => Some (bs ++ rest)
      | _, _ => None
      end
  end.

Definition cont (b : Z) : bool := (128 <=? b) && (b <=? 191).

Fixpoint decode_bytes (bs : list Z) : option (list Z) :=
  match bs with
  | [] => Some []
  | b0 :: r0 =>
      if (0 <=? b0) && (b0 <? 128) then cons b0 <$> decode_bytes r0
      else if (194 <=? b0) && (b0 <=? 223) then
        match r0 with
        | b1 :: r1 =>
            if cont b1
            then cons ((b0 - 192) * 64 + (b1 - 128)) <$> decode_bytes r1
            else None
        | _ => None
        end
      else if (224 <=? b0) && (b0 <=? 239) then
        match r0 with
        | b1 :: b2 :: r2 =>
            let c := (b0 - 224) * 4096 + (b1 - 128) * 64 + (b2 - 128) in
            if cont b1 && cont b2 && (2048 <=? c) && negb (is_surrogate c)
            then cons c <$> decode_bytes r2
            else None
        | _ => None
        end
      else if (240 <=? b0) && (b0 <=? 244) then
        match r0 with
        | b1 :: b2 :: b3 :: r3 =>
            let c := (b0 - 240) * 262144 + (b1 - 128) * 4096
                     + (b2 - 128) * 64 + (b3 - 128) in
            if cont b1 && cont b2 && cont b3
               && (65536 <=? c) && (c <=? 1114111)
            then cons c <$> decode_bytes r3
            else None
        | _ => None
        end
      else None
  end.

Definition byte_of (b : Z) : ascii := ascii_of_N (Z.to_N b).
Definition byte_val (a : ascii) : Z := Z.of_N (N_of_ascii a).

(** [s.encode('utf-8')] *)
Definition encode (s : list Z) : option string :=
  (fun bs => string_of_list_ascii (byte_of <$> bs)) <$> encode_bytes s.

(** [data.decode('utf-8')] *)
Definition decode (data : string) : option (list Z) :=
  decode_bytes (byte_val <$> list_ascii_of_string data).
End Utf8.

(** ** Text-mode files ([newline=None])

    On output every ["\n"] becomes [os.linesep]; on input ["\r\n"] and a
    lone ["\r"] both become ["\n"] (universal newlines). *)

Module TextIO.
Open Scope Z_scope.

Inductive platform := Posix | Windows.

Definition linesep (os : platform) : list Z :=
  match os with
  | Posix => [10]
  | Windows => [13; 10]
  end.

Definition translate_write (os : platform) (s : list Z) : list Z :=
  flat_map (fun c => if c =? 10 then linesep os else [c]) s.

Fixpoint translate_read (s : list Z) : list Z :=
  match s with
  | [] => []
  | c :: r =>
      if c =? 13 then
        match r with
        | d :: r' => if d =? 10 then 10 :: translate_read r'
                     else 10 :: translate_read r
        | [] => [10]
        end
      else c :: translate_read r
  end.

(** What [f.write(content)] puts on disk, or [None] for
    [UnicodeEncodeError]. *)
Definition to_disk (os : platform) (content : list Z) : option string :=
  Utf8.encode (translate_write os content).

(** What [f.read()] returns for the bytes on disk, or [None] for
    [UnicodeDecodeError]. *)
Definition from_disk (data : string) : option (list Z) :=
  translate_read <$> Utf8.decode data.
End TextIO.

(** ** [datetime]

    Naive datetimes of the proleptic Gregorian calendar, years 1..9999, as
    in CPython's [datetime] module: a record of fields, compared field by
    field, with arithmetic through the day ordinal. *)

Module DateTime.
Open Scope Z_scope.

Record datetime := mkdt {
  year : Z; month : Z; day : Z;
  hour : Z; minute : Z; second : Z; microsecond : Z
}.

Definition MINYEAR := 1.
Definition MAXYEAR := 9999.
Definition DI400Y := 146097.
Definition DI100Y := 36524.
Definition DI4Y := 1461.
Definition MAXORDINAL := 3652059.
Definition US_PER_SECOND := 1000000.
Definition US_PER_MINUTE := 60000000.
Definition US_PER_HOUR := 3600000000.
Definition US_PER_DAY := 86400000000.

Definition is_leap (y : Z) : bool :=
  (y mod 4 =? 0) && (negb (y mod 100 =? 0) || (y mod 400 =? 0)).

Definition days_before_year (y : Z) : Z :=
  let p := y - 1 in p * 365 + p / 4 - p / 100 + p / 400.

Definition DAYS_IN_MONTH (m : Z) : Z :=
  match m with
  | 1 => 31 | 2 => 28 | 3 => 31 | 4 => 30 | 5 => 31 | 6 => 30
  | 7 => 31 | 8 => 31 | 9 => 30 | 10 => 31 | 11 => 30 | 12 => 31
  | _ => 0
  end.

Definition DAYS_BEFORE_MONTH (m : Z) : Z :=
  match m with
  | 1 => 0 | 2 => 31 | 3 => 59 | 4 => 90 | 5 => 120 | 6 => 151
  | 7 => 181 | 8 => 212 | 9 => 243 | 10 => 273 | 11 => 304 | 12 => 334
  | _ => 0
  end.

Definition days_in_month (y m : Z) : Z :=
  if (m =? 2) && is_leap y then 29 else DAYS_IN_MONTH m.

Definition days_before_month (y m : Z) : Z :=
  DAYS_BEFORE_MONTH m + (if (2 <? m) && is_leap y then 1 else 0).

Definition ymd2ord (y m d : Z) : Z :=
  days_before_year y + days_before_month y m + d.

Definition ord2ymd (ordinal : Z) : Z * Z * Z :=
  let n := ordinal - 1 in
  let n400 := n / DI400Y in
  let n := n mod DI400Y in
  let y := n400 * 400 + 1 in
  let n100 := n / DI100Y in
  let n := n mod DI100Y in
  let n4 := n / DI4Y in
  let n := n mod DI4Y in
  let n1 := n / 365 in
  let n := n mod 365 in
  let y := y + n100 * 100 + n4 * 4 + n1 in
  if (n1 =? 4) || (n100 =? 4) then (y - 1, 12, 31)
  else
    let leapyear := (n1 =? 3) && (negb (n4 =? 24) || (n100 =? 3)) in
    let m := Z.shiftr (n + 50) 5 in
    let preceding :=
      DAYS_BEFORE_MONTH m + (if (2 <? m) && leapyear then 1 else 0) in
    if n <? preceding then
      let m' := m - 1 in
      let preceding' :=
        preceding
        - (DAYS_IN_MONTH m' + (if (m' =? 2) && leapyear then 1 else 0)) in
      (y, m', n - preceding' + 1)
    else (y, m, n - preceding + 1).

(** The invariant every [datetime] object satisfies. *)
Definition valid (dt : datetime) : bool :=
  (MINYEAR <=? year dt) && (year dt <=? MAXYEAR)
  && (1 <=? month dt) && (month dt <=? 12)
  && (1 <=? day dt) && (day dt <=? days_in_month (year dt) (month dt))
  && (0 <=? hour dt) && (hour dt <? 24)
  && (0 <=? minute dt) && (minute dt <? 60)
  && (0 <=? second dt) && (second dt <? 60)
  && (0 <=? microsecond dt) && (microsecond dt <? US_PER_SECOND).

Definition toordinal (dt : datetime) : Z :=
  ymd2ord (year dt) (month dt) (day dt).

(** The datetime as a duration since ordinal 0, in microseconds
    ([timedelta(toordinal, hours=, minutes=, seconds=, microseconds=)]). *)
Definition to_us (dt : datetime) : Z :=
  toordinal dt * US_PER_DAY + hour dt * US_PER_HOUR
  + minute dt * US_PER_MINUTE + second dt * US_PER_SECOND + microsecond dt.

Definition of_us (t : Z) : datetime :=
  let '(y, m, d) := ord2ymd (t / US_PER_DAY) in
  let r := t mod US_PER_DAY in
  mkdt y m d (r / US_PER_HOUR) ((r / US_PER_MINUTE) mod 60)
       ((r / US_PER_SECOND) mod 60) (r mod US_PER_SECOND).

(** [dt + delta], the timedelta given in microseconds. *)
Definition add (dt : datetime) (delta : Z) : res datetime :=
  let t := to_us dt + delta in
  let days := t / US_PER_DAY in
  if (0 <? days) && (days <=? MAXORDINAL) then Ret (of_us t)
  else Raise OverflowError.

Definition minutes (k : Z) : Z := k * US_PER_MINUTE.   (* timedelta(minutes=k) *)
Definition hours (k : Z) : Z := k * US_PER_HOUR.       (* timedelta(hours=k) *)

(** [a - b] as a timedelta in microseconds. *)
Definition sub (a b : datetime) : Z := to_us a - to_us b.

(** [dt.replace(minute=m, second=0, microsecond=0)] *)
Definition replace_minute (dt : datetime) (m : Z) : res datetime :=
  if (0 <=? m) && (m <=? 59)
  then Ret (mkdt (year dt) (month dt) (day dt) (hour dt) m 0 0)
  else Raise ValueError.

(** Comparison is lexicographic on the fields. *)
Definition cmp (a b : datetime) : comparison :=
  match year a ?= year b with
  | Eq =>
    match month a ?= month b with
    | Eq =>
      match day a ?= day b with
      | Eq =>
        match hour a ?= hour b with
        | Eq =>
          match minute a ?= minute b with
          | Eq =>
            match second a ?= second b with
            | Eq => microsecond a ?= microsecond b
            | c => c
            end
          | c => c
          end
        | c => c
        end
      | c => c
      end
    | c => c
    end
  | c => c
  end.

Definition ge (a b : datetime) : bool :=
  match cmp a b with Lt => false | _ => true end.

Definition lt (a b : datetime) : bool :=
  match cmp a b with Lt => true | _ => false end.

(** Decimal formatting. *)
Definition digit (n : Z) : ascii := ascii_of_N (48 + Z.to_N (n mod 10)).

Definition pad2 (n : Z) : string :=
  String (digit (n / 10)) (String (digit n) EmptyString).

Definition pad4 (n : Z) : string :=
  String (digit (n / 1000)) (String (digit (n / 100)) (pad2 n)).

(** [dt.strftime("%Y%m%d")].  The year is written with four digits,
    which is what every platform prints for the years 1000..9999; for
    earlier years the C library decides whether [%Y] is padded (glibc
    does not pad), and statements on the order of names are made for
    years from 1000 on. *)
Definition strftime_Ymd (dt : datetime) : string :=
  pad4 (year dt) +:+ pad2 (month dt) +:+ pad2 (day dt).

(** [dt.strftime("%Y%m%d%H%M")] *)
Definition strftime_YmdHM (dt : datetime) : string :=
  strftime_Ymd dt +:+ pad2 (hour dt) +:+ pad2 (minute dt).

(** [f"{n:03d}"] for [n >= 0]: at least three digits. *)
Fixpoint digits_from (fuel : nat) (n : Z) (acc : string) : string :=
  match fuel with
  | O => acc
  | S k =>
      let acc' := String (digit n) acc in
      if n <? 10 then acc' else digits_from k (n / 10) acc'
  end.

Definition decimal (n : Z) : string :=
  digits_from (S (Z.to_nat (Z.log2 n))) n EmptyString.

Definition format_03d (n : Z) : string :=
  if n <? 100 then String (digit (n / 100)) (pad2 n) else decimal n.
End DateTime.

(** ** The worklog directory tree

    [worklog_folder] holds day folders (and possibly other files); a day
    folder holds entries.  A path [os.path.join(worklog_folder, name)] is
    identified with [name], and a file path inside a day folder with the
    pair of the two names.

    What the operating system may refuse is part of the tree: a day folder
    may refuse new files ([writable]), an entry may refuse to be read
    ([readable]), and a directory may refuse all access ([NNoAccess]: it
    can be seen from [worklog_folder], but neither listed nor entered).
    [worklog_folder] itself is taken to be an existing directory that can
    be listed and written: the program's behaviour when it is not is
    outside this model. *)

Module FS.
Inductive fnode :=
  | Regular (data : string) (readable : bool)   (* file contents, in bytes *)
  | Subdir.                                     (* a directory inside a day folder *)

Record folder := mkfolder {
  entries : gmap string fnode;
  writable : bool       (* may new files be created in it *)
}.

Inductive node :=
  | NFile                  (* something that is not a directory *)
  | NFolder (d : folder)   (* a directory that can be listed and entered *)
  | NNoAccess.             (* a directory without any permission *)

Abbreviation tree := (gmap string node).

(** [os.path.exists(join(worklog_folder, name))] *)
Definition path_exists (t : tree) (name : string) : bool :=
  match t !! name with Some _ => true | None => false end.

(** [os.path.isdir(join(worklog_folder, name))] *)
Definition isdir (t : tree) (name : string) : bool :=
  match t !! name with
  | Some (NFolder _) | Some NNoAccess => true
  | _ => false
  end.

(** [os.listdir(worklog_folder)], in the order the platform gives. *)
Definition listdir_root (t : tree) : list string := (map_to_list t).*1.

(** [os.listdir(join(worklog_folder, name))] *)
Definition listdir (t : tree) (name : string) : res (list string) :=
  match t !! name with
  | Some (NFolder d) => Ret (map_to_list (entries d)).*1
  | Some NFile => Raise NotADirectoryError
  | Some NNoAccess => Raise PermissionError
  | None => Raise FileNotFoundError
  end.

(** [os.makedirs(join(worklog_folder, name), exist_ok=True)]: a
    directory that exists is left alone, whatever its permissions. *)
Definition makedirs (t : tree) (name : string) : res tree :=
  match t !! name with
  | None => Ret (<[name := NFolder (mkfolder ∅ true)]> t)
  | Some (NFolder _) | Some NNoAccess => Ret t
  | Some NFile => Raise FileExistsError
  end.

(** The entries of a day folder that can be seen: [∅] when it is not a
    directory, and when it cannot be entered ([os.path.exists] is false
    for every path inside). *)
Definition entries_of (t : tree) (dir : string) : gmap string fnode :=
  match t !! dir with
  | Some (NFolder d) => entries d
  | _ => ∅
  end.

(** [os.path.exists(join(dir, name))] *)
Definition file_exists (t : tree) (dir name : string) : bool :=
  match entries_of t dir !! name with Some _ => true | None => false end.

Definition put (t : tree) (dir name : string) (f : fnode) : tree :=
  match t !! dir with
  | Some (NFolder d) =>
      <[dir := NFolder (mkfolder (<[name := f]> (entries d)) (writable d))]> t
  | _ => t
  end.

(** [open(join(dir, name), 'w')]: creates the file, or truncates it. *)
Definition open_w (t : tree) (dir name : string) : res tree :=
  match t !! dir with
  | Some (NFolder d) =>
      match entries d !! name with
      | Some (Regular _ r) => Ret (put t dir name (Regular EmptyString r))
      | Some Subdir => Raise IsADirectoryError
      | None =>
          if writable d then Ret (put t dir name (Regular EmptyString true))
          else Raise PermissionError
      end
  | Some NFile => Raise NotADirectoryError
  | Some NNoAccess => Raise PermissionError
  | None => Raise FileNotFoundError
  end.

(** [with open(path, 'w', encoding='utf-8') as f: f.write(content)].
    The tree is returned in either case: a failed [write] leaves the
    file that [open] created. *)
Definition write_text (os : TextIO.platform) (t : tree) (dir name : string)
    (content : list Z) : tree * option exn :=
  match open_w t dir name with
  | Ret t1 =>
      match TextIO.to_disk os content, entries_of t1 dir !! name with
      | Some data, Some (Regular _ r) => (put t1 dir name (Regular data r), None)
      | Some _, _ => (t1, Some IsADirectoryError)
      | None, _ => (t1, Some UnicodeEncodeError)
      end
  | Raise e => (t, Some e)
  end.

(** [with open(path, 'r', encoding='utf-8') as f: return f.read()] *)
Definition read_text (t : tree) (dir name : string) : res (list Z) :=
  match t !! dir with
  | Some (NFolder d) =>
      match entries d !! name with
      | Some (Regular data true) =>
          match TextIO.from_disk data with
          | Some s => Ret s
          | None => Raise UnicodeDecodeError
          end
      | Some (Regular _ false) => Raise PermissionError
      | Some Subdir => Raise IsADirectoryError
      | None => Raise FileNotFoundError
      end
  | Some NFile => Raise NotADirectoryError
  | Some NNoAccess => Raise PermissionError
  | None => Raise FileNotFoundError
  end.
End FS.

(** ** class Config *)

Module Config.
#[warnings="-register-all"] Inductive json :=
  | JNull
  | JBool (b : bool)
  | JInt (n : Z)
  | JFloat (literal : string)
  | JStr (s : string)
  | JArr (l : list json)
  | JObj (m : gmap string json).

(** [needle in hay] for two strings. *)
Fixpoint is_substring (needle hay : string) : bool :=
  String.prefix needle hay
  || match hay with
     | String _ r => is_substring needle r
     | EmptyString => false
     end.

(** [key in config] *)
Definition contains (config : json) (key : string) : res bool :=
  match config with
  | JObj m => Ret (match m !! key with Some _ => true | None => false end)
  | JArr l =>
      Ret (existsb (fun v => match v with JStr s => String.eqb s key | _ => false end) l)
  | JStr s => Ret (is_substring key s)
  | _ => Raise TypeError
  end.

(** [key in config] answers yes. *)
Definition has_key (config : json) (key : string) : bool :=
  match contains config key with Ret true => true | _ => false end.

(** [config[key] = value] *)
Definition setitem (config : json) (key : string) (value : json) : res json :=
  match config with
  | JObj m => Ret (JObj (<[key := value]> m))
  | _ => Raise TypeError
  end.

(** Truthiness of what [os.getenv] returns: [None] and the empty string
    are false. *)
Definition truthy_opt (v : option string) : bool :=
  match v with Some (String _ _) => true | _ => false end.

(** [os.path.join(a, b)] of [posixpath], for a relative [b]. *)
Definition posix_join (a b : string) : string :=
  if String.eqb a "" || PyStr.endswith a "/" then a +:+ b
  else a +:+ "/" +:+ b.

(** [get_default_config_directory]; [os_name] is [os.name], [getenv] is
    [os.getenv] and [home] is what [os.path.expanduser("~")] returns. *)
Definition get_default_config_directory (os_name : string)
    (getenv : string -> option string) (home : string) : option string :=
  if String.eqb os_name "nt" then
    let appdata := getenv "LOCALAPPDATA" in
    if truthy_opt appdata then appdata
    else
      let appdata := getenv "APPDATA" in
      if truthy_opt appdata then appdata
      else None
  else
    let xdg_config_home := getenv "XDG_CONFIG_HOME" in
    if truthy_opt xdg_config_home then xdg_config_home
    else Some (posix_join home ".config").

(** The configuration file on disk. *)
Inductive config_file :=
  | Absent
  | Present (readable : bool) (text : string).

Section Config.
(** [json.load] and [json.dump], and the platform's data directory. *)
Variable json_load : string -> option json.
Variable json_dump : json -> string.
Variable user_data_path : string.

Definition default_config : list (string * json) :=
  [("worklog_folder", JStr (user_data_path +:+ "/hourlies"));
   ("popup_at_minute", JInt 0);
   ("window_width", JInt 600);
   ("window_height", JInt 400)]%string.

(** [self.default_config.copy()] *)
Definition default_copy : json := JObj (list_to_map default_config).

(** [for key, value in self.default_config.items():
       if key not in config: config[key] = value] *)
Fixpoint merge_defaults (items : list (string * json)) (config : json) : res json :=
  match items with
  | [] => Ret config
  | (key, value) :: rest =>
      let* present := contains config key in
      let* config := if negb present then setitem config key value
                     else Ret config in
      merge_defaults rest config
  end.

(** [save_config(config)]; [dir_ok] tells whether the configuration
    directory can be created and written. *)
Definition save_config (dir_ok : bool) (config : json) : res config_file :=
  if dir_ok then Ret (Present true (json_dump config))
  else Raise PermissionError.

Definition load_config (dir_ok : bool) (f : config_file) : res (config_file * json) :=
  match f with
  | Present readable text =>
      try_except
        (let* text := if readable then Ret text else Raise PermissionError in
         let* config := match json_load text with
                        | Some v => Ret v
                        | None => Raise JSONDecodeError
                        end in
         let* config := merge_defaults default_config config in
         Ret (f, config))
        (fun _ => Ret (f, default_copy))
  | Absent =>
      let* f' := save_config dir_ok default_copy in
      Ret (f', default_copy)
  end.

(** [self.config.get(key, default)] on a loaded dictionary. *)
Definition get (config : json) (key : string) (default : json) : res json :=
  match config with
  | JObj m => Ret (match m !! key with Some v => v | None => default end)
  | _ => Raise AttributeError      (* no [get] on a list, a string, ... *)
  end.
End Config.
End Config.

(** ** class HourlyWorklogWindow *)

Module HourlyWorklogWindow.
Import PyStr FS DateTime.

Definition SUFFIX : string := ".hourlies".

(** What the user sees of a call. *)
Inductive ui_event :=
  | AskYesNo_EmptyEntry              (* messagebox.askyesno("Empty Entry", ...) *)
  | ShowWarning_NoPreviousEntry
  | ShowInfo_NoPreviousEntry
  | ShowError_SaveError (e : exn)
  | FocusSet                         (* self.text_widget.focus_set() *)
  | SetText (s : pystr)              (* delete + insert on the text widget *)
  | WindowDestroyed
  | CallbackCalled.

Inductive outcome :=
  | NothingSaved                                  (* returned before writing *)
  | Saved (filename : string) (content : pystr)
  | SaveFailed (filename : string) (e : exn)      (* caught and reported *)
  | Uncaught (e : exn)                            (* propagated to the caller *)
  | Exhausted.                                    (* the model's fuel ran out *)

Record result := mkresult {
  fs_after : tree;
  ui : list ui_event;
  outcome_of : outcome
}.

(** [files.sort(); files[-1]] *)
Definition sorted_last (files : list string) : string :=
  List.last (merge_sort String.le files) EmptyString.

Definition get_last_entry (t : tree) (day_folder : string) : res (option pystr) :=
  if negb (path_exists t day_folder) then Ret None
  else
    let* names := listdir t day_folder in
    let files := List.filter (fun f => endswith f SUFFIX) names in
    match files with
    | [] => Ret None
    | _ =>
        let last_file := sorted_last files in
        try_except
          (let* s := read_text t day_folder last_file in Ret (Some s))
          (fun _ => Ret None)
    end.

(** Returns the events shown; [SetText] carries the new widget text. *)
Definition same_as_last_hour (t : tree) (day_folder : string) : res (list ui_event) :=
  let* last_entry := get_last_entry t day_folder in
  match last_entry with
  | Some s => if truthy s then Ret [SetText s] else Ret [ShowInfo_NoPreviousEntry]
  | None => Ret [ShowInfo_NoPreviousEntry]
  end.

(** The [while os.path.exists(filepath)] loop of [save_entry]. *)
Fixpoint free_filename (fuel : nat) (t : tree) (day_folder : string)
    (now : datetime) (minute_offset : Z) (filename : string)
    : option (res string) :=
  if negb (file_exists t day_folder filename) then Some (Ret filename)
  else
    match fuel with
    | O => None
    | S fuel' =>
        let minute_offset := (minute_offset + 1)%Z in
        match add now (minutes minute_offset) with
        | Ret adjusted_time =>
            free_filename fuel' t day_folder now minute_offset
              (strftime_YmdHM adjusted_time +:+ SUFFIX)
        | Raise e => Some (Raise e)
        end
    end.

(** The part of [save_entry] from [os.makedirs] on, for the content that
    was settled on; [shown] are the dialogs shown so far. *)
Definition store (os : TextIO.platform) (fuel : nat) (t : tree)
    (day_folder : string) (content : pystr) (now : datetime)
    (callback : bool) (shown : list ui_event) : result :=
  match makedirs t day_folder with
  | Raise e => mkresult t shown (Uncaught e)
  | Ret t1 =>
      let filename := strftime_YmdHM now +:+ SUFFIX in
      match free_filename fuel t1 day_folder now 0 filename with
      | None => mkresult t1 shown Exhausted
      | Some (Raise e) => mkresult t1 shown (Uncaught e)
      | Some (Ret filename) =>
          match write_text os t1 day_folder filename content with
          | (t2, None) =>
              mkresult t2
                (shown ++ WindowDestroyed :: (if callback then [CallbackCalled] else []))
                (Saved filename content)
          | (t2, Some e) =>
              mkresult t2 (shown ++ [ShowError_SaveError e]) (SaveFailed filename e)
          end
      end
  end.

(** [save_entry]: [text] is what [self.text_widget.get('1.0', tk.END)]
    returns, [answer] is what the user answers should
    [messagebox.askyesno] be shown, [now] is [datetime.now()], and
    [callback] tells whether [self.callback] is set. *)
Definition save_entry (os : TextIO.platform) (fuel : nat) (t : tree)
    (day_folder : string) (text : pystr) (answer : bool) (now : datetime)
    (callback : bool) : result :=
  let content := strip text in
  if negb (truthy content) then
    if answer then
      match get_last_entry t day_folder with
      | Raise e => mkresult t [AskYesNo_EmptyEntry] (Uncaught e)
      | Ret last_entry =>
          match last_entry with
          | Some (c :: s) =>
              store os fuel t day_folder (c :: s) now callback [AskYesNo_EmptyEntry]
          | _ =>
              mkresult t
                [AskYesNo_EmptyEntry; ShowWarning_NoPreviousEntry; FocusSet]
                NothingSaved
          end
      end
    else mkresult t [AskYesNo_EmptyEntry; FocusSet] NothingSaved
  else store os fuel t day_folder content now callback [].
End HourlyWorklogWindow.

(** ** class HourliesApp *)

Module HourliesApp.
Import PyStr FS DateTime.

(** Where a timer thread is in [timer_loop]. *)
Inductive pc :=
  | AtWhile                                        (* about to test [self.timer_active] *)
  | Sleeping (next_hour : datetime) (wait_us : Z)  (* inside [time.sleep] *)
  | AfterSleep                                     (* about to test the flag again *)
  | Finished                                       (* the loop was left *)
  | Crashed (e : exn).

Record app := mkapp {
  day_folder : option string;
  timer_active : bool;
  timer_threads : list pc;        (* every thread [start_timer] has started *)
  popups : nat;                   (* calls of [root.after(0, show_worklog_window)] *)
  status_label : string;
  worklog_window : option string; (* the day folder the window is bound to *)
  window_callback : bool;         (* [worklog_window.callback] is [close_app] *)
  quit : bool                     (* [root.quit()] was called *)
}.

(** The state [__init__] builds before it calls [start_new_day]. *)
Definition init : app :=
  mkapp None false [] 0 "Ready to start logging..." None false false.

Definition start_timer (a : app) : app :=
  if timer_active a then a
  else mkapp (day_folder a) true (timer_threads a ++ [AtWhile]) (popups a)
             (status_label a) (worklog_window a) (window_callback a) (quit a).

(** The [while os.path.exists(self.day_folder)] loop of [start_new_day]. *)
Fixpoint next_folder (fuel : nat) (t : tree) (day_folder_base : string)
    (folder_num : Z) : option string :=
  let day_folder := day_folder_base +:+ "." +:+ format_03d folder_num in
  if negb (path_exists t day_folder) then Some day_folder
  else
    match fuel with
    | O => None
    | S fuel' => next_folder fuel' t day_folder_base (folder_num + 1)%Z
    end.

(** [existing_folders.sort(); existing_folders[-1]] *)
Definition sorted_last (names : list string) : string :=
  List.last (merge_sort String.le names) EmptyString.

(** [start_new_day]; [t] is the content of [worklog_folder] once
    [os.makedirs(worklog_folder, exist_ok=True)] has run. *)
Definition start_new_day (fuel : nat) (t : tree) (a : app) (now : datetime)
    : option (res (tree * app)) :=
  let today := strftime_Ymd now in
  match next_folder fuel t today 1 with
  | None => None
  | Some candidate =>
      let existing_folders :=
        List.filter (fun f => startswith f today && isdir t f) (listdir_root t) in
      let chosen :=
        match existing_folders with
        | [] => let* t' := makedirs t candidate in Ret (t', candidate)
        | _ => Ret (t, sorted_last existing_folders)
        end in
      Some (let* r := chosen in
            let a' := start_timer a in
            Ret (r.1,
                 mkapp (Some r.2) (timer_active a') (timer_threads a') (popups a')
                       ("Logging to: " +:+ r.2) (Some r.2) false (quit a')))
  end.

(** One pass of the body of [timer_loop] up to [time.sleep]: the next
    trigger and the time to wait for it, in microseconds. *)
Definition next_trigger (now : datetime) (popup_at_minute : Z) : res (datetime * Z) :=
  let* next_hour := replace_minute now popup_at_minute in
  let* next_hour := if ge now next_hour then add next_hour (hours 1)
                    else Ret next_hour in
  Ret (next_hour, sub next_hour now).

(** One step of a timer thread: the new position and the number of
    popups it asked for.  [now] is [datetime.now()], read at [AtWhile]. *)
Definition timer_loop_step (popup_at_minute : Z) (now : datetime)
    (active : bool) (p : pc) : pc * nat :=
  match p with
  | AtWhile =>
      if active then
        match next_trigger now popup_at_minute with
        | Ret (next_hour, wait) => (Sleeping next_hour wait, 0%nat)
        | Raise e => (Crashed e, 0%nat)
        end
      else (Finished, 0%nat)
  | Sleeping _ _ => (AfterSleep, 0%nat)
  | AfterSleep => if active then (AtWhile, 1%nat) else (AtWhile, 0%nat)
  | Finished => (Finished, 0%nat)
  | Crashed e => (Crashed e, 0%nat)
  end.

Definition close_app (a : app) : app :=
  mkapp (day_folder a) false (timer_threads a) (popups a) (status_label a)
        (worklog_window a) (window_callback a) true.

Definition end_of_day (a : app) : app :=
  match day_folder a with
  | None => a                        (* a warning is shown *)
  | Some _ =>
      match worklog_window a with
      | Some w =>
          mkapp (day_folder a) false (timer_threads a) (popups a)
                (status_label a) (Some w) true (quit a)
      | None =>
          close_app (mkapp (day_folder a) false (timer_threads a) (popups a)
                           (status_label a) None (window_callback a) (quit a))
      end
  end.

(** What can happen to the scheduler: thread [i] takes a step at the
    clock reading [now], or the foreground runs one of its commands. *)
Inductive action :=
  | Worker (i : nat) (now : datetime)
  | StartTimer
  | CloseApp
  | EndOfDay.

Definition step (popup_at_minute : Z) (a : app) (act : action) : app :=
  match act with
  | Worker i now =>
      match timer_threads a !! i with
      | Some p =>
          let r := timer_loop_step popup_at_minute now (timer_active a) p in
          mkapp (day_folder a) (timer_active a) (<[i := r.1]> (timer_threads a))
                (popups a + r.2) (status_label a) (worklog_window a)
                (window_callback a) (quit a)
      | None => a
      end
  | StartTimer => start_timer a
  | CloseApp => close_app a
  | EndOfDay => end_of_day a
  end.

Definition run (popup_at_minute : Z) (a : app) (acts : list action) : app :=
  fold_left (step popup_at_minute) acts a.

(** The Save button of [self.worklog_window]: [save_entry] runs on the
    window's day folder with the window's callback, which, when set, is
    [close_app]. *)
Definition save_button (os : TextIO.platform) (fuel : nat) (t : tree) (a : app)
    (text : pystr) (answer : bool) (now : datetime)
    : option (HourlyWorklogWindow.result * app) :=
  match worklog_window a with
  | Some w =>
      let r := HourlyWorklogWindow.save_entry os fuel t w text answer now
                 (window_callback a) in
      let called :=
        existsb (fun ev => match ev with
                           | HourlyWorklogWindow.CallbackCalled => true
                           | _ => false
                           end) (HourlyWorklogWindow.ui r) in
      Some (r, if called then close_app a else a)
  | None => None
  end.
End HourliesApp.

(** ** Auxiliary definitions used by the proofs *)

Module Aux.
Import DateTime FS HourlyWorklogWindow.
Open Scope Z_scope.

(** [p] holds on [i], [i + 1], ..., [i + n - 1]. *)
Fixpoint all_from (n : nat) (i : Z) (p : Z -> bool) : bool :=
  match n with
  | O => true
  | S k => p i && all_from k (i + 1) p
  end.

(** Day [r + 1] of the first 400-year cycle converts to a date of the
    years 1..400 that converts back to it. *)
Definition cycle_ok (r : Z) : bool :=
  let '(y, m, d) := ord2ymd (r + 1) in
  (ymd2ord y m d =? r + 1) && (1 <=? y) && (y <=? 400)
  && (1 <=? m) && (m <=? 12) && (1 <=? d) && (d <=? days_in_month y m).

(** From one year to the next the ordinal grows by the year's length. *)
Definition year_step_ok (y : Z) : bool :=
  days_before_year (y + 1) =? days_before_year y + (if is_leap y then 366 else 365).

(** A wall-clock instant whose minute-of-hour is [m] and whose seconds and
    sub-seconds are zero. *)
Definition trigger_instant (m : Z) (t : datetime) : Prop :=
  valid t = true /\ minute t = m /\ second t = 0 /\ microsecond t = 0.

(** The day folder name for sequence number [n]. *)
Definition numbered (today : string) (n : Z) : string :=
  today +:+ "." +:+ format_03d n.

(** The application state once [start_new_day] has adopted [f]. *)
Definition adopted (a : HourliesApp.app) (f : string) : HourliesApp.app :=
  let a' := HourliesApp.start_timer a in
  HourliesApp.mkapp (Some f) (HourliesApp.timer_active a')
    (HourliesApp.timer_threads a') (HourliesApp.popups a')
    ("Logging to: " +:+ f) (Some f) false (HourliesApp.quit a').

(** [f] is a directory of the worklog folder whose name starts with
    [today]. *)
Definition folder_of_day (t : tree) (today f : string) : Prop :=
  PyStr.startswith f today = true /\ isdir t f = true.



(** The entry name for the time [k] whole minutes after [now]. *)
Definition advanced (now : datetime) (k : Z) : string :=
  strftime_YmdHM (of_us (to_us now + minutes k)) +:+ SUFFIX.

(** [now] plus [k] minutes is still a [datetime]. *)
Definition in_range (now : datetime) (k : Z) : Prop :=
  to_us now + minutes k < (MAXORDINAL + 1) * US_PER_DAY.

(** [f] is the first name in [advanced now 0], [advanced now 1], ... that
    the day folder does not have. *)
Definition first_free (t : tree) (day_folder : string) (now : datetime)
    (f : string) : Prop :=
  exists k, 0 <= k /\ f = advanced now k
    /\ entries_of t day_folder !! f = None
    /\ forall j, 0 <= j < k -> is_Some (entries_of t day_folder !! advanced now j).

(** [f] is the lexicographically last entry of the day folder whose name
    ends in the entry suffix. *)
Definition latest_entry (t : tree) (day_folder : string) (f : string) : Prop :=
  is_Some (entries_of t day_folder !! f)
  /\ PyStr.endswith f SUFFIX = true
  /\ forall g, is_Some (entries_of t day_folder !! g) ->
       PyStr.endswith g SUFFIX = true -> String.le g f.

(** No entry of [t] is missing from [t'] or differs there. *)
Definition unchanged (t t' : tree) : Prop :=
  forall dir name x,
    entries_of t dir !! name = Some x -> entries_of t' dir !! name = Some x.

(** One press of the save button. *)
Record request := mkreq {
  req_text : list Z;
  req_answer : bool;
  req_now : datetime;
  req_callback : bool
}.

(** A sequence of saves into one day folder: each with the tree it
    started from and its result. *)
Fixpoint save_all (os : TextIO.platform) (fuel : nat) (t : tree)
    (day_folder : string) (reqs : list request) : list (tree * result) :=
  match reqs with
  | [] => []
  | q :: rest =>
      let r := save_entry os fuel t day_folder (req_text q) (req_answer q)
                 (req_now q) (req_callback q) in
      (t, r) :: save_all os fuel (fs_after r) day_folder rest
  end.

(** A request that can be saved when [n] names are taken: its text is
    not empty after stripping and can be encoded, and [n] minutes after
    its time the calendar has not ended. *)
Definition savable (os : TextIO.platform) (n : nat) (q : request) : Prop :=
  PyStr.strip (req_text q) <> []
  /\ is_Some (TextIO.to_disk os (PyStr.strip (req_text q)))
  /\ in_range (req_now q) (Z.of_nat n).

(** The file a save opened for writing, and the file it wrote. *)
Definition opened_name (r : result) : option string :=
  match outcome_of r with
  | Saved f _ | SaveFailed f _ => Some f
  | _ => None
  end.

Definition saved_name (r : result) : option string :=
  match outcome_of r with
  | Saved f _ => Some f
  | _ => None
  end.

(** The entry name [save_entry] derives from a time. *)
Definition entry_name (dt : datetime) : string := strftime_YmdHM dt +:+ SUFFIX.

(** [dt.replace(second=0, microsecond=0)]: the minute [dt] falls in. *)
Definition floor_minute (dt : datetime) : datetime :=
  mkdt (year dt) (month dt) (day dt) (hour dt) (minute dt) 0 0.

(** A scheduler command that clears [timer_active]. *)
Definition stops (act : HourliesApp.action) : bool :=
  match act with
  | HourliesApp.CloseApp | HourliesApp.EndOfDay => true
  | _ => false
  end.

(** The three steps of one pass of thread [i] through [timer_loop],
    with the clock reading [now] at the top of the loop. *)
Definition loop_pass (i : nat) (now : datetime) : list HourliesApp.action :=
  [HourliesApp.Worker i now; HourliesApp.Worker i now; HourliesApp.Worker i now].

(** A thread that is not inside [time.sleep] or just past it. *)
Definition at_loop_head (p : HourliesApp.pc) : bool :=
  match p with
  | HourliesApp.Sleeping _ _ | HourliesApp.AfterSleep => false
  | _ => true
  end.

(** The number a string of decimal digits denotes. *)
Definition dval (c : ascii) : Z := Z.of_N (N_of_ascii c) - 48.

Fixpoint value_from (acc : Z) (s : string) : Z :=
  match s with
  | EmptyString => acc
  | String c r => value_from (acc * 10 + dval c) r
  end.
End Aux.

(** ** Sample data for the examples *)

Module Sample.
Import DateTime FS HourlyWorklogWindow HourliesApp Aux.
Open Scope string_scope.

Definition morning : datetime := mkdt 2025 1 1 10 0 5 0.     (* 10:00:05 *)
Definition afternoon : datetime := mkdt 2025 1 1 13 0 30 0.  (* 13:00:30 *)

(** A worklog folder with two day folders for 2025-01-01; the second one
    holds the entries of 12:00 and 13:00. *)
Definition two_sessions : tree :=
  {[ "20250101.001" := NFolder (mkfolder ∅ true);
     "20250101.002" :=
       NFolder (mkfolder {[ "202501011200.hourlies" := Regular "abc" true;
                            "202501011300.hourlies" := Regular "xyz" true ]}
                         true) ]}.

(** A worklog folder after a thousand sessions on 2025-01-01, of which
    the last two day folders are left. *)
Definition thousand_sessions : tree :=
  {[ "20250101.999" := NFolder (mkfolder ∅ true);
     "20250101.1000" := NFolder (mkfolder ∅ true) ]}.

(** A worklog folder whose day folder has lost all its permissions. *)
Definition locked_day : tree := {[ "20250101.001" := NNoAccess ]}.

(** A worklog folder in which a regular file has the name of the first
    day folder. *)
Definition file_in_the_way : tree := {[ "20250101.001" := NFile ]}.

(** Three notes, all saved within the minute 13:00. *)
Definition three_saves : list request :=
  [mkreq [97] false afternoon false;
   mkreq [98] false afternoon false;
   mkreq [99] false afternoon false].

(** A stopped application whose timer thread is still asleep. *)
Definition stopped : app :=
  close_app (mkapp (Some "20250101.002") true
               [Sleeping (mkdt 2025 1 1 11 0 0 0) 3595000000] 0
               "Logging to: 20250101.002" (Some "20250101.002") false false).

(** A parser that understands the empty object only. *)
Definition toy_load (text : string) : option Config.json :=
  if String.eqb text "{}" then Some (Config.JObj ∅) else None.

Definition toy_dump (_ : Config.json) : string := "{}".

(** A serializer and a parser that agree on the default configuration. *)
Definition defaults_dump (_ : Config.json) : string := "defaults".

Definition defaults_load (text : string) : option Config.json :=
  if String.eqb text "defaults" then Some (Config.default_copy "/home/u")
  else None.

(** An environment in which only [APPDATA] is set. *)
Definition roaming_only (name : string) : option string :=
  if String.eqb name "APPDATA" then Some "C:\Users\u\AppData\Roaming"
  else if String.eqb name "LOCALAPPDATA" then Some ""
  else None.

(** The application after [start_new_day], with its worklog window. *)
Definition logging : app := adopted init "20250101.002".
End Sample.

(** * Proofs *)

(** * Facts about [datetime] *)

Section CalendarChecks.
Import DateTime Aux.
Open Scope Z_scope.

Lemma all_from_spec n : forall i p,
  all_from n i p = true -> forall r, i <= r < i + Z.of_nat n -> p r = true.
Proof.
  induction n as [|k IH]; simpl; intros i p H r Hr; [lia|].
  apply andb_prop in H as [H1 H2].
  destruct (decide (r = i)) as [->|]; [done|].
  apply (IH (i + 1)); [done|lia].
Qed.

(** The conversions agree on every day of the first 400 years, by
    evaluation. *)
Lemma cycle_checked : all_from (Z.to_nat DI400Y) 0 cycle_ok = true.
Proof. vm_cast_no_check (eq_refl true). Qed.

Lemma cycle_ok_all r : 0 <= r < DI400Y -> cycle_ok r = true.
Proof.
  intros Hr. apply (all_from_spec _ _ _ cycle_checked).
  rewrite Z2Nat.id; unfold DI400Y in *; lia.
Qed.

Lemma year_step_checked : all_from 400 0 year_step_ok = true.
Proof. vm_cast_no_check (eq_refl true). Qed.
End CalendarChecks.

(** Turn boolean comparisons in the hypotheses into propositions. *)
Ltac zbool :=
  repeat match goal with
  | H : (_ && _) = true |- _ => apply andb_prop in H as [? ?]
  | H : (_ <=? _)%Z = true |- _ => apply Z.leb_le in H
  | H : (_ <? _)%Z = true |- _ => apply Z.ltb_lt in H
  | H : (_ =? _)%Z = true |- _ => apply Z.eqb_eq in H
  | H : (_ <=? _)%Z = false |- _ => apply Z.leb_gt in H
  | H : (_ <? _)%Z = false |- _ => apply Z.ltb_ge in H
  | H : (_ =? _)%Z = false |- _ => apply Z.eqb_neq in H
  | H : negb _ = true |- _ => apply negb_true_iff in H
  | H : negb _ = false |- _ => apply negb_false_iff in H
  end.

Section Calendar.
Import DateTime Aux.
Open Scope Z_scope.

Lemma is_leap_shift y q : is_leap (y + 400 * q) = is_leap y.
Proof.
  unfold is_leap.
  replace ((y + 400 * q) mod 4) with (y mod 4)
    by (replace (y + 400 * q) with (y + (100 * q) * 4) by lia; now rewrite Z_mod_plus_full).
  replace ((y + 400 * q) mod 100) with (y mod 100)
    by (replace (y + 400 * q) with (y + (4 * q) * 100) by lia; now rewrite Z_mod_plus_full).
  replace ((y + 400 * q) mod 400) with (y mod 400)
    by (replace (y + 400 * q) with (y + q * 400) by lia; now rewrite Z_mod_plus_full).
  reflexivity.
Qed.

Lemma days_before_year_shift y q :
  days_before_year (y + 400 * q) = days_before_year y + DI400Y * q.
Proof.
  unfold days_before_year, DI400Y. cbv zeta.
  Z.div_mod_to_equations. lia.
Qed.

Lemma days_before_year_succ y :
  days_before_year (y + 1) = days_before_year y + (if is_leap y then 366 else 365).
Proof.
  unfold days_before_year, is_leap. cbv zeta.
  replace (y + 1 - 1) with y by lia.
  destruct (Z.eqb_spec (y mod 4) 0), (Z.eqb_spec (y mod 100) 0),
    (Z.eqb_spec (y mod 400) 0); simpl; Z.div_mod_to_equations; lia.
Qed.

Lemma ymd2ord_shift y m d q :
  ymd2ord (y + 400 * q) m d = ymd2ord y m d + DI400Y * q.
Proof.
  unfold ymd2ord, days_before_month.
  rewrite days_before_year_shift, is_leap_shift. lia.
Qed.

Lemma days_in_month_shift y m q :
  days_in_month (y + 400 * q) m = days_in_month y m.
Proof. unfold days_in_month. now rewrite is_leap_shift. Qed.

Lemma ord2ymd_shift n :
  ord2ymd n =
  let '(y, m, d) := ord2ymd ((n - 1) mod DI400Y + 1) in
  (y + 400 * ((n - 1) / DI400Y), m, d).
Proof.
  assert (Hr : 0 <= (n - 1) mod DI400Y < DI400Y) by (apply Z.mod_pos_bound; reflexivity).
  unfold ord2ymd. cbv zeta.
  replace ((n - 1) mod DI400Y + 1 - 1) with ((n - 1) mod DI400Y) by lia.
  rewrite (Z.mod_small _ _ Hr), (Z.div_small _ _ Hr).
  generalize dependent ((n - 1) mod DI400Y). intros r Hr.
  generalize ((n - 1) / DI400Y). intros q.
  repeat match goal with
  | |- context [if ?b then _ else _] => destruct b
  end; f_equal; try f_equal; lia.
Qed.

Lemma ord2ymd_spec n :
  1 <= n ->
  exists y m d,
    ord2ymd n = (y, m, d) /\ ymd2ord y m d = n /\ 1 <= y
    /\ 1 <= m <= 12 /\ 1 <= d <= days_in_month y m.
Proof.
  intros Hn.
  assert (Hr : 0 <= (n - 1) mod DI400Y < DI400Y) by (apply Z.mod_pos_bound; reflexivity).
  assert (Hq : 0 <= (n - 1) / DI400Y) by (apply Z.div_pos; [lia | reflexivity]).
  pose proof (Z.div_mod (n - 1) DI400Y ltac:(discriminate)) as Hdm.
  pose proof (cycle_ok_all _ Hr) as Hc. unfold cycle_ok in Hc.
  rewrite ord2ymd_shift.
  destruct (ord2ymd ((n - 1) mod DI400Y + 1)) as [[y m] d].
  zbool.
  exists (y + 400 * ((n - 1) / DI400Y)), m, d.
  rewrite ymd2ord_shift, days_in_month_shift.
  unfold DI400Y in *. repeat split; try reflexivity; lia.
Qed.

Lemma days_before_year_mono y y' :
  y <= y' -> days_before_year y <= days_before_year y'.
Proof.
  intros H. pattern y'. apply Z.le_ind with (n := y); [solve_proper | lia | | exact H].
  intros k _ IH. unfold Z.succ. rewrite days_before_year_succ.
  destruct (is_leap k); lia.
Qed.

Lemma days_before_month_bounds y m d :
  1 <= m <= 12 -> 1 <= d <= days_in_month y m ->
  0 < days_before_month y m + d <= (if is_leap y then 366 else 365).
Proof.
  intros Hm Hd. unfold days_before_month, days_in_month in *.
  assert (Hc : m = 1 \/ m = 2 \/ m = 3 \/ m = 4 \/ m = 5 \/ m = 6 \/ m = 7
               \/ m = 8 \/ m = 9 \/ m = 10 \/ m = 11 \/ m = 12) by lia.
  destruct (is_leap y);
    repeat (destruct Hc as [-> | Hc]); try subst m; simpl in *; lia.
Qed.

Lemma ymd2ord_range y m d :
  1 <= m <= 12 -> 1 <= d <= days_in_month y m ->
  days_before_year y < ymd2ord y m d <= days_before_year (y + 1).
Proof.
  intros Hm Hd. unfold ymd2ord. rewrite days_before_year_succ.
  pose proof (days_before_month_bounds y m d Hm Hd). lia.
Qed.

Lemma ymd2ord_month_lt y m d m' d' :
  1 <= m -> m < m' -> m' <= 12 ->
  1 <= d <= days_in_month y m -> 1 <= d' <= days_in_month y m' ->
  ymd2ord y m d < ymd2ord y m' d'.
Proof.
  intros H1 H2 H3 Hd Hd'. unfold ymd2ord, days_before_month, days_in_month in *.
  assert (Hc : m = 1 \/ m = 2 \/ m = 3 \/ m = 4 \/ m = 5 \/ m = 6 \/ m = 7
               \/ m = 8 \/ m = 9 \/ m = 10 \/ m = 11) by lia.
  assert (Hc' : m' = 2 \/ m' = 3 \/ m' = 4 \/ m' = 5 \/ m' = 6 \/ m' = 7
               \/ m' = 8 \/ m' = 9 \/ m' = 10 \/ m' = 11 \/ m' = 12) by lia.
  destruct (is_leap y);
    repeat (destruct Hc as [-> | Hc]); try subst m;
    repeat (destruct Hc' as [-> | Hc']); try subst m'; simpl in *; lia.
Qed.

Lemma ymd2ord_year_lt y m d y' m' d' :
  y < y' ->
  1 <= m <= 12 -> 1 <= d <= days_in_month y m ->
  1 <= m' <= 12 -> 1 <= d' <= days_in_month y' m' ->
  ymd2ord y m d < ymd2ord y' m' d'.
Proof.
  intros Hy Hm Hd Hm' Hd'.
  pose proof (ymd2ord_range y m d Hm Hd).
  pose proof (ymd2ord_range y' m' d' Hm' Hd').
  pose proof (days_before_year_mono (y + 1) y' ltac:(lia)). lia.
Qed.

Lemma ord2ymd_year_max n y m d :
  1 <= n <= MAXORDINAL -> ord2ymd n = (y, m, d) -> y <= MAXYEAR.
Proof.
  intros Hn He. destruct (ord2ymd_spec n) as (y0 & m0 & d0 & E & Ho & Hy & Hm & Hd); [lia|].
  rewrite E in He. injection He as -> -> ->.
  destruct (Z_le_gt_dec y MAXYEAR) as [|Hgt]; [done|].
  pose proof (ymd2ord_range y m d Hm Hd).
  pose proof (days_before_year_mono 10000 y ltac:(unfold MAXYEAR in *; lia)) as Hmono.
  change (days_before_year 10000) with MAXORDINAL in Hmono. lia.
Qed.
End Calendar.

Section DateTimeFacts.
Import DateTime Aux.
Open Scope Z_scope.

Lemma valid_spec dt :
  valid dt = true <->
  (1 <= year dt <= 9999 /\ 1 <= month dt <= 12
   /\ 1 <= day dt <= days_in_month (year dt) (month dt)
   /\ 0 <= hour dt < 24 /\ 0 <= minute dt < 60 /\ 0 <= second dt < 60
   /\ 0 <= microsecond dt < 1000000).
Proof.
  unfold valid, MINYEAR, MAXYEAR, US_PER_SECOND.
  rewrite !andb_true_iff, !Z.leb_le, !Z.ltb_lt. tauto.
Qed.

Lemma toordinal_bounds dt :
  valid dt = true -> 1 <= toordinal dt <= MAXORDINAL.
Proof.
  intros (Hy & Hm & Hd & _)%valid_spec. unfold toordinal.
  pose proof (ymd2ord_range _ _ _ Hm Hd).
  pose proof (days_before_year_mono 1 (year dt) ltac:(lia)) as H1.
  pose proof (days_before_year_mono (year dt + 1) 10000 ltac:(lia)) as H2.
  change (days_before_year 1) with 0 in H1.
  change (days_before_year 10000) with MAXORDINAL in H2. lia.
Qed.

Lemma to_us_div dt :
  valid dt = true -> to_us dt / US_PER_DAY = toordinal dt.
Proof.
  intros (_ & _ & _ & Hh & Hmi & Hs & Hu)%valid_spec.
  unfold to_us, US_PER_DAY, US_PER_HOUR, US_PER_MINUTE, US_PER_SECOND.
  symmetry. apply Z.div_unique with
    (r := hour dt * 3600000000 + minute dt * 60000000 + second dt * 1000000 + microsecond dt); lia.
Qed.

Lemma to_us_mod dt :
  valid dt = true ->
  to_us dt mod US_PER_DAY =
  hour dt * US_PER_HOUR + minute dt * US_PER_MINUTE + second dt * US_PER_SECOND
  + microsecond dt.
Proof.
  intros (_ & _ & _ & Hh & Hmi & Hs & Hu)%valid_spec.
  unfold to_us, US_PER_DAY, US_PER_HOUR, US_PER_MINUTE, US_PER_SECOND.
  symmetry. apply Z.mod_unique with (q := toordinal dt); lia.
Qed.

Lemma of_us_valid t :
  1 <= t / US_PER_DAY <= MAXORDINAL ->
  valid (of_us t) = true /\ to_us (of_us t) = t.
Proof.
  intros Ht. unfold of_us.
  destruct (ord2ymd_spec (t / US_PER_DAY)) as (y & m & d & E & Ho & Hy & Hm & Hd); [lia|].
  pose proof (ord2ymd_year_max _ _ _ _ Ht E) as Hmax.
  rewrite E.
  assert (Hr : 0 <= t mod US_PER_DAY < US_PER_DAY) by (apply Z.mod_pos_bound; reflexivity).
  pose proof (Z.div_mod t US_PER_DAY ltac:(discriminate)) as Hdm.
  split.
  - apply valid_spec. simpl. unfold MAXYEAR, US_PER_DAY, US_PER_HOUR,
      US_PER_MINUTE, US_PER_SECOND in *.
    repeat split; try lia; Z.div_mod_to_equations; lia.
  - unfold to_us, toordinal. simpl. rewrite Ho.
    unfold US_PER_DAY, US_PER_HOUR, US_PER_MINUTE, US_PER_SECOND in *.
    Z.div_mod_to_equations; lia.
Qed.

Lemma cmp_refl a : cmp a a = Eq.
Proof. unfold cmp. now rewrite !Z.compare_refl. Qed.

Lemma cmp_Eq a b : cmp a b = Eq -> a = b.
Proof.
  destruct a, b. unfold cmp. simpl. intros H.
  repeat match type of H with
  | match ?x ?= ?y with _ => _ end = Eq =>
      destruct (Z.compare_spec x y); try discriminate; subst
  end.
  apply Z.compare_eq in H. now subst.
Qed.

Lemma cmp_antisym a b : cmp b a = CompOpp (cmp a b).
Proof.
  unfold cmp.
  rewrite (Z.compare_antisym (year a)), (Z.compare_antisym (month a)),
    (Z.compare_antisym (day a)), (Z.compare_antisym (hour a)),
    (Z.compare_antisym (minute a)), (Z.compare_antisym (second a)),
    (Z.compare_antisym (microsecond a)).
  destruct (year a ?= year b), (month a ?= month b), (day a ?= day b),
    (hour a ?= hour b), (minute a ?= minute b), (second a ?= second b);
    reflexivity.
Qed.

Lemma cmp_Lt a b :
  valid a = true -> valid b = true -> cmp a b = Lt -> to_us a < to_us b.
Proof.
  intros Ha Hb.
  pose proof Ha as (Hya & Hma & Hda & Hha & Hmia & Hsa & Hua)%valid_spec.
  pose proof Hb as (Hyb & Hmb & Hdb & Hhb & Hmib & Hsb & Hub)%valid_spec.
  unfold cmp, to_us, toordinal,
    US_PER_DAY, US_PER_HOUR, US_PER_MINUTE, US_PER_SECOND.
  destruct (Z.compare_spec (year a) (year b)) as [Ey|Hy|Hy]; try discriminate.
  2:{ intros _. pose proof (ymd2ord_year_lt _ _ _ _ _ _ Hy Hma Hda Hmb Hdb). lia. }
  rewrite <- Ey in *.
  destruct (Z.compare_spec (month a) (month b)) as [Em|Hm|Hm]; try discriminate.
  2:{ intros _.
      pose proof (ymd2ord_month_lt (year a) (month a) (day a) (month b) (day b)
                    ltac:(lia) Hm ltac:(lia) Hda Hdb). lia. }
  rewrite <- Em in *.
  destruct (Z.compare_spec (day a) (day b)) as [Ed|Hd|Hd]; try discriminate.
  2:{ intros _. unfold ymd2ord. lia. }
  rewrite <- Ed.
  destruct (Z.compare_spec (hour a) (hour b)) as [Eh|Hh|Hh]; try discriminate.
  2:{ intros _. lia. }
  destruct (Z.compare_spec (minute a) (minute b)) as [Emi|Hmi|Hmi]; try discriminate.
  2:{ intros _. lia. }
  destruct (Z.compare_spec (second a) (second b)) as [Es|Hs|Hs]; try discriminate.
  2:{ intros _. lia. }
  intros Hu. change (microsecond a < microsecond b) in Hu. lia.
Qed.

(** Field-wise comparison is comparison of the instants. *)
Lemma cmp_to_us a b :
  valid a = true -> valid b = true -> cmp a b = (to_us a ?= to_us b).
Proof.
  intros Ha Hb. destruct (cmp a b) eqn:E; symmetry.
  - apply cmp_Eq in E. subst. apply Z.compare_refl.
  - apply Z.compare_lt_iff. now apply cmp_Lt.
  - apply Z.compare_gt_iff. apply cmp_Lt; try done.
    rewrite cmp_antisym, E. reflexivity.
Qed.

Lemma to_us_inj a b :
  valid a = true -> valid b = true -> to_us a = to_us b -> a = b.
Proof.
  intros Ha Hb E. apply cmp_Eq. rewrite cmp_to_us by done.
  rewrite E. apply Z.compare_refl.
Qed.

Lemma of_us_to_us dt : valid dt = true -> of_us (to_us dt) = dt.
Proof.
  intros H. pose proof (toordinal_bounds dt H) as Hb.
  rewrite <- to_us_div in Hb by done.
  destruct (of_us_valid _ Hb) as [Hv He]. now apply to_us_inj.
Qed.

Lemma add_Ret dt delta dt' :
  valid dt = true -> add dt delta = Ret dt' ->
  valid dt' = true /\ to_us dt' = to_us dt + delta.
Proof.
  unfold add. intros Hv H.
  destruct ((0 <? _) && _) eqn:E; [|discriminate].
  injection H as <-. zbool. apply of_us_valid. lia.
Qed.

Lemma day_of_range t :
  86400000000 <= t < 3652060 * 86400000000 -> 1 <= t / 86400000000 <= 3652059.
Proof. intros H. Z.div_mod_to_equations. lia. Qed.

Lemma add_in_range dt delta :
  US_PER_DAY <= to_us dt + delta < (MAXORDINAL + 1) * US_PER_DAY ->
  add dt delta = Ret (of_us (to_us dt + delta)).
Proof.
  intros H. apply day_of_range in H.
  change (1 <= (to_us dt + delta) / US_PER_DAY <= MAXORDINAL) in H.
  destruct H as [H1 H2]. unfold add. cbv zeta.
  destruct (Z.ltb_spec 0 ((to_us dt + delta) / US_PER_DAY)); [|lia].
  destruct (Z.leb_spec ((to_us dt + delta) / US_PER_DAY) MAXORDINAL); [|lia].
  reflexivity.
Qed.

Lemma add_Raise dt delta e :
  add dt delta = Raise e ->
  e = OverflowError
  /\ ~ US_PER_DAY <= to_us dt + delta < (MAXORDINAL + 1) * US_PER_DAY.
Proof.
  intros H. split.
  - revert H. unfold add. cbv zeta.
    destruct ((0 <? (to_us dt + delta) / US_PER_DAY)
              && ((to_us dt + delta) / US_PER_DAY <=? MAXORDINAL)).
    + intros H. discriminate H.
    + intros H. injection H as <-. reflexivity.
  - intros Hr. apply add_in_range in Hr. rewrite Hr in H. discriminate H.
Qed.
End DateTimeFacts.

Section Formatting.
Import DateTime Aux.
Open Scope Z_scope.

Lemma dval_digit n : dval (digit n) = n mod 10.
Proof.
  unfold dval, digit.
  pose proof (Z.mod_pos_bound n 10 ltac:(lia)).
  rewrite N_ascii_embedding by lia. lia.
Qed.

Lemma digit_inj a b : digit a = digit b -> a mod 10 = b mod 10.
Proof. intros H. rewrite <- !dval_digit. now rewrite H. Qed.

Lemma pad2_inj a b : 0 <= a < 100 -> 0 <= b < 100 -> pad2 a = pad2 b -> a = b.
Proof.
  unfold pad2. intros Ha Hb H. injection H as H1 H2.
  apply digit_inj in H1, H2. Z.div_mod_to_equations. lia.
Qed.

Lemma days_in_month_le y m : days_in_month y m <= 31.
Proof.
  unfold days_in_month, DAYS_IN_MONTH. destruct (_ && _); [lia|].
  destruct m as [|p|p]; try lia.
  do 5 (try (destruct p as [p|p|]; try lia)).
Qed.

Lemma strftime_YmdHM_inj a b :
  valid a = true -> valid b = true ->
  strftime_YmdHM a = strftime_YmdHM b ->
  year a = year b /\ month a = month b /\ day a = day b
  /\ hour a = hour b /\ minute a = minute b.
Proof.
  intros (Hya & Hma & Hda & Hha & Hmia & _)%valid_spec
         (Hyb & Hmb & Hdb & Hhb & Hmib & _)%valid_spec.
  pose proof (days_in_month_le (year a) (month a)) as Hla.
  pose proof (days_in_month_le (year b) (month b)) as Hlb.
  unfold strftime_YmdHM, strftime_Ymd, pad4, pad2. simpl. intros H.
  injection H as Y1 Y2 Y3 Y4 M1 M2 D1 D2 H1 H2 Mi1 Mi2.
  apply digit_inj in Y1, Y2, Y3, Y4, M1, M2, D1, D2, H1, H2, Mi1, Mi2.
  repeat split; Z.div_mod_to_equations; lia.
Qed.

(** Two datetimes in the same minute are less than a minute apart. *)
Lemma same_minute_close a b :
  valid a = true -> valid b = true ->
  year a = year b -> month a = month b -> day a = day b ->
  hour a = hour b -> minute a = minute b ->
  - US_PER_MINUTE < to_us a - to_us b < US_PER_MINUTE.
Proof.
  intros (_ & _ & _ & _ & _ & Hsa & Hua)%valid_spec
         (_ & _ & _ & _ & _ & Hsb & Hub)%valid_spec Ey Em Ed Eh Emi.
  unfold to_us, toordinal. rewrite Ey, Em, Ed, Eh, Emi.
  unfold US_PER_MINUTE, US_PER_SECOND. lia.
Qed.

Lemma string_app_assoc (s t u : string) : (s +:+ t) +:+ u = s +:+ (t +:+ u).
Proof.
  induction s as [|c s IH]; [done|].
  change (String c ((s +:+ t) +:+ u) = String c (s +:+ (t +:+ u))).
  now rewrite IH.
Qed.

Lemma value_from_app s t : forall acc,
  value_from acc (s +:+ t) = value_from (value_from acc s) t.
Proof. induction s as [|c s IH]; simpl; intros acc; [done|apply IH]. Qed.

Lemma digits_from_acc fuel : forall n acc,
  digits_from fuel n acc = digits_from fuel n EmptyString +:+ acc.
Proof.
  induction fuel as [|k IH]; simpl; intros n acc; [done|].
  destruct (n <? 10); [done|].
  rewrite (IH _ (String _ acc)), (IH _ (String _ EmptyString)).
  now rewrite string_app_assoc.
Qed.

Lemma value_digits_from fuel : forall n,
  0 <= n < 2 ^ Z.of_nat fuel ->
  value_from 0 (digits_from fuel n EmptyString) = n.
Proof.
  induction fuel as [|k IH]; intros n Hn.
  - simpl in *. lia.
  - simpl digits_from. destruct (Z.ltb_spec n 10).
    + simpl. rewrite dval_digit. rewrite Z.mod_small; lia.
    + rewrite digits_from_acc, value_from_app. simpl.
      rewrite dval_digit. rewrite IH.
      * Z.div_mod_to_equations. lia.
      * rewrite Nat2Z.inj_succ, Z.pow_succ_r in Hn by lia.
        Z.div_mod_to_equations. lia.
Qed.

Lemma value_format_03d n : 0 <= n -> value_from 0 (format_03d n) = n.
Proof.
  intros Hn. unfold format_03d. destruct (Z.ltb_spec n 100).
  - unfold pad2. simpl. rewrite !dval_digit. Z.div_mod_to_equations. lia.
  - unfold decimal. apply value_digits_from.
    rewrite Nat2Z.inj_succ, Z2Nat.id by (apply Z.log2_nonneg).
    split; [lia|]. apply Z.log2_spec. lia.
Qed.

Lemma format_03d_inj a b :
  0 <= a -> 0 <= b -> format_03d a = format_03d b -> a = b.
Proof.
  intros Ha Hb H. rewrite <- (value_format_03d a), <- (value_format_03d b) by done.
  now rewrite H.
Qed.
End Formatting.

(** * Lists of names: listing, sorting, counting *)

Section Names.
Context {V : Type}.
Implicit Types (m : gmap string V) (l : list string).

Lemma elem_of_keys m x : x ∈ (map_to_list m).*1 <-> is_Some (m !! x).
Proof.
  rewrite list_elem_of_fmap. split.
  - intros ([k v] & -> & H%elem_of_map_to_list). eauto.
  - intros [v H]. exists (x, v). split; [done|]. now apply elem_of_map_to_list.
Qed.

Lemma length_keys m : List.length (map_to_list m).*1 = size m.
Proof. now rewrite length_fmap, length_map_to_list. Qed.

(** Pairwise different names that all occur in a map are at most as many
    as the map has keys. *)
Lemma names_bounded m (f : nat -> string) (n : nat) :
  (forall i j, (i < n)%nat -> (j < n)%nat -> f i = f j -> i = j) ->
  (forall i, (i < n)%nat -> is_Some (m !! f i)) ->
  (n <= size m)%nat.
Proof.
  intros Hinj Hin.
  assert (Hnd : NoDup (f <$> seq 0 n)).
  { apply NoDup_fmap_2_strong; [|apply NoDup_seq].
    intros i j Hi%elem_of_seq Hj%elem_of_seq. apply Hinj; lia. }
  assert (Hsub : f <$> seq 0 n ⊆ (map_to_list m).*1).
  { intros x (i & -> & Hi%elem_of_seq)%list_elem_of_fmap.
    apply elem_of_keys, Hin. lia. }
  pose proof (submseteq_length _ _ (NoDup_submseteq _ _ Hnd Hsub)) as Hlen.
  rewrite length_fmap, length_seq, length_keys in Hlen. exact Hlen.
Qed.
End Names.

Section SortedLast.
Implicit Types (l : list string).

Lemma last_StronglySorted l d x :
  StronglySorted String.le l -> x ∈ l -> String.le x (List.last l d).
Proof.
  intros Hl. revert x.
  induction Hl as [|y l Hs IH Hall]; intros x Hx; [by apply elem_of_nil in Hx|].
  destruct l as [|z l'].
  - apply list_elem_of_singleton in Hx as ->. simpl. reflexivity.
  - change (List.last (y :: z :: l') d) with (List.last (z :: l') d).
    apply elem_of_cons in Hx as [->|Hx]; [|by apply IH].
    rewrite Forall_forall in Hall.
    etrans; [apply (Hall z); left | apply IH; left].
Qed.

Lemma last_elem_of l d : l <> [] -> List.last l d ∈ l.
Proof.
  induction l as [|y l IH]; [done|]. intros _.
  destruct l as [|z l']; [simpl; left|].
  change (List.last (y :: z :: l') d) with (List.last (z :: l') d).
  right. now apply IH.
Qed.

(** [l.sort(); l[-1]] is the greatest element of a non-empty [l]. *)
Lemma sorted_last_greatest l d :
  l <> [] ->
  List.last (merge_sort String.le l) d ∈ l
  /\ forall x, x ∈ l -> String.le x (List.last (merge_sort String.le l) d).
Proof.
  intros Hne.
  pose proof (merge_sort_Permutation String.le l) as Hp.
  split.
  - apply (elem_of_Permutation_proper _ _ _ Hp). apply last_elem_of.
    intros E. rewrite E in Hp. apply Permutation_nil_l in Hp. congruence.
  - intros x Hx. apply last_StronglySorted.
    + apply StronglySorted_merge_sort; apply _.
    + now apply (elem_of_Permutation_proper _ _ _ Hp).
Qed.

Lemma elem_of_filter_bool (p : string -> bool) l x :
  x ∈ List.filter p l <-> x ∈ l /\ p x = true.
Proof. rewrite !list_elem_of_In. apply filter_In. Qed.
End SortedLast.

(** * The scheduler *)

Section Scheduler.
Import DateTime Aux HourliesApp.
Open Scope Z_scope.

Lemma to_us_hours dt :
  to_us dt =
  US_PER_HOUR * (24 * toordinal dt + hour dt)
  + (minute dt * US_PER_MINUTE + second dt * US_PER_SECOND + microsecond dt).
Proof. unfold to_us, US_PER_DAY, US_PER_HOUR, US_PER_MINUTE, US_PER_SECOND. lia. Qed.

Lemma valid_in_range dt :
  valid dt = true ->
  US_PER_DAY <= to_us dt < (MAXORDINAL + 1) * US_PER_DAY.
Proof.
  intros H. pose proof (toordinal_bounds dt H).
  apply valid_spec in H as (_ & _ & _ & Hh & Hmi & Hs & Hu).
  unfold to_us, US_PER_DAY, US_PER_HOUR, US_PER_MINUTE, US_PER_SECOND, MAXORDINAL in *.
  lia.
Qed.

Lemma ge_to_us a b :
  valid a = true -> valid b = true -> (ge a b = true <-> to_us b <= to_us a).
Proof.
  intros Ha Hb. unfold ge. rewrite cmp_to_us by done.
  destruct (Z.compare_spec (to_us a) (to_us b)); split; intros; try done; lia.
Qed.

Lemma lt_to_us a b :
  valid a = true -> valid b = true -> (lt a b = true <-> to_us a < to_us b).
Proof.
  intros Ha Hb. unfold lt. rewrite cmp_to_us by done.
  destruct (Z.compare_spec (to_us a) (to_us b)); split; intros; try done; lia.
Qed.

Lemma lt_ge a b : lt a b = negb (ge a b).
Proof. unfold lt, ge. now destruct (cmp a b). Qed.

(** An instant that is a whole number of hours plus [m] minutes after
    ordinal 0 shows minute [m] and zero seconds. *)
Lemma aligned_fields t m k :
  valid t = true -> 0 <= m <= 59 ->
  to_us t = US_PER_HOUR * k + m * US_PER_MINUTE ->
  minute t = m /\ second t = 0 /\ microsecond t = 0.
Proof.
  intros (_ & _ & _ & Hh & Hmi & Hs & Hu)%valid_spec Hm.
  rewrite to_us_hours. unfold US_PER_HOUR, US_PER_MINUTE, US_PER_SECOND. lia.
Qed.

Lemma trigger_instant_to_us m t :
  trigger_instant m t ->
  to_us t = US_PER_HOUR * (24 * toordinal t + hour t) + m * US_PER_MINUTE.
Proof. intros (_ & <- & Hs & Hu). rewrite to_us_hours, Hs, Hu. lia. Qed.

Lemma replace_minute_valid now m :
  valid now = true -> 0 <= m <= 59 ->
  replace_minute now m = Ret (mkdt (year now) (month now) (day now) (hour now) m 0 0)
  /\ valid (mkdt (year now) (month now) (day now) (hour now) m 0 0) = true.
Proof.
  intros Hv Hm. split.
  - unfold replace_minute.
    destruct (Z.leb_spec 0 m), (Z.leb_spec m 59); try lia. reflexivity.
  - apply valid_spec in Hv. apply valid_spec. simpl. lia.
Qed.

Lemma next_trigger_general now m :
  valid now = true -> 0 <= m <= 59 ->
  match next_trigger now m with
  | Ret (t, wait) =>
      trigger_instant m t
      /\ lt now t = true
      /\ (forall t', trigger_instant m t' -> lt now t' = true -> ge t' t = true)
      /\ wait = to_us t - to_us now /\ 0 < wait <= US_PER_HOUR
  | Raise e =>
      e = OverflowError
      /\ forall t', trigger_instant m t' -> lt now t' = false
  end.
Proof.
  intros Hv Hm. unfold next_trigger.
  destruct (replace_minute_valid now m Hv Hm) as [-> Hc]. simpl.
  set (cand := mkdt _ _ _ _ m 0 0) in *.
  pose proof (to_us_hours now) as Hnow.
  pose proof (to_us_hours cand) as Hcand. simpl in Hcand.
  change (toordinal cand) with (toordinal now) in Hcand.
  pose proof Hv as (_ & _ & _ & Hh & Hmi & Hs & Hu)%valid_spec.
  destruct (ge now cand) eqn:Hge.
  - apply ge_to_us in Hge; [|done..].
    destruct (add cand (hours 1)) as [t|e] eqn:Ha; simpl.
    + apply add_Ret in Ha as [Ht Hus]; [|done]. unfold hours in Hus.
      assert (Hal : to_us t = US_PER_HOUR * (24 * toordinal now + hour now + 1)
                              + m * US_PER_MINUTE) by lia.
      destruct (aligned_fields _ _ _ Ht Hm Hal) as (Hm1 & Hm2 & Hm3).
      split; [done|]. split; [|split; [|split]].
      * apply lt_to_us; [done..|].
        unfold US_PER_HOUR, US_PER_MINUTE, US_PER_SECOND in *. lia.
      * intros t' Ht' Hlt. pose proof Ht' as [Hv' _].
        apply lt_to_us in Hlt; [|done..]. apply ge_to_us; [done..|].
        apply trigger_instant_to_us in Ht'.
        unfold US_PER_HOUR, US_PER_MINUTE, US_PER_SECOND in *. lia.
      * unfold sub. reflexivity.
      * unfold sub, US_PER_HOUR, US_PER_MINUTE, US_PER_SECOND in *. lia.
    + apply add_Raise in Ha as [-> Hout]. split; [done|].
      intros t' Ht'. pose proof Ht' as [Hv' _].
      destruct (lt now t') eqn:Hlt; [|done]. exfalso.
      apply lt_to_us in Hlt; [|done..].
      apply trigger_instant_to_us in Ht'.
      pose proof (valid_in_range _ Hv'). pose proof (valid_in_range _ Hc).
      apply Hout. unfold hours.
      unfold US_PER_DAY, US_PER_HOUR, US_PER_MINUTE, US_PER_SECOND, MAXORDINAL in *. lia.
  - simpl. assert (Hlt : lt now cand = true) by now rewrite lt_ge, Hge.
    split; [|split; [done|split; [|split]]].
    + repeat split; done.
    + intros t' Ht' Hlt'. pose proof Ht' as [Hv' _].
      apply lt_to_us in Hlt'; [|done..]. apply ge_to_us; [done..|].
      apply trigger_instant_to_us in Ht'.
      unfold US_PER_HOUR, US_PER_MINUTE, US_PER_SECOND in *. lia.
    + reflexivity.
    + apply lt_to_us in Hlt; [|done..].
      unfold sub, US_PER_HOUR, US_PER_MINUTE, US_PER_SECOND in *. lia.
Qed.

(** One hour later on the same day. *)
Lemma add_hour_same_day dt :
  valid dt = true -> hour dt < 23 ->
  add dt (hours 1) =
  Ret (mkdt (year dt) (month dt) (day dt) (hour dt + 1) (minute dt)
            (second dt) (microsecond dt)).
Proof.
  intros Hv Hh.
  set (dt' := mkdt _ _ _ (hour dt + 1) _ _ _).
  assert (Hv' : valid dt' = true).
  { apply valid_spec in Hv. apply valid_spec. simpl. lia. }
  assert (Hus : to_us dt' = to_us dt + hours 1).
  { unfold to_us, toordinal, hours. simpl.
    unfold US_PER_DAY, US_PER_HOUR, US_PER_MINUTE, US_PER_SECOND. lia. }
  rewrite add_in_range.
  - rewrite <- Hus. now rewrite of_us_to_us.
  - rewrite <- Hus. now apply valid_in_range.
Qed.

Lemma next_trigger_at_10_00_05 now :
  valid now = true -> hour now = 10 -> minute now = 0 -> second now = 5 ->
  next_trigger now 0 =
  Ret (mkdt (year now) (month now) (day now) 11 0 0 0,
       3595000000 - microsecond now).
Proof.
  intros Hv Hh Hmi Hs. unfold next_trigger.
  destruct (replace_minute_valid now 0 Hv ltac:(lia)) as [-> Hc]. simpl.
  set (cand := mkdt _ _ _ _ 0 0 0) in *.
  assert (Hge : ge now cand = true).
  { unfold ge, cmp. simpl. rewrite !Z.compare_refl, Hmi, Hs. reflexivity. }
  rewrite Hge, add_hour_same_day by (done || simpl; lia). simpl.
  rewrite Hh. do 2 f_equal.
  unfold sub, to_us, toordinal. simpl. rewrite Hh, Hmi, Hs.
  unfold US_PER_DAY, US_PER_HOUR, US_PER_MINUTE, US_PER_SECOND. lia.
Qed.
End Scheduler.

Section StoppedTimer.
Import DateTime Aux HourliesApp.




End StoppedTimer.

(** * Text on disk: UTF-8 and newline translation *)

Section Codec.
Import Utf8 TextIO.
Open Scope Z_scope.

Lemma scalar_spec c :
  scalar c = true <-> (0 <= c <= 1114111 /\ ~ 55296 <= c <= 57343).
Proof.
  unfold scalar, is_surrogate.
  rewrite !andb_true_iff, negb_true_iff, andb_false_iff, !Z.leb_le, !Z.leb_gt. lia.
Qed.

Lemma encode_char_bytes c bs :
  encode_char c = Some bs -> Forall (fun b => 0 <= b < 256) bs.
Proof.
  unfold encode_char. destruct (scalar c) eqn:Hs; [|discriminate].
  apply scalar_spec in Hs. simpl.
  repeat case_match; intros [= <-]; zbool;
    repeat (apply Forall_cons; split); try apply Forall_nil;
    Z.div_mod_to_equations; lia.
Qed.

(** Decide the comparisons of the goal one at a time. *)
Ltac cmp_cases :=
  repeat match goal with
  | |- context [?a <=? ?b] => destruct (Z.leb_spec a b); try lia
  | |- context [?a <? ?b] => destruct (Z.ltb_spec a b); try lia
  end.

Lemma decode_1 b0 rest :
  0 <= b0 < 128 -> decode_bytes (b0 :: rest) = cons b0 <$> decode_bytes rest.
Proof. intros H. cbn [decode_bytes]. cmp_cases. reflexivity. Qed.

Lemma decode_2 b0 b1 rest :
  194 <= b0 <= 223 -> 128 <= b1 <= 191 ->
  decode_bytes (b0 :: b1 :: rest) =
  cons ((b0 - 192) * 64 + (b1 - 128)) <$> decode_bytes rest.
Proof. intros H0 H1. cbn [decode_bytes]. unfold cont. cmp_cases. reflexivity. Qed.

Lemma decode_3 b0 b1 b2 rest :
  224 <= b0 <= 239 -> 128 <= b1 <= 191 -> 128 <= b2 <= 191 ->
  let c := (b0 - 224) * 4096 + (b1 - 128) * 64 + (b2 - 128) in
  2048 <= c -> ~ 55296 <= c <= 57343 ->
  decode_bytes (b0 :: b1 :: b2 :: rest) = cons c <$> decode_bytes rest.
Proof.
  intros H0 H1 H2 c Hc Hs. cbn [decode_bytes]. fold c.
  unfold cont, is_surrogate. cmp_cases; reflexivity.
Qed.

Lemma decode_4 b0 b1 b2 b3 rest :
  240 <= b0 <= 244 -> 128 <= b1 <= 191 -> 128 <= b2 <= 191 -> 128 <= b3 <= 191 ->
  let c := (b0 - 240) * 262144 + (b1 - 128) * 4096 + (b2 - 128) * 64 + (b3 - 128) in
  65536 <= c <= 1114111 ->
  decode_bytes (b0 :: b1 :: b2 :: b3 :: rest) = cons c <$> decode_bytes rest.
Proof.
  intros H0 H1 H2 H3 c Hc. cbn [decode_bytes]. fold c.
  unfold cont. cmp_cases. reflexivity.
Qed.

Lemma decode_encode_char c bs rest :
  encode_char c = Some bs ->
  decode_bytes (bs ++ rest) = cons c <$> decode_bytes rest.
Proof.
  unfold encode_char. destruct (scalar c) eqn:Hs; [|discriminate].
  apply scalar_spec in Hs. simpl.
  destruct (Z.ltb_spec c 128).
  { intros [= <-]. apply decode_1. lia. }
  destruct (Z.ltb_spec c 2048).
  { intros [= <-]. cbn [app].
    rewrite decode_2 by (Z.div_mod_to_equations; lia).
    do 2 f_equal. Z.div_mod_to_equations; lia. }
  destruct (Z.ltb_spec c 65536).
  { intros [= <-]. cbn [app].
    assert (E : (224 + c / 4096 - 224) * 4096 + (128 + (c / 64) mod 64 - 128) * 64
                + (128 + c mod 64 - 128) = c) by (Z.div_mod_to_equations; lia).
    rewrite decode_3; rewrite ?E; try lia; try (Z.div_mod_to_equations; lia).
    reflexivity. }
  intros [= <-]. cbn [app].
  assert (E : (240 + c / 262144 - 240) * 262144 + (128 + (c / 4096) mod 64 - 128) * 4096
              + (128 + (c / 64) mod 64 - 128) * 64 + (128 + c mod 64 - 128) = c)
    by (Z.div_mod_to_equations; lia).
  rewrite decode_4; rewrite ?E; try lia; try (Z.div_mod_to_equations; lia).
  reflexivity.
Qed.

Lemma decode_encode_bytes s : forall bs,
  encode_bytes s = Some bs ->
  decode_bytes bs = Some s /\ Forall (fun b => 0 <= b < 256) bs.
Proof.
  induction s as [|c s IH]; simpl; intros bs H.
  - injection H as <-. split; [reflexivity|constructor].
  - destruct (encode_char c) as [cb|] eqn:Hc; [|discriminate].
    destruct (encode_bytes s) as [rest|] eqn:Hr; [|discriminate].
    injection H as <-. destruct (IH rest eq_refl) as [Hd Hf]. split.
    + rewrite (decode_encode_char _ _ _ Hc), Hd. reflexivity.
    + apply Forall_app. split; [|done]. now apply encode_char_bytes in Hc.
Qed.

Lemma byte_val_of b : 0 <= b < 256 -> byte_val (byte_of b) = b.
Proof.
  intros Hb. unfold byte_val, byte_of.
  rewrite N_ascii_embedding by lia. lia.
Qed.

Lemma bytes_roundtrip (l : list Z) :
  Forall (fun b => 0 <= b < 256) l -> byte_val <$> (byte_of <$> l) = l.
Proof.
  induction 1 as [|b l Hb _ IH]; [done|].
  rewrite !fmap_cons, byte_val_of, IH; done.
Qed.

(** Decoding what was encoded gives the string back. *)
Lemma decode_encode s data : encode s = Some data -> decode data = Some s.
Proof.
  unfold encode, decode. destruct (encode_bytes s) as [bs|] eqn:He; [|discriminate].
  simpl. intros [= <-]. destruct (decode_encode_bytes _ _ He) as [Hd Hf].
  now rewrite list_ascii_of_string_of_list_ascii, bytes_roundtrip.
Qed.

Lemma translate_write_cons os c s :
  translate_write os (c :: s) =
  (if c =? 10 then linesep os else [c]) ++ translate_write os s.
Proof. reflexivity. Qed.

Lemma translate_read_write os s :
  Forall (fun c => c <> 13) s -> translate_read (translate_write os s) = s.
Proof.
  induction 1 as [|c s Hc Hs IH]; [done|].
  rewrite translate_write_cons.
  destruct (Z.eqb_spec c 10) as [->|Hn].
  - destruct os; cbn [linesep app translate_read Z.eqb Pos.eqb]; now rewrite IH.
  - cbn [app translate_read]. destruct (Z.eqb_spec c 13); [done|]. now rewrite IH.
Qed.

(** Reading back what was written, for text without carriage returns. *)
Lemma from_disk_to_disk os s data :
  Forall (fun c => c <> 13) s ->
  to_disk os s = Some data -> from_disk data = Some s.
Proof.
  unfold to_disk, from_disk. intros Hs He.
  rewrite (decode_encode _ _ He). simpl. now rewrite translate_read_write.
Qed.
End Codec.

(** * Entry files *)

Section FreeName.
Import DateTime FS HourlyWorklogWindow Aux.
Open Scope Z_scope.

Lemma file_exists_true t dir f :
  file_exists t dir f = true <-> is_Some (entries_of t dir !! f).
Proof.
  unfold file_exists. destruct (entries_of t dir !! f) as [x|]; split; intros H.
  - eauto.
  - done.
  - done.
  - by destruct H.
Qed.

Lemma file_exists_false t dir f :
  file_exists t dir f = false <-> entries_of t dir !! f = None.
Proof. unfold file_exists. destruct (entries_of t dir !! f); split; done. Qed.

Lemma advanced_0 now :
  valid now = true -> advanced now 0 = strftime_YmdHM now +:+ SUFFIX.
Proof.
  intros Hv. unfold advanced, minutes.
  replace (to_us now + 0 * US_PER_MINUTE) with (to_us now) by lia.
  now rewrite of_us_to_us.
Qed.

Lemma add_minutes now k :
  valid now = true -> 0 <= k ->
  (in_range now k /\ add now (minutes k) = Ret (of_us (to_us now + minutes k)))
  \/ (~ in_range now k /\ add now (minutes k) = Raise OverflowError).
Proof.
  intros Hv Hk. pose proof (valid_in_range _ Hv) as Hr.
  assert (0 <= minutes k) by (unfold minutes, US_PER_MINUTE; lia).
  destruct (Z_lt_ge_dec (to_us now + minutes k) ((MAXORDINAL + 1) * US_PER_DAY))
    as [Hin|Hout].
  - left. split; [exact Hin|]. apply add_in_range. lia.
  - right. split; [unfold in_range; lia|].
    destruct (add now (minutes k)) as [dt|e] eqn:Ha.
    + apply add_Ret in Ha as [Hv' Hus]; [|exact Hv].
      pose proof (valid_in_range _ Hv'). lia.
    + now apply add_Raise in Ha as [-> _].
Qed.

Lemma advanced_valid now k :
  valid now = true -> 0 <= k -> in_range now k ->
  valid (of_us (to_us now + minutes k)) = true
  /\ to_us (of_us (to_us now + minutes k)) = to_us now + minutes k.
Proof.
  intros Hv Hk Hr. destruct (add_minutes now k Hv Hk) as [[_ Ha]|[Hn _]]; [|done].
  now apply add_Ret in Ha.
Qed.

Lemma string_app_inj_length (s1 s2 t1 t2 : string) :
  String.length s1 = String.length s2 ->
  s1 +:+ t1 = s2 +:+ t2 -> s1 = s2 /\ t1 = t2.
Proof.
  revert s2. induction s1 as [|c s1 IH]; intros [|c2 s2]; try discriminate.
  - intros _ H. done.
  - intros Hl H. injection Hl as Hl.
    change (String c (s1 +:+ t1) = String c2 (s2 +:+ t2)) in H.
    injection H as -> H. destruct (IH _ Hl H) as [-> ->]. done.
Qed.

Lemma strftime_YmdHM_app_inj a b (s : string) :
  strftime_YmdHM a +:+ s = strftime_YmdHM b +:+ s ->
  strftime_YmdHM a = strftime_YmdHM b.
Proof. intros H. now apply string_app_inj_length in H. Qed.

Lemma advanced_inj now i j :
  valid now = true -> 0 <= i -> 0 <= j -> in_range now i -> in_range now j ->
  advanced now i = advanced now j -> i = j.
Proof.
  intros Hv Hi Hj Ri Rj H.
  destruct (advanced_valid now i Hv Hi Ri) as [Vi Ui].
  destruct (advanced_valid now j Hv Hj Rj) as [Vj Uj].
  unfold advanced in H.
  set (a := of_us (to_us now + minutes i)) in *.
  set (b := of_us (to_us now + minutes j)) in *.
  clearbody a b.
  apply strftime_YmdHM_app_inj, strftime_YmdHM_inj in H
    as (Ey & Em & Ed & Eh & Emi); [|done..].
  pose proof (same_minute_close _ _ Vi Vj Ey Em Ed Eh Emi) as Hc.
  rewrite Ui, Uj in Hc. unfold minutes, US_PER_MINUTE in Hc. lia.
Qed.

Lemma in_range_mono now i j : i <= j -> in_range now j -> in_range now i.
Proof. unfold in_range, minutes, US_PER_MINUTE. lia. Qed.

Lemma free_filename_O t dir now k f :
  free_filename O t dir now k f =
  if negb (file_exists t dir f) then Some (Ret f) else None.
Proof. reflexivity. Qed.

Lemma free_filename_S fuel t dir now k f :
  free_filename (S fuel) t dir now k f =
  if negb (file_exists t dir f) then Some (Ret f)
  else match add now (minutes (k + 1)) with
       | Ret a => free_filename fuel t dir now (k + 1) (strftime_YmdHM a +:+ SUFFIX)
       | Raise e => Some (Raise e)
       end.
Proof. reflexivity. Qed.

Lemma free_filename_spec t dir now fuel :
  valid now = true ->
  forall k, 0 <= k -> in_range now k ->
  match free_filename fuel t dir now k (advanced now k) with
  | Some (Ret f) =>
      exists j, k <= j /\ f = advanced now j
        /\ file_exists t dir f = false
        /\ forall i, k <= i < j -> file_exists t dir (advanced now i) = true
  | Some (Raise e) => e = OverflowError
  | None =>
      forall i, k <= i <= k + Z.of_nat fuel ->
        file_exists t dir (advanced now i) = true /\ in_range now i
  end.
Proof.
  intros Hv. induction fuel as [|fuel IH]; intros k Hk Hr.
  - rewrite free_filename_O.
    destruct (file_exists t dir (advanced now k)) eqn:E; cbn [negb].
    + intros i Hi. replace i with k by lia. split; assumption.
    + exists k. split; [lia|]. split; [reflexivity|]. split; [exact E|]. intros; lia.
  - rewrite free_filename_S.
    destruct (file_exists t dir (advanced now k)) eqn:E; cbn [negb].
    + destruct (add_minutes now (k + 1) Hv ltac:(lia)) as [[Hr' ->]|[Hn ->]]; [|done].
      specialize (IH (k + 1) ltac:(lia) Hr').
      change (strftime_YmdHM (of_us (to_us now + minutes (k + 1))) +:+ SUFFIX)
        with (advanced now (k + 1)).
      destruct (free_filename fuel t dir now (k + 1) (advanced now (k + 1)))
        as [[f|e]|].
      * destruct IH as (j & Hj & -> & Hfree & Hbusy).
        exists j. split; [lia|]. split; [reflexivity|]. split; [exact Hfree|].
        intros i Hi. destruct (decide (i = k)) as [->|]; [exact E|]. apply Hbusy. lia.
      * exact IH.
      * intros i Hi. destruct (decide (i = k)) as [->|]; [split; assumption|].
        rewrite Nat2Z.inj_succ in Hi. apply IH. lia.
    + exists k. split; [lia|]. split; [reflexivity|]. split; [exact E|]. intros; lia.
Qed.

(** With as much fuel as the folder has entries the loop ends. *)
Lemma free_filename_fuel t dir now fuel :
  valid now = true ->
  free_filename fuel t dir now 0 (advanced now 0) = None ->
  (fuel < size (entries_of t dir))%nat.
Proof.
  intros Hv Hnone.
  assert (Hr0 : in_range now 0).
  { pose proof (valid_in_range _ Hv). unfold in_range, minutes. lia. }
  pose proof (free_filename_spec t dir now fuel Hv 0 ltac:(lia) Hr0) as Hs.
  rewrite Hnone in Hs.
  apply (names_bounded (entries_of t dir) (fun i => advanced now (Z.of_nat i)) (S fuel)).
  - intros i j Hi Hj E. apply Nat2Z.inj.
    apply (advanced_inj now); try lia; try done; apply Hs; lia.
  - intros i Hi. apply file_exists_true, Hs. lia.
Qed.

(** The name loop raises only when the minutes up to the end of year
    9999 are all taken. *)
Lemma free_filename_Raise t dir now fuel e :
  valid now = true ->
  forall k, 0 <= k -> in_range now k ->
  free_filename fuel t dir now k (advanced now k) = Some (Raise e) ->
  e = OverflowError
  /\ exists j, k <= j /\ ~ in_range now (j + 1)
       /\ forall i, k <= i <= j ->
            file_exists t dir (advanced now i) = true /\ in_range now i.
Proof.
  intros Hv. induction fuel as [|fuel IH]; intros k Hk Hr.
  - rewrite free_filename_O.
    destruct (file_exists t dir (advanced now k)); discriminate.
  - rewrite free_filename_S.
    destruct (file_exists t dir (advanced now k)) eqn:E; cbn [negb]; [|discriminate].
    destruct (add_minutes now (k + 1) Hv ltac:(lia)) as [[Hr' ->]|[Hn ->]].
    + change (strftime_YmdHM (of_us (to_us now + minutes (k + 1))) +:+ SUFFIX)
        with (advanced now (k + 1)).
      intros H. destruct (IH (k + 1) ltac:(lia) Hr' H) as (-> & j & Hj & Hout & Hall).
      split; [done|]. exists j. split; [lia|]. split; [done|].
      intros i Hi. destruct (decide (i = k)) as [->|]; [done|]. apply Hall. lia.
    + intros [= <-]. split; [done|]. exists k. split; [lia|]. split; [done|].
      intros i Hi. replace i with k by lia. done.
Qed.

Lemma in_range_0 now : valid now = true -> in_range now 0.
Proof.
  intros Hv. pose proof (valid_in_range _ Hv). unfold in_range, minutes. lia.
Qed.

(** When the name loop raises, the folder has at least as many entries
    as there are minutes left. *)
Lemma free_filename_overflow t dir now fuel e :
  valid now = true ->
  free_filename fuel t dir now 0 (advanced now 0) = Some (Raise e) ->
  e = OverflowError /\ ~ in_range now (Z.of_nat (size (entries_of t dir))).
Proof.
  intros Hv H.
  destruct (free_filename_Raise t dir now fuel e Hv 0 ltac:(lia) (in_range_0 now Hv) H)
    as (-> & j & Hj & Hout & Hall).
  split; [done|]. intros Hin.
  assert (Hsz : (Z.to_nat (j + 1) <= size (entries_of t dir))%nat).
  { apply (names_bounded (entries_of t dir) (fun i => advanced now (Z.of_nat i))).
    - intros a b Ha Hb Eab. apply Nat2Z.inj.
      apply (advanced_inj now); try lia; try done; apply Hall; lia.
    - intros i Hi. apply file_exists_true, Hall. lia. }
  apply Hout. apply (in_range_mono now _ (Z.of_nat (size (entries_of t dir)))); [lia|done].
Qed.

(** With enough fuel, and enough minutes left in the calendar, the name
    loop ends with a name the folder does not have. *)
Lemma free_filename_found t dir now fuel :
  valid now = true ->
  (size (entries_of t dir) <= fuel)%nat ->
  in_range now (Z.of_nat (size (entries_of t dir))) ->
  exists f, free_filename fuel t dir now 0 (advanced now 0) = Some (Ret f)
            /\ entries_of t dir !! f = None.
Proof.
  intros Hv Hfuel Hr.
  pose proof (free_filename_spec t dir now fuel Hv 0 ltac:(lia) (in_range_0 now Hv))
    as Hs.
  destruct (free_filename fuel t dir now 0 (advanced now 0)) as [[f|e]|] eqn:Hf.
  - destruct Hs as (j & _ & _ & Hfree & _). exists f. split; [done|].
    now apply file_exists_false.
  - apply free_filename_overflow in Hf as [_ Hout]; done.
  - apply free_filename_fuel in Hf; [lia|done].
Qed.
End FreeName.

Section Tree.
Import FS.

Lemma entries_of_folder t dir d :
  t !! dir = Some (NFolder d) -> entries_of t dir = entries d.
Proof. unfold entries_of. now intros ->. Qed.

Lemma entries_of_Some t dir name x :
  entries_of t dir !! name = Some x ->
  exists d, t !! dir = Some (NFolder d) /\ entries d !! name = Some x.
Proof.
  unfold entries_of. destruct (t !! dir) as [[|d|]|]; try (now rewrite lookup_empty).
  eauto.
Qed.

Lemma makedirs_Ret t dir t1 :
  makedirs t dir = Ret t1 ->
  (forall d, entries_of t1 d = entries_of t d)
  /\ ((exists fd, t1 !! dir = Some (NFolder fd))
      \/ (t1 = t /\ t !! dir = Some NNoAccess)).
Proof.
  unfold makedirs. destruct (t !! dir) as [[|fd|]|] eqn:E; intros H;
    [discriminate H| | |]; injection H as <-.
  - split; [done|eauto].
  - split; [done|]. now right.
  - split; [|left; rewrite lookup_insert_eq; eauto].
    intros d. unfold entries_of. destruct (decide (d = dir)) as [->|Hne].
    + now rewrite lookup_insert_eq, E.
    + now rewrite lookup_insert_ne.
Qed.

Lemma makedirs_folder t dir fd :
  t !! dir = Some (NFolder fd) -> makedirs t dir = Ret t.
Proof. intros E. unfold makedirs. now rewrite E. Qed.

Lemma makedirs_Raise t dir e :
  makedirs t dir = Raise e -> e = FileExistsError /\ t !! dir = Some NFile.
Proof.
  unfold makedirs. destruct (t !! dir) as [[|fd|]|]; intros H;
    try discriminate H. now injection H as <-.
Qed.

Lemma put_folder t dir name x fd :
  t !! dir = Some (NFolder fd) ->
  entries_of (put t dir name x) dir = <[name := x]> (entries fd)
  /\ (forall d, d <> dir -> entries_of (put t dir name x) d = entries_of t d)
  /\ put t dir name x !! dir
     = Some (NFolder (mkfolder (<[name := x]> (entries fd)) (writable fd))).
Proof.
  intros E. unfold put. rewrite E. split; [|split].
  - unfold entries_of. now rewrite lookup_insert_eq.
  - intros d Hd. unfold entries_of. now rewrite lookup_insert_ne.
  - now rewrite lookup_insert_eq.
Qed.

(** Writing a file that does not exist yet. *)
Lemma write_text_new os t dir name content fd :
  t !! dir = Some (NFolder fd) -> entries fd !! name = None ->
  match write_text os t dir name content with
  | (t2, None) =>
      exists data, TextIO.to_disk os content = Some data
        /\ entries_of t2 dir = <[name := Regular data true]> (entries fd)
        /\ forall d, d <> dir -> entries_of t2 d = entries_of t d
  | (t2, Some e) =>
      t2 = t
      \/ (entries_of t2 dir = <[name := Regular EmptyString true]> (entries fd)
          /\ forall d, d <> dir -> entries_of t2 d = entries_of t d)
  end.
Proof.
  intros E Hnew. unfold write_text, open_w. rewrite E, Hnew.
  destruct (writable fd); [|now left].
  destruct (put_folder t dir name (Regular EmptyString true) fd E) as (H1 & H2 & H3).
  rewrite H1, lookup_insert_eq.
  destruct (TextIO.to_disk os content) as [data|].
  - destruct (put_folder _ dir name (Regular data true) _ H3) as (H4 & H5 & _).
    exists data. split; [done|]. split.
    + rewrite H4. simpl. apply insert_insert_eq.
    + intros d Hd. now rewrite H5, H2.
  - right. done.
Qed.

(** Writing under a name that is not seen in the folder, whatever the
    folder is. *)
Lemma write_text_free os t dir name content :
  entries_of t dir !! name = None ->
  match write_text os t dir name content with
  | (t2, None) =>
      exists data, TextIO.to_disk os content = Some data
        /\ entries_of t2 dir = <[name := Regular data true]> (entries_of t dir)
        /\ forall d, d <> dir -> entries_of t2 d = entries_of t d
  | (t2, Some e) =>
      t2 = t
      \/ (entries_of t2 dir = <[name := Regular EmptyString true]> (entries_of t dir)
          /\ forall d, d <> dir -> entries_of t2 d = entries_of t d)
  end.
Proof.
  intros Hnew. destruct (t !! dir) as [[|fd|]|] eqn:E.
  - unfold write_text, open_w. rewrite E. now left.
  - rewrite (entries_of_folder t dir fd E) in *.
    now apply write_text_new.
  - unfold write_text, open_w. rewrite E. now left.
  - unfold write_text, open_w. rewrite E. now left.
Qed.

Lemma read_text_entries t dir name data :
  entries_of t dir !! name = Some (Regular data true) ->
  read_text t dir name =
  match TextIO.from_disk data with
  | Some s => Ret s
  | None => Raise UnicodeDecodeError
  end.
Proof.
  intros (d & E & H)%entries_of_Some. unfold read_text. now rewrite E, H.
Qed.
End Tree.

Section Store.
Import DateTime FS HourlyWorklogWindow Aux.
Open Scope Z_scope.

Lemma unchanged_refl t : unchanged t t.
Proof. now intros dir name x. Qed.

Lemma unchanged_trans t1 t2 t3 :
  unchanged t1 t2 -> unchanged t2 t3 -> unchanged t1 t3.
Proof. intros H1 H2 dir name x H. now apply H2, H1. Qed.

Lemma unchanged_entries t t' :
  (forall d, entries_of t' d = entries_of t d) -> unchanged t t'.
Proof. intros H dir name x. now rewrite H. Qed.

Lemma unchanged_insert t t' dir name x :
  entries_of t dir !! name = None ->
  entries_of t' dir = <[name := x]> (entries_of t dir) ->
  (forall d, d <> dir -> entries_of t' d = entries_of t d) ->
  unchanged t t'.
Proof.
  intros Hnew Hin Hother d g y Hg. destruct (decide (d = dir)) as [->|Hne].
  - rewrite Hin. rewrite lookup_insert_ne; [done|]. intros <-. congruence.
  - now rewrite Hother.
Qed.

(** What [store] does, whatever the content. *)
Lemma store_spec os fuel t dir content now cb shown :
  valid now = true ->
  let r := store os fuel t dir content now cb shown in
  unchanged t (fs_after r)
  /\ (size (entries_of (fs_after r) dir) <= S (size (entries_of t dir)))%nat
  /\ (forall f, opened_name r = Some f -> first_free t dir now f)
  /\ (outcome_of r = Exhausted -> (fuel < size (entries_of t dir))%nat)
  /\ (outcome_of r <> NothingSaved)
  /\ (forall f c, outcome_of r = Saved f c ->
        c = content
        /\ exists data, TextIO.to_disk os c = Some data
             /\ entries_of (fs_after r) dir
                = <[f := Regular data true]> (entries_of t dir)).
Proof.
  intros Hv. unfold store.
  destruct (makedirs t dir) as [t1|e] eqn:Hmk.
  2:{ simpl. unfold opened_name. simpl.
      repeat split; try done; try apply unchanged_refl; lia. }
  apply makedirs_Ret in Hmk as [Hent _].
  pose proof (unchanged_entries _ _ Hent) as Hun1.
  rewrite <- (advanced_0 now Hv).
  assert (Hr0 : in_range now 0).
  { pose proof (valid_in_range _ Hv). unfold in_range, minutes. lia. }
  pose proof (free_filename_spec t1 dir now fuel Hv 0 ltac:(lia) Hr0) as Hspec.
  pose proof (free_filename_fuel t1 dir now fuel Hv) as Hfuel.
  destruct (free_filename fuel t1 dir now 0 (advanced now 0)) as [[f|e]|].
  - destruct Hspec as (k & Hk & -> & Hfree & Hbusy).
    apply file_exists_false in Hfree.
    assert (Hff : first_free t dir now (advanced now k)).
    { exists k. split; [done|]. split; [done|]. rewrite <- Hent. split; [done|].
      intros j Hj. apply file_exists_true, Hbusy. lia. }
    pose proof (write_text_free os t1 dir (advanced now k) content Hfree) as Hw.
    destruct (write_text os t1 dir (advanced now k) content) as [t2 [e|]].
    + unfold opened_name. simpl.
      assert (Hun2 : unchanged t1 t2 /\
                (size (entries_of t2 dir) <= S (size (entries_of t1 dir)))%nat).
      { destruct Hw as [->|[Hin Hother]].
        - split; [apply unchanged_refl|lia].
        - split; [exact (unchanged_insert _ _ dir (advanced now k) _ Hfree Hin Hother)|].
          rewrite Hin, map_size_insert_None by done. lia. }
      destruct Hun2 as [Hun2 Hsz]. rewrite Hent in Hsz.
      split; [now apply (unchanged_trans _ t1)|].
      split; [done|]. split; [now intros ? [= <-]|].
      split; [done|]. split; done.
    + unfold opened_name. simpl.
      destruct Hw as (data & Hd & Hin & Hother).
      split; [apply (unchanged_trans _ t1); [done|];
              exact (unchanged_insert _ _ dir (advanced now k) _ Hfree Hin Hother)|].
      split; [rewrite Hin, map_size_insert_None, Hent by done; lia|].
      split; [now intros ? [= <-]|].
      split; [done|]. split; [done|].
      intros f c [= <- <-]. split; [done|]. exists data. now rewrite <- Hent.
  - unfold opened_name. simpl. rewrite Hent.
    repeat split; try done; lia.
  - unfold opened_name. simpl. rewrite Hent.
    repeat split; try done; try lia.
    intros _. rewrite <- Hent. now apply Hfuel.
Qed.
End Store.

Section Strip.
Import PyStr.

Lemma lstrip_spec s :
  exists a, s = a ++ lstrip s /\ forallb isspace a = true
    /\ match lstrip s with [] => True | c :: _ => isspace c = false end.
Proof.
  induction s as [|c s (a & E & Ha & Hh)]; [by exists []|].
  simpl. destruct (isspace c) eqn:Hc.
  - exists (c :: a). simpl. rewrite Hc, Ha. split; [by f_equal|done].
  - exists []. done.
Qed.

Lemma lstrip_all_space s : forallb isspace s = true -> lstrip s = [].
Proof.
  induction s as [|c s IH]; [done|]. simpl.
  intros [Hc Hs]%andb_prop. rewrite Hc. auto.
Qed.


(** [strip] removes whitespace from both ends and nothing else. *)
Lemma strip_spec s :
  exists a b, s = a ++ strip s ++ b
    /\ forallb isspace a = true /\ forallb isspace b = true
    /\ match strip s with
       | [] => True
       | c :: _ => isspace c = false /\ isspace (List.last (strip s) c) = false
       end.
Proof.
  destruct (lstrip_spec s) as (a & Ea & Ha & Hh).
  destruct (lstrip_spec (rev (lstrip s))) as (b & Eb & Hb & Hl).
  unfold strip, rstrip.
  set (m := lstrip (rev (lstrip s))) in *.
  assert (Em : lstrip s = rev m ++ rev b).
  { rewrite <- rev_app_distr, <- Eb. now rewrite rev_involutive. }
  exists a, (rev b). split; [now rewrite <- Em|]. split; [done|].
  split.
  { rewrite forallb_forall in *. intros x Hx. apply Hb. now apply in_rev. }
  destruct (rev m) as [|c r] eqn:Er; [done|].
  rewrite Em in Hh. simpl in Hh. split; [done|].
  destruct m as [|c' m']; [done|].
  rewrite <- Er. simpl. rewrite last_last. done.
Qed.
End Strip.

Section LastEntry.
Import PyStr FS HourlyWorklogWindow Aux.

Lemma get_last_entry_absent t dir :
  t !! dir = None -> get_last_entry t dir = Ret None.
Proof. intros H. unfold get_last_entry, path_exists. now rewrite H. Qed.

Lemma get_last_entry_none t dir fd :
  t !! dir = Some (NFolder fd) ->
  (forall f, is_Some (entries fd !! f) -> endswith f SUFFIX = false) ->
  get_last_entry t dir = Ret None.
Proof.
  intros E Hno. unfold get_last_entry, path_exists, listdir. rewrite E. simpl.
  destruct (List.filter _ _) as [|f l] eqn:Hf; [done|].
  assert (Hin : f ∈ List.filter (fun f => endswith f SUFFIX) (map_to_list (entries fd)).*1)
    by (rewrite Hf; left).
  apply elem_of_filter_bool in Hin as [Hin Hs].
  apply elem_of_keys in Hin. rewrite (Hno f Hin) in Hs. discriminate.
Qed.

Lemma get_last_entry_latest t dir f :
  latest_entry t dir f ->
  get_last_entry t dir =
  Ret (match read_text t dir f with Ret s => Some s | Raise _ => None end).
Proof.
  intros ([x Hx] & Hsuf & Hmax).
  destruct (entries_of_Some _ _ _ _ Hx) as (fd & E & Hfd).
  rewrite (entries_of_folder _ _ _ E) in Hmax.
  unfold get_last_entry, path_exists, listdir. rewrite E. simpl.
  set (files := List.filter _ _).
  assert (Hf : f ∈ files).
  { apply elem_of_filter_bool. split; [|done]. apply elem_of_keys. eauto. }
  assert (Hne : files <> []) by (intros Hnil; rewrite Hnil in Hf; inversion Hf).
  destruct (sorted_last_greatest files EmptyString Hne) as [Hlast Hge].
  fold (sorted_last files) in Hlast, Hge.
  apply elem_of_filter_bool in Hlast as [Hl1 Hl2]. apply elem_of_keys in Hl1.
  assert (Heq : sorted_last files = f).
  { apply (anti_symm String.le); [by apply Hmax | by apply Hge]. }
  rewrite Heq. destruct files; [done|].
  unfold try_except, bind. now destruct (read_text t dir f).
Qed.
End LastEntry.

Section SaveEntry.
Import DateTime PyStr FS HourlyWorklogWindow Aux.

Lemma save_entry_spec os fuel t dir text answer now cb :
  valid now = true ->
  let r := save_entry os fuel t dir text answer now cb in
  unchanged t (fs_after r)
  /\ (size (entries_of (fs_after r) dir) <= S (size (entries_of t dir)))%nat
  /\ (forall f, opened_name r = Some f -> first_free t dir now f)
  /\ (outcome_of r = Exhausted -> (fuel < size (entries_of t dir))%nat)
  /\ (forall f c, outcome_of r = Saved f c ->
        c <> []
        /\ (c = strip text
            \/ (strip text = [] /\ answer = true
                /\ get_last_entry t dir = Ret (Some c)))
        /\ exists data, TextIO.to_disk os c = Some data
             /\ entries_of (fs_after r) dir
                = <[f := Regular data true]> (entries_of t dir)).
Proof.
  intros Hv. unfold save_entry.
  assert (Hnone : forall shown out, out <> Exhausted -> (forall f c, out <> Saved f c) ->
            (forall f e, out <> SaveFailed f e) ->
            let r := mkresult t shown out in
            unchanged t (fs_after r)
            /\ (size (entries_of (fs_after r) dir) <= S (size (entries_of t dir)))%nat
            /\ (forall f, opened_name r = Some f -> first_free t dir now f)
            /\ (outcome_of r = Exhausted -> (fuel < size (entries_of t dir))%nat)
            /\ (forall f c, outcome_of r = Saved f c ->
                  c <> []
                  /\ (c = strip text
                      \/ (strip text = [] /\ answer = true
                          /\ get_last_entry t dir = Ret (Some c)))
                  /\ exists data, TextIO.to_disk os c = Some data
                       /\ entries_of (fs_after r) dir
                          = <[f := Regular data true]> (entries_of t dir))).
  { intros shown out H1 H2 H3. simpl.
    split; [apply unchanged_refl|]. split; [lia|].
    split; [|split; [done|]].
    - unfold opened_name. simpl. intros f. destruct out; try done.
      + now destruct (H2 filename content).
      + now destruct (H3 filename e).
    - intros f c Hc. now destruct (H2 f c). }
  destruct (strip text) as [|c0 s0] eqn:Hstrip; simpl.
  - destruct answer; [|now apply Hnone].
    destruct (get_last_entry t dir) as [[[|c s]|]|e] eqn:Hlast;
      try (now apply Hnone).
    destruct (store_spec os fuel t dir (c :: s) now cb [AskYesNo_EmptyEntry] Hv)
      as (H1 & H2 & H3 & H4 & H5 & H6).
    split; [done|]. split; [done|]. split; [done|]. split; [done|].
    intros f c' Hs. destruct (H6 f c' Hs) as [-> Hd].
    split; [done|]. split; [|done]. right. done.
  - destruct (store_spec os fuel t dir (c0 :: s0) now cb [] Hv)
      as (H1 & H2 & H3 & H4 & H5 & H6).
    split; [done|]. split; [done|]. split; [done|]. split; [done|].
    intros f c' Hs. destruct (H6 f c' Hs) as [-> Hd].
    split; [done|]. split; [|done]. left. done.
Qed.

(** A save of text that is not empty, into a day folder that exists,
    finds its name; and when the folder takes new files and the text
    can be encoded, it writes the file. *)
Lemma save_entry_progress os fuel t dir text answer now cb fd :
  valid now = true -> t !! dir = Some (NFolder fd) -> strip text <> [] ->
  (size (entries fd) <= fuel)%nat ->
  in_range now (Z.of_nat (size (entries fd))) ->
  exists f,
    opened_name (save_entry os fuel t dir text answer now cb) = Some f
    /\ entries fd !! f = None
    /\ (writable fd = true ->
        forall data, TextIO.to_disk os (strip text) = Some data ->
        save_entry os fuel t dir text answer now cb
        = mkresult
            (<[dir := NFolder (mkfolder (<[f := Regular data true]> (entries fd))
                                 true)]> t)
            (WindowDestroyed :: (if cb then [CallbackCalled] else []))
            (Saved f (strip text))).
Proof.
  intros Hv Hfd Hne Hfuel Hr. unfold save_entry.
  destruct (strip text) as [|c0 s0] eqn:Hs; [done|]. simpl.
  unfold store. rewrite (makedirs_folder t dir fd Hfd).
  rewrite <- (advanced_0 now Hv).
  rewrite <- (entries_of_folder t dir fd Hfd) in Hfuel, Hr.
  destruct (free_filename_found t dir now fuel Hv Hfuel Hr) as (f & -> & Hfree).
  rewrite (entries_of_folder t dir fd Hfd) in Hfree.
  exists f. unfold write_text, open_w. rewrite Hfd, Hfree.
  destruct (writable fd) eqn:Hw.
  - destruct (put_folder t dir f (Regular EmptyString true) fd Hfd) as (H1 & _ & H3).
    rewrite H1, lookup_insert_eq.
    destruct (TextIO.to_disk os (c0 :: s0)) as [data|] eqn:Hd.
    + split; [reflexivity|]. split; [done|]. intros _ data' [= <-].
      simpl. f_equal. unfold put at 1. rewrite H3. simpl. rewrite Hw.
      unfold put. rewrite Hfd. now rewrite !insert_insert_eq.
    + split; [reflexivity|]. split; [done|]. intros _ data' Hd'. discriminate Hd'.
  - split; [reflexivity|]. split; [done|]. intros Hw'. discriminate Hw'.
Qed.
End SaveEntry.

(** * Day folders *)

Section DayFolder.
Import DateTime PyStr FS HourliesApp Aux.
Open Scope Z_scope.

Lemma prefix_app (p s : string) : String.prefix p (p +:+ s) = true.
Proof.
  induction p as [|c p IH]; [by destruct s|].
  change (String.prefix (String c p) (String c (p +:+ s)) = true).
  simpl. destruct (ascii_dec c c); [exact IH|done].
Qed.

Lemma numbered_startswith today n : startswith (numbered today n) today = true.
Proof. apply prefix_app. Qed.

Lemma numbered_inj today i j :
  0 <= i -> 0 <= j -> numbered today i = numbered today j -> i = j.
Proof.
  intros Hi Hj H. unfold numbered in H.
  apply (inj (String.app today)) in H. apply (inj (String.app ".")) in H.
  now apply format_03d_inj.
Qed.

Lemma path_exists_true (t : tree) f : path_exists t f = true <-> is_Some (t !! f).
Proof.
  unfold path_exists. destruct (t !! f); split; intros H.
  - eauto.
  - done.
  - done.
  - by destruct H.
Qed.

Lemma path_exists_false (t : tree) f : path_exists t f = false <-> t !! f = None.
Proof. unfold path_exists. destruct (t !! f); split; done. Qed.

Lemma next_folder_O t base n :
  next_folder O t base n =
  if negb (path_exists t (numbered base n)) then Some (numbered base n) else None.
Proof. reflexivity. Qed.

Lemma next_folder_S fuel t base n :
  next_folder (S fuel) t base n =
  if negb (path_exists t (numbered base n)) then Some (numbered base n)
  else next_folder fuel t base (n + 1).
Proof. reflexivity. Qed.

Lemma next_folder_spec t base fuel : forall n,
  match next_folder fuel t base n with
  | Some f =>
      exists j, n <= j /\ f = numbered base j /\ t !! f = None
        /\ forall i, n <= i < j -> is_Some (t !! numbered base i)
  | None =>
      forall i, n <= i <= n + Z.of_nat fuel -> is_Some (t !! numbered base i)
  end.
Proof.
  induction fuel as [|fuel IH]; intros n.
  - rewrite next_folder_O.
    destruct (path_exists t (numbered base n)) eqn:E; cbn [negb].
    + intros i Hi. replace i with n by lia. now apply path_exists_true.
    + exists n. split; [lia|]. split; [done|].
      split; [now apply path_exists_false|]. intros; lia.
  - rewrite next_folder_S.
    destruct (path_exists t (numbered base n)) eqn:E; cbn [negb].
    + specialize (IH (n + 1)).
      destruct (next_folder fuel t base (n + 1)) as [f|].
      * destruct IH as (j & Hj & -> & Hfree & Hbusy).
        exists j. split; [lia|]. split; [done|]. split; [done|].
        intros i Hi. destruct (decide (i = n)) as [->|].
        -- now apply path_exists_true.
        -- apply Hbusy. lia.
      * intros i Hi. destruct (decide (i = n)) as [->|].
        -- now apply path_exists_true.
        -- apply IH. lia.
    + exists n. split; [lia|]. split; [done|].
      split; [now apply path_exists_false|]. intros; lia.
Qed.

(** With as much fuel as the worklog folder has entries the loop ends. *)
Lemma next_folder_fuel t base fuel :
  next_folder fuel t base 1 = None -> (fuel < size t)%nat.
Proof.
  intros Hnone. pose proof (next_folder_spec t base fuel 1) as Hs.
  rewrite Hnone in Hs.
  apply (names_bounded t (fun i => numbered base (1 + Z.of_nat i)) (S fuel)).
  - intros i j Hi Hj E. apply numbered_inj in E; lia.
  - intros i Hi. apply Hs. lia.
Qed.

Lemma existing_folders_spec t today f :
  f ∈ List.filter (fun f => startswith f today && isdir t f) (listdir_root t)
  <-> folder_of_day t today f.
Proof.
  rewrite elem_of_filter_bool, andb_true_iff. unfold listdir_root, folder_of_day.
  rewrite elem_of_keys. split; [tauto|]. intros [H1 H2]. split; [|done].
  unfold isdir in H2. destruct (t !! f); [eauto|done].
Qed.

Lemma start_timer_active a : timer_active (start_timer a) = true.
Proof. unfold start_timer. now destruct (timer_active a) eqn:E. Qed.

Lemma adopted_again a f : adopted (adopted a f) f = adopted a f.
Proof.
  unfold adopted. cbv zeta.
  assert (E : forall x, timer_active x = true -> start_timer x = x).
  { intros x Hx. unfold start_timer. now rewrite Hx. }
  rewrite (E (mkapp _ _ _ _ _ _ _ _)); [|apply start_timer_active].
  simpl. now rewrite start_timer_active.
Qed.

(** Some folder of the day exists: the greatest one is adopted and
    nothing is created. *)
Lemma start_new_day_existing fuel t a now :
  (size t <= fuel)%nat ->
  (exists g, folder_of_day t (strftime_Ymd now) g) ->
  exists f,
    start_new_day fuel t a now = Some (Ret (t, adopted a f))
    /\ folder_of_day t (strftime_Ymd now) f
    /\ forall g, folder_of_day t (strftime_Ymd now) g -> String.le g f.
Proof.
  intros Hfuel [g Hg]. unfold start_new_day.
  pose proof (next_folder_fuel t (strftime_Ymd now) fuel) as Hnf.
  destruct (next_folder fuel t (strftime_Ymd now) 1) as [cand|]; [|specialize (Hnf eq_refl); lia].
  set (existing := List.filter _ _).
  assert (Hin : g ∈ existing) by now apply existing_folders_spec.
  assert (Hne : existing <> []) by (intros Hnil; rewrite Hnil in Hin; inversion Hin).
  destruct (sorted_last_greatest existing EmptyString Hne) as [Hlast Hge].
  fold (sorted_last existing) in Hlast, Hge.
  exists (sorted_last existing). split; [|split].
  - destruct existing; [done|]. reflexivity.
  - now apply existing_folders_spec.
  - intros g' Hg'. apply Hge. now apply existing_folders_spec.
Qed.

(** No folder of the day exists: the first unused number is taken and
    its folder created. *)
Lemma start_new_day_fresh fuel t a now :
  (size t <= fuel)%nat ->
  (forall g, ~ folder_of_day t (strftime_Ymd now) g) ->
  exists k, 1 <= k
    /\ t !! numbered (strftime_Ymd now) k = None
    /\ (forall i, 1 <= i < k -> is_Some (t !! numbered (strftime_Ymd now) i))
    /\ start_new_day fuel t a now
       = Some (Ret (<[numbered (strftime_Ymd now) k := NFolder (mkfolder ∅ true)]> t,
                    adopted a (numbered (strftime_Ymd now) k))).
Proof.
  intros Hfuel Hno. unfold start_new_day.
  pose proof (next_folder_fuel t (strftime_Ymd now) fuel) as Hnf.
  pose proof (next_folder_spec t (strftime_Ymd now) fuel 1) as Hs.
  destruct (next_folder fuel t (strftime_Ymd now) 1) as [cand|]; [|specialize (Hnf eq_refl); lia].
  destruct Hs as (k & Hk & -> & Hfree & Hbusy).
  exists k. split; [done|]. split; [done|]. split; [done|].
  destruct (List.filter _ _) as [|g l] eqn:Hf.
  - unfold makedirs. rewrite Hfree. reflexivity.
  - exfalso. apply (Hno g). apply existing_folders_spec. rewrite Hf. left.
Qed.
End DayFolder.

(** * Configuration *)

Section ConfigFacts.
Import Config.
Variable json_load : string -> option json.
Variable json_dump : json -> string.
Variable user_data_path : string.

Lemma lookup_merged (m d : gmap string json) k :
  (m ∪ d) !! k = match m !! k with Some v => Some v | None => d !! k end.
Proof. rewrite lookup_union. destruct (m !! k), (d !! k); reflexivity. Qed.

(** On a dictionary the merge loop is a left-biased union. *)
Lemma merge_defaults_obj items : forall m,
  merge_defaults items (JObj m) = Ret (JObj (m ∪ list_to_map items)).
Proof.
  induction items as [|[key value] rest IH]; intros m.
  - simpl. now rewrite (right_id_L ∅ (∪)).
  - cbn [merge_defaults contains setitem bind].
    destruct (m !! key) as [w|] eqn:E; cbn [negb bind].
    + rewrite IH. do 2 f_equal. apply map_eq. intros k.
      rewrite !lookup_merged. cbn [list_to_map foldr].
      destruct (decide (key = k)) as [<-|Hne].
      * now rewrite E.
      * now rewrite lookup_insert_ne.
    + rewrite IH. do 2 f_equal. cbn [list_to_map foldr].
      now rewrite <- insert_union_l, insert_union_r.
Qed.




Lemma load_config_obj dir_ok text m :
  json_load text = Some (JObj m) ->
  load_config json_load json_dump user_data_path dir_ok (Present true text)
  = Ret (Present true text,
         JObj (m ∪ list_to_map (default_config user_data_path))).
Proof.
  intros H. unfold load_config. cbn [bind]. rewrite H. cbn [bind].
  now rewrite merge_defaults_obj.
Qed.
End ConfigFacts.

(** * Sequence numbers and the order of names *)

Section NumberedOrder.
Import DateTime Aux.
Open Scope Z_scope.

Lemma format_03d_three n :
  0 <= n < 1000 ->
  format_03d n
  = String (digit (n / 100)) (String (digit (n / 10)) (String (digit n) EmptyString)).
Proof.
  intros Hn. unfold format_03d. destruct (Z.ltb_spec n 100); [reflexivity|].
  unfold decimal.
  assert (Hl : 6 <= Z.log2 n).
  { change 6 with (Z.log2 64). apply Z.log2_le_mono. lia. }
  destruct (Z.to_nat (Z.log2 n)) as [|[|k]] eqn:E; try lia.
  cbn [digits_from].
  destruct (Z.ltb_spec n 10); [lia|].
  destruct (Z.ltb_spec (n / 10) 10); [Z.div_mod_to_equations; lia|].
  destruct (Z.ltb_spec (n / 10 / 10) 10); [|Z.div_mod_to_equations; lia].
  rewrite Z.div_div by lia. reflexivity.
Qed.

Lemma ascii_compare_digit x y :
  Ascii.compare (digit x) (digit y) = (x mod 10 ?= y mod 10).
Proof.
  unfold Ascii.compare, digit.
  pose proof (Z.mod_pos_bound x 10 ltac:(lia)).
  pose proof (Z.mod_pos_bound y 10 ltac:(lia)).
  rewrite !N_ascii_embedding by lia.
  rewrite <- N2Z.inj_compare, !N2Z.inj_add, !Z2N.id by lia.
  apply Z.add_compare_mono_l.
Qed.

Lemma compare_app_prefix (p a b : string) :
  String.compare (p +:+ a) (p +:+ b) = String.compare a b.
Proof.
  induction p as [|c p IH]; [reflexivity|].
  change (String.compare (String c (p +:+ a)) (String c (p +:+ b)) = String.compare a b).
  cbn [String.compare]. unfold Ascii.compare. now rewrite N.compare_refl.
Qed.

(** Among three-digit sequence numbers the order of the names is the
    order of the numbers. *)
Lemma numbered_le today n k :
  0 <= n < 1000 -> 0 <= k < 1000 ->
  String.le (numbered today n) (numbered today k) -> n <= k.
Proof.
  intros Hn Hk. unfold String.le, String.leb, numbered.
  rewrite !compare_app_prefix, !format_03d_three by done.
  cbn [String.compare]. rewrite !ascii_compare_digit.
  destruct (Z.compare_spec ((n / 100) mod 10) ((k / 100) mod 10)) as [E2|L2|G2].
  - destruct (Z.compare_spec ((n / 10) mod 10) ((k / 10) mod 10)) as [E1|L1|G1].
    + destruct (Z.compare_spec (n mod 10) (k mod 10)) as [E0|L0|G0].
      * intros _. Z.div_mod_to_equations. lia.
      * intros _. Z.div_mod_to_equations. lia.
      * intros [].
    + intros _. Z.div_mod_to_equations. lia.
    + intros [].
  - intros _. Z.div_mod_to_equations. lia.
  - intros [].
Qed.
End NumberedOrder.

(** * The claims *)

Section Claims.
Import DateTime PyStr FS HourlyWorklogWindow HourliesApp Aux.

(** C1. In every sequence of [save_entry] calls into a day folder, no
    save changes or replaces an entry that exists: the file a save opens
    is the first of the names for [now], [now] + 1 minute, [now] + 2
    minutes, ... that the folder does not have yet, so the names saved
    are pairwise different and different from every name present before.
    The search for the name ends: fuel runs out only when the folder has
    more entries than there is fuel, and a save of text that is not
    empty, into a day folder that exists, finds its name unless the
    calendar ends first.  When the folder takes new files and the texts
    can be encoded, every save of the sequence writes its text into a
    file of its own. *)
Theorem save_entry_never_overwrites os fuel dir reqs : forall t,
  Forall (fun q => valid (req_now q) = true) reqs ->
  let runs := save_all os fuel t dir reqs in
  Forall2 (fun q run =>
             unchanged run.1 (fs_after run.2)
             /\ (forall f, opened_name run.2 = Some f ->
                   first_free run.1 dir (req_now q) f)
             /\ (outcome_of run.2 = Exhausted ->
                   (fuel < size (entries_of run.1 dir))%nat)
             /\ (forall fd, run.1 !! dir = Some (NFolder fd) ->
                   strip (req_text q) <> [] ->
                   (size (entries fd) <= fuel)%nat ->
                   in_range (req_now q) (Z.of_nat (size (entries fd))) ->
                   exists f, opened_name run.2 = Some f))
          reqs runs
  /\ NoDup (omap (fun run => saved_name run.2) runs)
  /\ (forall f, f ∈ omap (fun run => saved_name run.2) runs ->
        entries_of t dir !! f = None)
  /\ (forall run, run ∈ runs -> unchanged t (fs_after run.2))
  /\ (forall fd, t !! dir = Some (NFolder fd) -> writable fd = true ->
        (size (entries fd) + List.length reqs <= fuel)%nat ->
        Forall (savable os (size (entries fd) + List.length reqs)) reqs ->
        Forall2 (fun q run =>
                   exists f data,
                     outcome_of run.2 = Saved f (strip (req_text q))
                     /\ TextIO.to_disk os (strip (req_text q)) = Some data
                     /\ entries_of run.1 dir !! f = None
                     /\ entries_of (fs_after run.2) dir
                        = <[f := Regular data true]> (entries_of run.1 dir))
                reqs runs).
Proof.
  induction reqs as [|q reqs IH]; intros t Hv.
  - simpl. split; [constructor|]. split; [constructor|].
    split; [intros ? H; inversion H|]. split; [intros ? H; inversion H|].
    intros; constructor.
  - apply Forall_cons in Hv as [Hq Hv]. cbn [save_all]. cbv zeta.
    set (r := save_entry os fuel t dir (req_text q) (req_answer q) (req_now q)
                (req_callback q)).
    destruct (save_entry_spec os fuel t dir (req_text q) (req_answer q)
                (req_now q) (req_callback q) Hq) as (Hun & _ & Hopen & Hex & Hsaved).
    fold r in Hun, Hopen, Hex, Hsaved.
    destruct (IH (fs_after r) Hv) as (IH1 & IH2 & IH3 & IH4 & IH5).
    set (rest := save_all os fuel (fs_after r) dir reqs) in *.
    assert (Hfresh : forall f, f ∈ omap (fun run => saved_name run.2) rest ->
              entries_of t dir !! f = None).
    { intros f Hf. specialize (IH3 f Hf).
      destruct (entries_of t dir !! f) as [x|] eqn:E; [|done].
      apply Hun in E. congruence. }
    split; [|split; [|split; [|split]]].
    + constructor; [|exact IH1]. cbn [fst snd].
      split; [done|]. split; [done|]. split; [done|].
      intros fd Hfd Hne Hfuel Hr.
      destruct (save_entry_progress os fuel t dir (req_text q) (req_answer q)
                  (req_now q) (req_callback q) fd Hq Hfd Hne Hfuel Hr)
        as (f & Hf & _). exists f. exact Hf.
    + cbn [omap list_omap]. cbn [snd]. unfold saved_name at 1.
      destruct (outcome_of r) as [|f c|f e|e|] eqn:Ho; try exact IH2.
      constructor; [|exact IH2]. intros Hin. specialize (IH3 f Hin).
      destruct (Hsaved f c eq_refl) as (_ & _ & data & _ & Hent).
      rewrite Hent, lookup_insert_eq in IH3. discriminate IH3.
    + intros f. cbn [omap list_omap]. cbn [snd]. unfold saved_name at 1.
      destruct (outcome_of r) as [|f' c|f' e|e|] eqn:Ho; try apply Hfresh.
      intros [->|Hin]%elem_of_cons; [|now apply Hfresh].
      destruct (Hopen f') as (k & _ & _ & Hnone & _); [|done].
      unfold opened_name. now rewrite Ho.
    + intros run [->|Hin]%elem_of_cons; [exact Hun|].
      apply (unchanged_trans _ (fs_after r)); [exact Hun|now apply IH4].
    + intros fd Hfd Hw Hfuel Hall.
      apply Forall_cons in Hall as [(Hne & [data Hd] & Hr) Hall].
      cbn [List.length] in Hfuel, Hr, Hall.
      assert (Hr0 : in_range (req_now q) (Z.of_nat (size (entries fd)))).
      { apply (in_range_mono _ _ (Z.of_nat (size (entries fd) + S (List.length reqs))));
          [lia|done]. }
      destruct (save_entry_progress os fuel t dir (req_text q) (req_answer q)
                  (req_now q) (req_callback q) fd Hq Hfd Hne ltac:(lia) Hr0)
        as (f & _ & Hfree & Hres).
      specialize (Hres Hw data Hd). fold r in Hres.
      set (fd' := mkfolder (<[f := Regular data true]> (entries fd)) true).
      assert (Hfd' : fs_after r !! dir = Some (NFolder fd')).
      { rewrite Hres. simpl. now rewrite lookup_insert_eq. }
      assert (Hsz : size (entries fd') = S (size (entries fd))).
      { unfold fd'. simpl. now rewrite map_size_insert_None. }
      constructor.
      * cbn [fst snd]. exists f, data. rewrite Hres. simpl.
        split; [done|]. split; [done|].
        rewrite (entries_of_folder t dir fd Hfd). split; [done|].
        unfold entries_of. now rewrite lookup_insert_eq.
      * apply (IH5 fd' Hfd' eq_refl); rewrite Hsz.
        -- lia.
        -- now replace (S (size (entries fd)) + List.length reqs)%nat
             with (size (entries fd) + S (List.length reqs))%nat by lia.
Qed.

Lemma save_entry_never_overwrites_witness :
  Forall (fun q => valid (req_now q) = true) Sample.three_saves
  /\ Forall (savable TextIO.Posix (2 + List.length Sample.three_saves))
       Sample.three_saves
  /\ NoDup (omap (fun run => saved_name run.2)
              (save_all TextIO.Posix 5 Sample.two_sessions "20250101.002"
                 Sample.three_saves))
  /\ Forall2 (fun q run =>
                exists f data,
                  outcome_of run.2 = Saved f (strip (req_text q))
                  /\ TextIO.to_disk TextIO.Posix (strip (req_text q)) = Some data
                  /\ entries_of run.1 "20250101.002" !! f = None
                  /\ entries_of (fs_after run.2) "20250101.002"
                     = <[f := Regular data true]> (entries_of run.1 "20250101.002"))
       Sample.three_saves
       (save_all TextIO.Posix 5 Sample.two_sessions "20250101.002"
          Sample.three_saves).
Proof.
  assert (H : Forall (fun q => valid (req_now q) = true) Sample.three_saves)
    by (repeat constructor).
  assert (Hs : Forall (savable TextIO.Posix (2 + List.length Sample.three_saves))
                 Sample.three_saves).
  { repeat constructor; try (vm_compute; discriminate);
      try (eexists; vm_compute; reflexivity). }
  pose proof (save_entry_never_overwrites TextIO.Posix 5 "20250101.002"
                Sample.three_saves Sample.two_sessions H) as (_ & H2 & _ & _ & H5).
  split; [exact H|]. split; [exact Hs|]. split; [exact H2|].
  apply (H5 (mkfolder {[ "202501011200.hourlies"%string := Regular "abc" true;
                         "202501011300.hourlies"%string := Regular "xyz" true ]}
                      true)).
  - vm_compute. reflexivity.
  - reflexivity.
  - vm_compute. lia.
  - exact Hs.
Defined.

(** Three saves within the minute 13:00, whose entry exists already, are
    filed under 13:01, 13:02 and 13:03. *)
Example three_saves_in_one_minute :
  omap (fun run => saved_name run.2)
    (save_all TextIO.Posix 3 Sample.two_sessions "20250101.002" Sample.three_saves)
  = ["202501011301.hourlies"; "202501011302.hourlies"; "202501011303.hourlies"]%string.
Proof. vm_compute. reflexivity. Qed.

(** C2. For a valid [now] and a trigger minute in 0..59, the trigger
    [timer_loop] computes is the earliest instant later than [now] whose
    minute is the trigger minute and whose seconds and microseconds are
    zero; the loop raises only when the calendar has no such instant.
    At 10:00:05 with trigger minute 0 the trigger is 11:00:00 of the same
    day. *)
Theorem next_trigger_is_next_instant now m :
  valid now = true -> (0 <= m <= 59)%Z ->
  match next_trigger now m with
  | Ret (t, wait) =>
      trigger_instant m t
      /\ lt now t = true
      /\ (forall t', trigger_instant m t' -> lt now t' = true -> ge t' t = true)
      /\ wait = (to_us t - to_us now)%Z /\ (0 < wait <= US_PER_HOUR)%Z
  | Raise e =>
      e = OverflowError
      /\ forall t', trigger_instant m t' -> lt now t' = false
  end
  /\ (m = 0%Z -> hour now = 10%Z -> minute now = 0%Z -> second now = 5%Z ->
      next_trigger now m
      = Ret (mkdt (year now) (month now) (day now) 11 0 0 0,
             (3595000000 - microsecond now)%Z)).
Proof.
  intros Hv Hm. split; [now apply next_trigger_general|].
  intros -> Hh Hmi Hs. now apply next_trigger_at_10_00_05.
Qed.

Lemma next_trigger_is_next_instant_witness :
  valid Sample.morning = true
  /\ next_trigger Sample.morning 0
     = Ret (mkdt (year Sample.morning) (month Sample.morning)
                 (day Sample.morning) 11 0 0 0,
            (3595000000 - microsecond Sample.morning)%Z).
Proof.
  assert (Hv : valid Sample.morning = true) by (vm_compute; reflexivity).
  split; [exact Hv|].
  apply (next_trigger_is_next_instant Sample.morning 0 Hv); [lia|reflexivity..].
Defined.



(** The flag is cleared by [close_app] and, when a day is active, by
    [end_of_day]. *)
Lemma close_app_stops a : timer_active (close_app a) = false.
Proof. reflexivity. Qed.

Lemma end_of_day_stops a :
  day_folder a <> None -> timer_active (end_of_day a) = false.
Proof.
  unfold end_of_day. destruct (day_folder a); [|done].
  now destruct (worklog_window a).
Qed.
End Claims.

Section DayFolderClaims.
Import DateTime PyStr FS HourlyWorklogWindow HourliesApp Aux.

(** C4, as the program has it. When the worklog folder has at least one
    directory whose name starts with today's date, [start_new_day]
    adopts the one whose name is lexicographically greatest and creates
    nothing; among folders named [<date>.NNN] with three digits, that
    is with sequence numbers below 1000, the greatest name is the one
    with the highest sequence number. *)
Theorem start_new_day_adopts_greatest fuel t a now :
  (size t <= fuel)%nat ->
  (exists g, folder_of_day t (strftime_Ymd now) g) ->
  exists f,
    start_new_day fuel t a now = Some (Ret (t, adopted a f))
    /\ day_folder (adopted a f) = Some f
    /\ folder_of_day t (strftime_Ymd now) f
    /\ (forall g, folder_of_day t (strftime_Ymd now) g -> String.le g f)
    /\ (forall n k, (0 <= n < 1000)%Z -> (0 <= k < 1000)%Z ->
          f = numbered (strftime_Ymd now) k ->
          folder_of_day t (strftime_Ymd now) (numbered (strftime_Ymd now) n) ->
          (n <= k)%Z).
Proof.
  intros Hfuel Hex.
  destruct (start_new_day_existing fuel t a now Hfuel Hex) as (f & H1 & H2 & H3).
  exists f. split; [done|]. split; [done|]. split; [done|]. split; [done|].
  intros n k Hn Hk -> Hg. apply (numbered_le (strftime_Ymd now)); [done..|].
  now apply H3.
Qed.

Lemma start_new_day_adopts_greatest_witness :
  (size Sample.two_sessions <= 2)%nat
  /\ folder_of_day Sample.two_sessions (strftime_Ymd Sample.morning) "20250101.001"
  /\ exists f,
       start_new_day 2 Sample.two_sessions init Sample.morning
       = Some (Ret (Sample.two_sessions, adopted init f))
       /\ day_folder (adopted init f) = Some f
       /\ folder_of_day Sample.two_sessions (strftime_Ymd Sample.morning) f
       /\ (forall g, folder_of_day Sample.two_sessions (strftime_Ymd Sample.morning) g ->
             String.le g f)
       /\ (forall n k, (0 <= n < 1000)%Z -> (0 <= k < 1000)%Z ->
             f = numbered (strftime_Ymd Sample.morning) k ->
             folder_of_day Sample.two_sessions (strftime_Ymd Sample.morning)
               (numbered (strftime_Ymd Sample.morning) n) ->
             (n <= k)%Z).
Proof.
  assert (H1 : (size Sample.two_sessions <= 2)%nat) by (vm_compute; lia).
  assert (H2 : folder_of_day Sample.two_sessions (strftime_Ymd Sample.morning)
                 "20250101.001") by (split; vm_compute; reflexivity).
  split; [exact H1|]. split; [exact H2|].
  apply (start_new_day_adopts_greatest 2 Sample.two_sessions init Sample.morning H1).
  exists "20250101.001"%string. exact H2.
Defined.

(** With the folders [20250101.001] and [20250101.002] present, the day
    20250101 resumes in [20250101.002]. *)
Example start_new_day_two_sessions :
  start_new_day 2 Sample.two_sessions init Sample.morning
  = Some (Ret (Sample.two_sessions, adopted init "20250101.002")).
Proof. vm_compute. reflexivity. Qed.

(** C4 as stated fails: the greatest name is not always the highest
    sequence number.  The thousandth folder of a day is named
    [<date>.1000] by the program itself, and with [20250101.999] and
    [20250101.1000] present the folder adopted is [20250101.999]. *)
Lemma start_new_day_prefers_999_to_1000 :
  numbered (strftime_Ymd Sample.morning) 999 = "20250101.999"%string
  /\ numbered (strftime_Ymd Sample.morning) 1000 = "20250101.1000"%string
  /\ folder_of_day Sample.thousand_sessions (strftime_Ymd Sample.morning)
       "20250101.999"
  /\ folder_of_day Sample.thousand_sessions (strftime_Ymd Sample.morning)
       "20250101.1000"
  /\ start_new_day 2 Sample.thousand_sessions init Sample.morning
     = Some (Ret (Sample.thousand_sessions, adopted init "20250101.999"))
  /\ day_folder (adopted init "20250101.999") = Some "20250101.999"%string.
Proof.
  split; [vm_compute; reflexivity|]. split; [vm_compute; reflexivity|].
  split; [split; vm_compute; reflexivity|].
  split; [split; vm_compute; reflexivity|].
  split; [vm_compute; reflexivity|reflexivity].
Qed.

(** C5, as the program has it. When the worklog folder has no directory
    whose name starts with today's date, [start_new_day] takes the first
    sequence number from 1 on whose name [<date>.NNN] nothing in the
    worklog folder has, creates that folder empty and adopts it; when
    nothing is named [<date>.001], that is the folder created. *)
Theorem start_new_day_creates_first_unused fuel t a now :
  (size t <= fuel)%nat ->
  (forall g, ~ folder_of_day t (strftime_Ymd now) g) ->
  exists k, (1 <= k)%Z
    /\ t !! numbered (strftime_Ymd now) k = None
    /\ (forall i, (1 <= i < k)%Z -> is_Some (t !! numbered (strftime_Ymd now) i))
    /\ start_new_day fuel t a now
       = Some (Ret (<[numbered (strftime_Ymd now) k := NFolder (mkfolder ∅ true)]> t,
                    adopted a (numbered (strftime_Ymd now) k)))
    /\ (t !! numbered (strftime_Ymd now) 1 = None -> k = 1%Z).
Proof.
  intros Hfuel Hno.
  destruct (start_new_day_fresh fuel t a now Hfuel Hno) as (k & Hk & Hfree & Hbusy & Hrun).
  exists k. split; [done|]. split; [done|]. split; [done|]. split; [done|].
  intros H1. destruct (Z.eq_dec k 1) as [|Hne]; [done|].
  destruct (Hbusy 1%Z ltac:(lia)) as [x Hx]. congruence.
Qed.

Lemma start_new_day_creates_first_unused_witness :
  (size (∅ : tree) <= 0)%nat
  /\ (forall g, ~ folder_of_day ∅ (strftime_Ymd Sample.morning) g)
  /\ exists k, (1 <= k)%Z
       /\ (∅ : tree) !! numbered (strftime_Ymd Sample.morning) k = None
       /\ (forall i, (1 <= i < k)%Z ->
             is_Some ((∅ : tree) !! numbered (strftime_Ymd Sample.morning) i))
       /\ start_new_day 0 ∅ init Sample.morning
          = Some (Ret (<[numbered (strftime_Ymd Sample.morning) k
                         := NFolder (mkfolder ∅ true)]> ∅,
                       adopted init (numbered (strftime_Ymd Sample.morning) k)))
       /\ ((∅ : tree) !! numbered (strftime_Ymd Sample.morning) 1 = None -> k = 1%Z).
Proof.
  assert (H1 : (size (∅ : tree) <= 0)%nat) by (vm_compute; lia).
  assert (H2 : forall g, ~ folder_of_day ∅ (strftime_Ymd Sample.morning) g).
  { intros g [_ Hd]. unfold isdir in Hd. rewrite lookup_empty in Hd. discriminate Hd. }
  split; [exact H1|]. split; [exact H2|].
  exact (start_new_day_creates_first_unused 0 ∅ init Sample.morning H1 H2).
Defined.

(** In an empty worklog folder the folder created is [<date>.001]. *)
Example start_new_day_empty :
  start_new_day 0 ∅ init Sample.morning
  = Some (Ret ({[ "20250101.001"%string := NFolder (mkfolder ∅ true) ]},
               adopted init "20250101.001")).
Proof. vm_compute. reflexivity. Qed.

(** C5 as stated fails: no directory for the day exists, a regular file
    is named [20250101.001], and the folder created and adopted is
    [20250101.002]. *)
Lemma start_new_day_skips_taken_name :
  (forall g, ~ folder_of_day Sample.file_in_the_way (strftime_Ymd Sample.morning) g)
  /\ start_new_day 1 Sample.file_in_the_way init Sample.morning
     = Some (Ret (<["20250101.002"%string := NFolder (mkfolder ∅ true)]>
                    Sample.file_in_the_way,
                  adopted init "20250101.002"))
  /\ isdir (<["20250101.002"%string := NFolder (mkfolder ∅ true)]>
              Sample.file_in_the_way) "20250101.001" = false.
Proof.
  split; [|split; vm_compute; reflexivity].
  intros g [_ Hd]. unfold isdir, Sample.file_in_the_way in Hd.
  destruct (decide (g = "20250101.001"%string)) as [->|Hne].
  - rewrite lookup_singleton_eq in Hd. discriminate Hd.
  - rewrite lookup_singleton_ne in Hd by done. discriminate Hd.
Qed.

(** C6. Calling [start_new_day] again, with nothing created in between,
    adopts the same day folder and leaves the tree and the application
    state as the first call left them. *)
Theorem start_new_day_idempotent fuel fuel' t a now :
  (size t <= fuel)%nat -> (S (size t) <= fuel')%nat ->
  exists t1 f,
    start_new_day fuel t a now = Some (Ret (t1, adopted a f))
    /\ day_folder (adopted a f) = Some f
    /\ start_new_day fuel' t1 (adopted a f) now = Some (Ret (t1, adopted a f)).
Proof.
  intros Hfuel Hfuel'.
  set (today := strftime_Ymd now).
  assert (Hagain : forall t1 f,
            (size t1 <= fuel')%nat -> folder_of_day t1 today f ->
            (forall g, folder_of_day t1 today g -> String.le g f) ->
            start_new_day fuel' t1 (adopted a f) now = Some (Ret (t1, adopted a f))).
  { intros t1 f Hsz Hf Hmax.
    destruct (start_new_day_existing fuel' t1 (adopted a f) now Hsz)
      as (f' & Hrun & Hf' & Hmax'); [by exists f|].
    assert (f' = f) as ->.
    { apply (anti_symm String.le); [by apply Hmax | by apply Hmax']. }
    now rewrite adopted_again in Hrun. }
  destruct (List.filter (fun f => startswith f today && isdir t f) (listdir_root t))
    as [|g l] eqn:Hfilter.
  - assert (Hno : forall g, ~ folder_of_day t today g).
    { intros g Hg%existing_folders_spec. rewrite Hfilter in Hg. inversion Hg. }
    destruct (start_new_day_fresh fuel t a now Hfuel Hno) as (k & Hk & Hfree & _ & Hrun).
    fold today in Hfree, Hrun.
    exists (<[numbered today k := NFolder (mkfolder ∅ true)]> t), (numbered today k).
    split; [done|]. split; [done|]. apply Hagain.
    + rewrite map_size_insert_None by done. lia.
    + split; [apply numbered_startswith|]. unfold isdir. now rewrite lookup_insert_eq.
    + intros g [Hg1 Hg2]. destruct (decide (g = numbered today k)) as [->|Hne]; [done|].
      exfalso. apply (Hno g). split; [done|].
      unfold isdir in *. now rewrite lookup_insert_ne in Hg2.
  - assert (Hex : exists g, folder_of_day t today g).
    { exists g. apply existing_folders_spec. rewrite Hfilter. left. }
    destruct (start_new_day_existing fuel t a now Hfuel Hex) as (f & Hrun & Hf & Hmax).
    exists t, f. split; [done|]. split; [done|]. apply Hagain; [lia|done..].
Qed.

Lemma start_new_day_idempotent_witness :
  (size Sample.file_in_the_way <= 1)%nat
  /\ (S (size Sample.file_in_the_way) <= 2)%nat
  /\ exists t1 f,
       start_new_day 1 Sample.file_in_the_way init Sample.morning
       = Some (Ret (t1, adopted init f))
       /\ day_folder (adopted init f) = Some f
       /\ start_new_day 2 t1 (adopted init f) Sample.morning
          = Some (Ret (t1, adopted init f)).
Proof.
  assert (H1 : (size Sample.file_in_the_way <= 1)%nat) by (vm_compute; lia).
  assert (H2 : (S (size Sample.file_in_the_way) <= 2)%nat) by (vm_compute; lia).
  split; [exact H1|]. split; [exact H2|].
  exact (start_new_day_idempotent 1 2 Sample.file_in_the_way init Sample.morning H1 H2).
Defined.
End DayFolderClaims.

Section EntryClaims.
Import DateTime PyStr FS HourlyWorklogWindow HourliesApp Aux.

(** C7, as the program has it. For a day folder that can be listed, and
    for a path at which nothing exists, [get_last_entry] never raises.
    It returns [None] when the folder does not exist and when no entry
    name ends in the suffix; otherwise it reads the entry whose name is
    lexicographically last among those ending in the suffix and returns
    its text, or [None] when that read fails.  The listing itself is not
    guarded: when the path is not a directory, or is a directory that
    refuses access, the exception of [os.listdir] leaves
    [get_last_entry]. *)
Theorem get_last_entry_correct t dir :
  ((t !! dir = None \/ exists fd, t !! dir = Some (NFolder fd)) ->
     (exists r, get_last_entry t dir = Ret r)
     /\ (t !! dir = None -> get_last_entry t dir = Ret None)
     /\ ((forall f, is_Some (entries_of t dir !! f) -> endswith f SUFFIX = false) ->
         get_last_entry t dir = Ret None))
  /\ (forall f, latest_entry t dir f ->
        get_last_entry t dir
        = Ret (match read_text t dir f with Ret s => Some s | Raise _ => None end))
  /\ (t !! dir = Some NFile -> get_last_entry t dir = Raise NotADirectoryError)
  /\ (t !! dir = Some NNoAccess -> get_last_entry t dir = Raise PermissionError).
Proof.
  split; [|split; [|split]].
  - intros Hdir. split; [|split].
    + unfold get_last_entry, path_exists, listdir.
      destruct Hdir as [-> |[fd ->]]; [by eexists|]. simpl.
      destruct (List.filter _ _); [by eexists|].
      unfold try_except, bind. destruct (read_text _ _ _); by eexists.
    + apply get_last_entry_absent.
    + intros Hno. destruct Hdir as [E|[fd E]].
      * now apply get_last_entry_absent.
      * apply (get_last_entry_none t dir fd E). intros f Hf. apply Hno.
        now rewrite (entries_of_folder t dir fd E).
  - apply get_last_entry_latest.
  - intros E. unfold get_last_entry, path_exists, listdir. now rewrite E.
  - intros E. unfold get_last_entry, path_exists, listdir. now rewrite E.
Qed.

Lemma get_last_entry_correct_witness :
  (Sample.two_sessions !! "20250101.001"%string = None
   \/ exists fd, Sample.two_sessions !! "20250101.001"%string = Some (NFolder fd))
  /\ get_last_entry Sample.two_sessions "20250101.001" = Ret None.
Proof.
  assert (H : Sample.two_sessions !! "20250101.001"%string = None
              \/ exists fd, Sample.two_sessions !! "20250101.001"%string
                            = Some (NFolder fd))
    by (right; eexists; vm_compute; reflexivity).
  split; [exact H|].
  apply (proj1 (get_last_entry_correct Sample.two_sessions "20250101.001") H).
  intros f [x Hx]. vm_compute in Hx. discriminate Hx.
Defined.

(** C7 as stated fails: the listing is outside the [try].  A day folder
    that has lost its permissions exists and is a directory, and
    [get_last_entry] raises [PermissionError] on it; a regular file at
    the day folder's path makes it raise [NotADirectoryError]. *)
Lemma get_last_entry_listing_raises :
  path_exists Sample.locked_day "20250101.001" = true
  /\ isdir Sample.locked_day "20250101.001" = true
  /\ get_last_entry Sample.locked_day "20250101.001" = Raise PermissionError
  /\ path_exists Sample.file_in_the_way "20250101.001" = true
  /\ get_last_entry Sample.file_in_the_way "20250101.001" = Raise NotADirectoryError.
Proof. repeat split; vm_compute; reflexivity. Qed.

(** With the entries of 12:00 and 13:00 in the folder, the text of the
    13:00 entry is returned. *)
Example get_last_entry_of_two :
  latest_entry Sample.two_sessions "20250101.002" "202501011300.hourlies"
  /\ get_last_entry Sample.two_sessions "20250101.002" = Ret (Some [120; 121; 122]%Z)
  /\ read_text Sample.two_sessions "20250101.002" "202501011300.hourlies"
     = Ret [120; 121; 122]%Z.
Proof.
  split; [|split; vm_compute; reflexivity].
  split; [vm_compute; eauto|]. split; [vm_compute; reflexivity|].
  intros g [x Hx] _.
  assert (E : entries_of Sample.two_sessions "20250101.002"
              = {[ "202501011200.hourlies"%string := Regular "abc" true;
                   "202501011300.hourlies"%string := Regular "xyz" true ]})
    by (vm_compute; reflexivity).
  rewrite E in Hx.
  destruct (decide (g = "202501011200.hourlies"%string)) as [->|H1];
    [vm_compute; exact I|].
  destruct (decide (g = "202501011300.hourlies"%string)) as [->|H2];
    [vm_compute; exact I|].
  rewrite lookup_insert_ne, lookup_singleton_ne in Hx by done. discriminate Hx.
Qed.

(** C8, as the program has it. Text that [save_entry] has saved and that
    contains no carriage return is read back from its file unchanged. *)
Theorem saved_text_reads_back os fuel t dir text answer now cb f c :
  valid now = true ->
  outcome_of (save_entry os fuel t dir text answer now cb) = Saved f c ->
  Forall (fun ch => ch <> 13%Z) c ->
  c <> []
  /\ read_text (fs_after (save_entry os fuel t dir text answer now cb)) dir f = Ret c.
Proof.
  intros Hv Hs Hcr.
  destruct (save_entry_spec os fuel t dir text answer now cb Hv) as (_ & _ & _ & _ & H).
  destruct (H f c Hs) as (Hne & _ & data & Hd & Hent). split; [done|].
  rewrite (read_text_entries _ _ _ data) by (now rewrite Hent, lookup_insert_eq).
  now rewrite (from_disk_to_disk os c data Hcr Hd).
Qed.

Lemma saved_text_reads_back_witness :
  valid Sample.afternoon = true
  /\ outcome_of (save_entry TextIO.Windows 1 Sample.two_sessions "20250101.002"
                   [32; 97; 10; 98; 10]%Z false Sample.afternoon false)
     = Saved "202501011301.hourlies" [97; 10; 98]%Z
  /\ Forall (fun ch => ch <> 13%Z) [97; 10; 98]%Z
  /\ read_text
       (fs_after (save_entry TextIO.Windows 1 Sample.two_sessions "20250101.002"
                    [32; 97; 10; 98; 10]%Z false Sample.afternoon false))
       "20250101.002" "202501011301.hourlies"
     = Ret [97; 10; 98]%Z.
Proof.
  assert (H1 : valid Sample.afternoon = true) by (vm_compute; reflexivity).
  assert (H2 : outcome_of (save_entry TextIO.Windows 1 Sample.two_sessions
                             "20250101.002" [32; 97; 10; 98; 10]%Z false
                             Sample.afternoon false)
               = Saved "202501011301.hourlies" [97; 10; 98]%Z)
    by (vm_compute; reflexivity).
  assert (H3 : Forall (fun ch => ch <> 13%Z) [97; 10; 98]%Z)
    by (repeat constructor; discriminate).
  split; [exact H1|]. split; [exact H2|]. split; [exact H3|].
  exact (proj2 (saved_text_reads_back TextIO.Windows 1 Sample.two_sessions
                  "20250101.002" [32; 97; 10; 98; 10]%Z false Sample.afternoon false
                  "202501011301.hourlies" [97; 10; 98]%Z H1 H2 H3)).
Defined.

(** C8 as stated fails: the text "a\rb" is saved as it is and read back
    as "a\nb". *)
Lemma carriage_return_not_read_back :
  let r := save_entry TextIO.Posix 1 Sample.two_sessions "20250101.002"
             [97; 13; 98]%Z false Sample.afternoon false in
  outcome_of r = Saved "202501011301.hourlies" [97; 13; 98]%Z
  /\ read_text (fs_after r) "20250101.002" "202501011301.hourlies"
     = Ret [97; 10; 98]%Z
  /\ [97; 10; 98]%Z <> [97; 13; 98]%Z.
Proof. split; [|split]; [vm_compute; reflexivity..|discriminate]. Qed.



End EntryClaims.

Section ConfigClaims.
Import Config.



(** An empty object in the file is filled up to the defaults. *)
Example load_config_fills_missing_keys :
  load_config Sample.toy_load Sample.toy_dump "/home/u" true (Present true "{}")
  = Ret (Present true "{}", default_copy "/home/u").
Proof. vm_compute. reflexivity. Qed.
End ConfigClaims.

(** * Further facts about saving *)

Section StoreFacts.
Import DateTime PyStr FS HourlyWorklogWindow Aux.
Open Scope Z_scope.

(** The events [store] adds to the dialogs shown before it. *)
Lemma store_ui os fuel t dir content now cb shown :
  let r := store os fuel t dir content now cb shown in
  match outcome_of r with
  | Saved _ _ => ui r = shown ++ WindowDestroyed :: (if cb then [CallbackCalled] else [])
  | SaveFailed _ e => ui r = shown ++ [ShowError_SaveError e]
  | _ => ui r = shown
  end.
Proof.
  unfold store. destruct (makedirs t dir) as [t1|e]; [|reflexivity].
  destruct (free_filename _ _ _ _ _ _) as [[f|e]|]; try reflexivity.
  destruct (write_text _ _ _ _ _) as [t2 [e|]]; reflexivity.
Qed.

Lemma store_not_NothingSaved os fuel t dir content now cb shown :
  outcome_of (store os fuel t dir content now cb shown) <> NothingSaved.
Proof.
  unfold store. destruct (makedirs t dir) as [t1|e]; [|discriminate].
  destruct (free_filename _ _ _ _ _ _) as [[f|e]|]; try discriminate.
  destruct (write_text _ _ _ _ _) as [t2 [e|]]; discriminate.
Qed.

(** [save_entry] is [store] on the content it settles on, or an early
    return. *)
Lemma save_entry_cases os fuel t dir text answer now cb :
  let r := save_entry os fuel t dir text answer now cb in
  (exists content shown,
      r = store os fuel t dir content now cb shown
      /\ content <> []
      /\ (shown = [] \/ shown = [AskYesNo_EmptyEntry])
      /\ (content = strip text
          \/ (strip text = [] /\ answer = true
              /\ get_last_entry t dir = Ret (Some content))))
  \/ (exists shown, r = mkresult t shown NothingSaved
        /\ strip text = []
        /\ (shown = [AskYesNo_EmptyEntry; FocusSet]
            \/ shown = [AskYesNo_EmptyEntry; ShowWarning_NoPreviousEntry; FocusSet]))
  \/ (exists e, r = mkresult t [AskYesNo_EmptyEntry] (Uncaught e)
        /\ strip text = [] /\ answer = true
        /\ get_last_entry t dir = Raise e).
Proof.
  unfold save_entry. destruct (strip text) as [|c0 s0] eqn:Hs; simpl.
  - destruct answer.
    + destruct (get_last_entry t dir) as [[[|c s]|]|e] eqn:Hl.
      * right. left. eexists. split; [reflexivity|]. split; [done|]. now right.
      * left. exists (c :: s), [AskYesNo_EmptyEntry].
        split; [reflexivity|]. split; [done|]. split; [now right|]. right. done.
      * right. left. eexists. split; [reflexivity|]. split; [done|]. now right.
      * right. right. exists e. done.
    + right. left. eexists. split; [reflexivity|]. split; [done|]. now left.
  - left. exists (c0 :: s0), []. split; [reflexivity|]. split; [done|].
    split; [now left|]. now left.
Qed.

Lemma endswith_app (s suffix : string) : endswith (s +:+ suffix) suffix = true.
Proof.
  unfold endswith.
  assert (Hlen : forall a b : string,
             String.length (a +:+ b) = (String.length a + String.length b)%nat).
  { intros a b. induction a as [|c a IH]; [reflexivity|].
    change (S (String.length (a +:+ b)) = S (String.length a + String.length b)).
    now rewrite IH. }
  rewrite Hlen.
  replace (String.length s + String.length suffix - String.length suffix)%nat
    with (String.length s) by lia.
  apply andb_true_intro. split; [apply Nat.leb_le; lia|].
  apply String.eqb_eq.
  induction s as [|c s IH].
  - change (EmptyString +:+ suffix) with suffix. simpl.
    clear. induction suffix as [|c r IH]; [reflexivity|]. simpl. now rewrite IH.
  - change (String c s +:+ suffix) with (String c (s +:+ suffix)). simpl. exact IH.
Qed.
End StoreFacts.

Section StripFacts.
Import PyStr.

Lemma lstrip_app_space a s : forallb isspace a = true -> lstrip (a ++ s) = lstrip s.
Proof.
  induction a as [|c a IH]; [done|]. simpl.
  intros [Hc Ha]%andb_prop. rewrite Hc. auto.
Qed.

Lemma lstrip_app_keep s b : lstrip s <> [] -> lstrip (s ++ b) = lstrip s ++ b.
Proof.
  induction s as [|c s IH]; [done|]. simpl.
  destruct (isspace c); [exact IH|done].
Qed.

Lemma lstrip_nil_space s : lstrip s = [] -> forallb isspace s = true.
Proof.
  induction s as [|c s IH]; [done|]. simpl.
  destruct (isspace c); [exact IH|discriminate].
Qed.

Lemma forallb_rev (p : Z -> bool) l : forallb p (rev l) = forallb p l.
Proof.
  apply eq_true_iff_eq. rewrite !forallb_forall. split; intros H x Hx.
  - apply H. now apply in_rev in Hx.
  - apply H. now apply in_rev.
Qed.

Lemma rstrip_app_space s b : forallb isspace b = true -> rstrip (s ++ b) = rstrip s.
Proof.
  intros Hb. unfold rstrip. rewrite rev_app_distr, lstrip_app_space; [done|].
  now rewrite forallb_rev.
Qed.

(** Whitespace around a text does not change what [strip] gives. *)
Lemma strip_padded a s b :
  forallb isspace a = true -> forallb isspace b = true ->
  strip (a ++ s ++ b) = strip s.
Proof.
  intros Ha Hb. unfold strip. rewrite lstrip_app_space by done.
  destruct (lstrip s) as [|c r] eqn:E.
  - apply lstrip_nil_space in E.
    rewrite (lstrip_all_space (s ++ b)); [done|].
    rewrite forallb_app, E, Hb. done.
  - rewrite lstrip_app_keep by (rewrite E; done). rewrite E.
    now apply rstrip_app_space.
Qed.
End StripFacts.

Section CallbackFacts.
Import DateTime PyStr FS HourlyWorklogWindow Aux.

(** The callback is among the events of [save_entry] exactly when one is
    set and the entry was written. *)
Lemma callback_called_iff os fuel t dir text answer now cb :
  let r := save_entry os fuel t dir text answer now cb in
  existsb (fun ev => match ev with CallbackCalled => true | _ => false end) (ui r)
  = match outcome_of r with Saved _ _ => cb | _ => false end.
Proof.
  cbv zeta.
  destruct (save_entry_cases os fuel t dir text answer now cb)
    as [(content & shown & -> & _ & Hshown & _)|[(shown & -> & _ & Hshown)|(e & -> & _)]].
  - pose proof (store_ui os fuel t dir content now cb shown) as Hui. cbv zeta in Hui.
    destruct (outcome_of (store os fuel t dir content now cb shown)) as [|f c|f e| |];
      rewrite Hui; clear Hui;
      destruct Hshown as [-> | ->]; try reflexivity; now destruct cb.
  - simpl. now destruct Hshown as [-> | ->].
  - reflexivity.
Qed.
End CallbackFacts.

Section TimerFacts.
Import DateTime Aux HourliesApp.
Open Scope Z_scope.

(** Before the last year of the calendar a trigger always exists. *)
Lemma next_trigger_Ret now m :
  valid now = true -> 0 <= m <= 59 -> year now < 9999 ->
  exists next_hour wait, next_trigger now m = Ret (next_hour, wait).
Proof.
  intros Hv Hm Hy. pose proof (next_trigger_general now m Hv Hm) as H.
  destruct (next_trigger now m) as [[t w]|e]; [eauto|].
  destruct H as [_ H]. exfalso.
  set (t' := mkdt 9999 12 31 23 m 0 0).
  assert (Hv' : valid t' = true) by (apply valid_spec; simpl; unfold days_in_month; simpl; lia).
  assert (Ht : trigger_instant m t') by (repeat split; done).
  specialize (H t' Ht). unfold lt, cmp in H. simpl in H.
  apply Z.compare_lt_iff in Hy. now rewrite Hy in H.
Qed.

Lemma step_threads_length m a act :
  List.length (timer_threads (step m a act))
  = (List.length (timer_threads a)
     + match act with
       | StartTimer => if timer_active a then 0 else 1
       | _ => 0
       end)%nat.
Proof.
  destruct act as [i now| | |]; simpl.
  - destruct (timer_threads a !! i); simpl; [rewrite length_insert|]; lia.
  - unfold start_timer. destruct (timer_active a); simpl; [lia|].
    rewrite length_app. simpl. lia.
  - lia.
  - unfold end_of_day. destruct (day_folder a), (worklog_window a); simpl; lia.
Qed.

Lemma step_active m a act :
  stops act = false -> timer_active a = true -> timer_active (step m a act) = true.
Proof.
  destruct act as [i now| | |]; simpl; try discriminate; intros _ Ha.
  - now destruct (timer_threads a !! i).
  - apply start_timer_active.
Qed.
End TimerFacts.

(** * Saving an entry: dialogs, failures and the day folder *)

Section SaveOutcomes.
Import DateTime PyStr FS HourlyWorklogWindow Aux.
Open Scope Z_scope.

(** X1. [save_entry] destroys the window exactly when the entry was
    written, calls the callback exactly when the entry was written and a
    callback is set, and shows the error box exactly when writing
    failed, with the exception that was caught. *)
Theorem save_entry_closes_window_iff_saved os fuel t dir text answer now cb :
  let r := save_entry os fuel t dir text answer now cb in
  (WindowDestroyed ∈ ui r <-> exists f c, outcome_of r = Saved f c)
  /\ (CallbackCalled ∈ ui r <-> cb = true /\ exists f c, outcome_of r = Saved f c)
  /\ (forall e, ShowError_SaveError e ∈ ui r <-> exists f, outcome_of r = SaveFailed f e).
Proof.
  cbv zeta.
  destruct (save_entry_cases os fuel t dir text answer now cb)
    as [(content & shown & -> & _ & Hshown & _)|[(shown & -> & _ & Hshown)|(e & -> & _)]].
  - pose proof (store_ui os fuel t dir content now cb shown) as Hui. cbv zeta in Hui.
    assert (Hs : forall ev, ev ∈ shown -> ev = AskYesNo_EmptyEntry).
    { intros ev. destruct Hshown as [-> | ->].
      - now intros ?%elem_of_nil.
      - now intros ->%list_elem_of_singleton. }
    destruct (outcome_of (store os fuel t dir content now cb shown)) as [|f c|f e| |];
      rewrite Hui; clear Hui.
    + split; [|split; [|intros e]]; (split; [intros H%Hs; discriminate|]).
      * now intros (? & ? & ?). * now intros (_ & ? & ? & ?). * now intros (? & ?).
    + split; [|split; [|intros e]].
      * split; [eauto|]. intros _. apply elem_of_app. right. left.
      * rewrite elem_of_app, elem_of_cons. split.
        -- intros [H%Hs|[H|H]]; try discriminate.
           destruct cb; [eauto|]. now apply elem_of_nil in H.
        -- intros [-> _]. right. right. left.
      * rewrite elem_of_app, elem_of_cons. split.
        -- intros [H%Hs|[H|H]]; try discriminate.
           destruct cb; [apply list_elem_of_singleton in H|apply elem_of_nil in H];
             done.
        -- now intros (? & ?).
    + split; [|split; [|intros e']]; rewrite elem_of_app, list_elem_of_singleton.
      * split; [intros [H%Hs|H]; discriminate|now intros (? & ? & ?)].
      * split; [intros [H%Hs|H]; discriminate|now intros (_ & ? & ? & ?)].
      * split.
        -- intros [H%Hs|H]; [discriminate|]. injection H as ->. eauto.
        -- intros (? & [= _ ->]). now right.
    + split; [|split; [|intros e']]; (split; [intros H%Hs; discriminate|]).
      * now intros (? & ? & ?). * now intros (_ & ? & ? & ?). * now intros (? & ?).
    + split; [|split; [|intros e']]; (split; [intros H%Hs; discriminate|]).
      * now intros (? & ? & ?). * now intros (_ & ? & ? & ?). * now intros (? & ?).
  - simpl.
    assert (Hs : forall ev, ev ∈ shown ->
              ev = AskYesNo_EmptyEntry \/ ev = FocusSet
              \/ ev = ShowWarning_NoPreviousEntry).
    { intros ev. destruct Hshown as [-> | ->]; rewrite !elem_of_cons, elem_of_nil;
        tauto. }
    split; [|split; [|intros e]]; (split; [intros [H|[H|H]]%Hs; discriminate|]).
    * now intros (? & ? & ?). * now intros (_ & ? & ? & ?). * now intros (? & ?).
  - simpl.
    split; [|split; [|intros e']];
      (split; [intros H%list_elem_of_singleton; discriminate|]).
    * now intros (? & ? & ?). * now intros (_ & ? & ? & ?). * now intros (? & ?).
Qed.

Lemma save_entry_closes_window_iff_saved_witness :
  WindowDestroyed ∈ ui (save_entry TextIO.Posix 1 Sample.two_sessions "20250101.002"
                          [97] false Sample.afternoon true)
  /\ CallbackCalled ∈ ui (save_entry TextIO.Posix 1 Sample.two_sessions "20250101.002"
                            [97] false Sample.afternoon true).
Proof.
  assert (H : exists f c,
             outcome_of (save_entry TextIO.Posix 1 Sample.two_sessions "20250101.002"
                           [97] false Sample.afternoon true) = Saved f c)
    by (eexists _, _; vm_compute; reflexivity).
  split.
  - exact (proj2 (proj1 (save_entry_closes_window_iff_saved TextIO.Posix 1
                           Sample.two_sessions "20250101.002" [97] false
                           Sample.afternoon true)) H).
  - exact (proj2 (proj1 (proj2 (save_entry_closes_window_iff_saved TextIO.Posix 1
                                  Sample.two_sessions "20250101.002" [97] false
                                  Sample.afternoon true))) (conj eq_refl H)).
Defined.

(** X2. When an exception leaves [save_entry], nothing has been written
    or created.  An [OverflowError] leaves it only when the day folder
    holds an entry for every minute from [now] up to the last one the
    calendar has, so that the next name would lie after year 9999. *)
Theorem save_entry_raises_before_writing os fuel t dir text answer now cb e :
  valid now = true ->
  outcome_of (save_entry os fuel t dir text answer now cb) = Uncaught e ->
  fs_after (save_entry os fuel t dir text answer now cb) = t
  /\ (e = OverflowError ->
        exists j, 0 <= j /\ ~ in_range now (j + 1)
          /\ forall i, 0 <= i <= j ->
               in_range now i /\ is_Some (entries_of t dir !! advanced now i)).
Proof.
  intros Hv.
  destruct (save_entry_cases os fuel t dir text answer now cb)
    as [(content & shown & -> & _)|[(shown & -> & _)|(e' & -> & _ & _ & Hl)]].
  - unfold store.
    destruct (makedirs t dir) as [t1|e1] eqn:Hmk.
    + pose proof Hmk as [Hent _]%makedirs_Ret.
      rewrite <- (advanced_0 now Hv).
      destruct (free_filename fuel t1 dir now 0 (advanced now 0)) as [[f|e1]|] eqn:Hf.
      * destruct (write_text os t1 dir f content) as [t2 [e2|]]; discriminate.
      * simpl. intros [= ->].
        destruct (free_filename_Raise t1 dir now fuel e Hv 0 ltac:(lia)
                    (in_range_0 now Hv) Hf) as (-> & j & Hj & Hout & Hall).
        assert (Hex : forall i, 0 <= i <= j ->
                  in_range now i /\ is_Some (entries_of t dir !! advanced now i)).
        { intros i Hi. destruct (Hall i Hi) as [H1 H2]. split; [done|].
          rewrite <- Hent. now apply file_exists_true. }
        split; [|intros _; exists j; done].
        destruct (Hex 0 ltac:(lia)) as [_ [x Hx]].
        apply entries_of_Some in Hx as (fd & Hfd & _).
        rewrite (makedirs_folder t dir fd Hfd) in Hmk. now injection Hmk as <-.
      * discriminate.
    + simpl. intros [= ->]. split; [done|].
      apply makedirs_Raise in Hmk as [-> _]. discriminate.
  - discriminate.
  - simpl. intros [= ->]. split; [done|]. intros ->.
    unfold get_last_entry, path_exists, listdir in Hl.
    destruct (t !! dir) as [[|fd|]|] eqn:Ed; simpl in Hl; try discriminate Hl.
    destruct (List.filter _ _); [discriminate|].
    unfold try_except, bind in Hl. now destruct (read_text _ _ _).
Qed.

Lemma save_entry_raises_before_writing_witness :
  valid Sample.morning = true
  /\ outcome_of (save_entry TextIO.Posix 0 Sample.locked_day "20250101.001"
                   [32] true Sample.morning false)
     = Uncaught PermissionError
  /\ fs_after (save_entry TextIO.Posix 0 Sample.locked_day "20250101.001"
                 [32] true Sample.morning false)
     = Sample.locked_day.
Proof.
  assert (H1 : valid Sample.morning = true) by (vm_compute; reflexivity).
  assert (H2 : outcome_of (save_entry TextIO.Posix 0 Sample.locked_day
                             "20250101.001" [32] true Sample.morning false)
               = Uncaught PermissionError) by (vm_compute; reflexivity).
  split; [exact H1|]. split; [exact H2|].
  exact (proj1 (save_entry_raises_before_writing TextIO.Posix 0 Sample.locked_day
                  "20250101.001" [32] true Sample.morning false
                  PermissionError H1 H2)).
Defined.

(** X3. When the day folder path is a regular file, [save_entry] writes
    nothing: text that is not empty after stripping makes it raise
    [FileExistsError], empty text with the offer accepted makes it raise
    [NotADirectoryError], and empty text with the offer refused returns
    without saving. *)
Theorem save_entry_over_a_file os fuel t dir text answer now cb :
  t !! dir = Some NFile ->
  let r := save_entry os fuel t dir text answer now cb in
  fs_after r = t
  /\ outcome_of r
     = if truthy (strip text) then Uncaught FileExistsError
       else if answer then Uncaught NotADirectoryError
       else NothingSaved.
Proof.
  intros Hd. unfold save_entry.
  assert (Hst : forall c shown,
            store os fuel t dir c now cb shown = mkresult t shown (Uncaught FileExistsError)).
  { intros c shown. unfold store, makedirs. now rewrite Hd. }
  assert (Hl : get_last_entry t dir = Raise NotADirectoryError).
  { unfold get_last_entry, path_exists, listdir. now rewrite Hd. }
  destruct (strip text) as [|c0 s0]; simpl.
  - destruct answer; [|done]. now rewrite Hl.
  - now rewrite Hst.
Qed.

Lemma save_entry_over_a_file_witness :
  Sample.file_in_the_way !! "20250101.001"%string = Some NFile
  /\ outcome_of (save_entry TextIO.Posix 0 Sample.file_in_the_way "20250101.001"
                   [32] true Sample.morning false)
     = (if truthy (strip [32]) then Uncaught FileExistsError
        else if true then Uncaught NotADirectoryError else NothingSaved).
Proof.
  assert (H1 : Sample.file_in_the_way !! "20250101.001"%string = Some NFile)
    by (vm_compute; reflexivity).
  split; [exact H1|].
  exact (proj2 (save_entry_over_a_file TextIO.Posix 0 Sample.file_in_the_way
                  "20250101.001" [32] true Sample.morning false H1)).
Defined.

(** X4. When the day folder does not exist, [save_entry] creates it and
    files the stripped text under the name of the current minute,
    whatever else the worklog folder holds: the new folder holds exactly
    that entry, the window is destroyed and the callback called. *)
Theorem save_entry_creates_day_folder os fuel t dir text answer now cb data :
  valid now = true -> t !! dir = None -> strip text <> [] ->
  TextIO.to_disk os (strip text) = Some data ->
  save_entry os fuel t dir text answer now cb
  = mkresult
      (<[dir := NFolder (mkfolder {[ entry_name now := Regular data true ]} true)]> t)
      (WindowDestroyed :: (if cb then [CallbackCalled] else []))
      (Saved (entry_name now) (strip text)).
Proof.
  intros Hv Hd Hne Hdata. unfold save_entry.
  destruct (strip text) as [|c0 s0] eqn:Hs; [done|]. simpl.
  unfold store, makedirs. rewrite Hd.
  fold (entry_name now).
  set (t1 := <[dir := NFolder (mkfolder ∅ true)]> t).
  assert (Ht1 : t1 !! dir = Some (NFolder (mkfolder ∅ true)))
    by (unfold t1; now rewrite lookup_insert_eq).
  assert (Hfree : file_exists t1 dir (entry_name now) = false).
  { unfold file_exists, entries_of. rewrite Ht1. simpl. now rewrite lookup_empty. }
  assert (Hff : free_filename fuel t1 dir now 0 (entry_name now)
                = Some (Ret (entry_name now))).
  { destruct fuel; [rewrite free_filename_O|rewrite free_filename_S];
      now rewrite Hfree. }
  rewrite Hff.
  unfold write_text, open_w. rewrite Ht1. simpl. rewrite lookup_empty. simpl.
  set (t2 := put t1 dir (entry_name now) (Regular EmptyString true)).
  destruct (put_folder t1 dir (entry_name now) (Regular EmptyString true) _ Ht1)
    as (H1 & _ & H3). fold t2 in H1, H3.
  rewrite H1, lookup_insert_eq, Hdata. simpl.
  f_equal. unfold put. rewrite H3. simpl.
  unfold t2, put. rewrite Ht1. simpl. unfold t1.
  rewrite !insert_insert_eq. reflexivity.
Qed.

Lemma save_entry_creates_day_folder_witness :
  valid Sample.morning = true
  /\ (∅ : tree) !! "20250101.001"%string = None
  /\ strip [97; 10] <> []
  /\ TextIO.to_disk TextIO.Posix (strip [97; 10]) = Some "a"%string
  /\ save_entry TextIO.Posix 0 ∅ "20250101.001" [97; 10] false Sample.morning true
     = mkresult
         (<["20250101.001"%string
            := NFolder (mkfolder {[ entry_name Sample.morning := Regular "a" true ]}
                          true)]> ∅)
         (WindowDestroyed :: (if true then [CallbackCalled] else []))
         (Saved (entry_name Sample.morning) (strip [97; 10])).
Proof.
  assert (H1 : valid Sample.morning = true) by (vm_compute; reflexivity).
  assert (H2 : (∅ : tree) !! "20250101.001"%string = None) by apply lookup_empty.
  assert (H3 : strip [97; 10] <> []) by (vm_compute; discriminate).
  assert (H4 : TextIO.to_disk TextIO.Posix (strip [97; 10]) = Some "a"%string)
    by (vm_compute; reflexivity).
  split; [exact H1|]. split; [exact H2|]. split; [exact H3|]. split; [exact H4|].
  exact (save_entry_creates_day_folder TextIO.Posix 0 ∅ "20250101.001" [97; 10]
           false Sample.morning true "a" H1 H2 H3 H4).
Defined.



(** X6. Whitespace before and after the text makes no difference to
    [save_entry]: the same dialogs, the same file, the same content. *)
Theorem save_entry_ignores_outer_whitespace os fuel t dir a text b answer now cb :
  forallb isspace a = true -> forallb isspace b = true ->
  save_entry os fuel t dir (a ++ text ++ b) answer now cb
  = save_entry os fuel t dir text answer now cb.
Proof.
  intros Ha Hb. unfold save_entry. now rewrite (strip_padded a text b Ha Hb).
Qed.

Lemma save_entry_ignores_outer_whitespace_witness :
  forallb isspace [32; 9] = true /\ forallb isspace [10] = true
  /\ save_entry TextIO.Posix 1 Sample.two_sessions "20250101.002"
       ([32; 9] ++ [97; 32; 98] ++ [10]) false Sample.afternoon false
     = save_entry TextIO.Posix 1 Sample.two_sessions "20250101.002"
         [97; 32; 98] false Sample.afternoon false.
Proof.
  assert (H1 : forallb isspace [32; 9] = true) by reflexivity.
  assert (H2 : forallb isspace [10] = true) by reflexivity.
  split; [exact H1|]. split; [exact H2|].
  exact (save_entry_ignores_outer_whitespace TextIO.Posix 1 Sample.two_sessions
           "20250101.002" [32; 9] [97; 32; 98] [10] false Sample.afternoon false
           H1 H2).
Defined.
End SaveOutcomes.

(** * The last entry *)

Section NameOrder.
Import DateTime Aux.
Open Scope Z_scope.

Lemma compare_app_length (p q a b : string) :
  String.length p = String.length q ->
  String.compare (p +:+ a) (q +:+ b)
  = match String.compare p q with
    | Eq => String.compare a b
    | c => c
    end.
Proof.
  revert q. induction p as [|c p IH]; intros [|d q] Hl; try discriminate Hl.
  - reflexivity.
  - injection Hl as Hl.
    change (String.compare (String c (p +:+ a)) (String d (q +:+ b))
            = match String.compare (String c p) (String d q) with
              | Eq => String.compare a b
              | c => c
              end).
    cbn [String.compare]. destruct (Ascii.compare c d); [now apply IH|done..].
Qed.

Lemma compare_pad2_mod x y :
  String.compare (pad2 x) (pad2 y) = (x mod 100 ?= y mod 100).
Proof.
  unfold pad2. cbn [String.compare]. rewrite !ascii_compare_digit.
  destruct (Z.compare_spec ((x / 10) mod 10) ((y / 10) mod 10)) as [E1|L1|G1].
  - destruct (Z.compare_spec (x mod 10) (y mod 10)) as [E0|L0|G0]; symmetry.
    + apply Z.compare_eq_iff. Z.div_mod_to_equations. lia.
    + apply Z.compare_lt_iff. Z.div_mod_to_equations. lia.
    + apply Z.compare_gt_iff. Z.div_mod_to_equations. lia.
  - symmetry. apply Z.compare_lt_iff. Z.div_mod_to_equations. lia.
  - symmetry. apply Z.compare_gt_iff. Z.div_mod_to_equations. lia.
Qed.

Lemma compare_pad2 x y :
  0 <= x < 100 -> 0 <= y < 100 -> String.compare (pad2 x) (pad2 y) = (x ?= y).
Proof. intros Hx Hy. now rewrite compare_pad2_mod, !Z.mod_small. Qed.

Lemma compare_pad4 x y :
  0 <= x < 10000 -> 0 <= y < 10000 -> String.compare (pad4 x) (pad4 y) = (x ?= y).
Proof.
  intros Hx Hy. unfold pad4.
  change (String (digit (x / 1000)) (String (digit (x / 100)) (pad2 x)))
    with (String (digit (x / 1000)) (String (digit (x / 100)) EmptyString) +:+ pad2 x).
  change (String (digit (y / 1000)) (String (digit (y / 100)) (pad2 y)))
    with (String (digit (y / 1000)) (String (digit (y / 100)) EmptyString) +:+ pad2 y).
  rewrite compare_app_length by reflexivity.
  assert (E : forall z, String (digit (z / 1000)) (String (digit (z / 100)) EmptyString)
                        = pad2 (z / 100)).
  { intros z. unfold pad2. now rewrite Z.div_div by lia. }
  rewrite !E, !compare_pad2_mod.
  rewrite (Z.mod_small (x / 100)), (Z.mod_small (y / 100))
    by (Z.div_mod_to_equations; lia).
  destruct (Z.compare_spec (x / 100) (y / 100)) as [E1|L1|G1].
  - destruct (Z.compare_spec (x mod 100) (y mod 100)) as [E0|L0|G0]; symmetry.
    + apply Z.compare_eq_iff. Z.div_mod_to_equations. lia.
    + apply Z.compare_lt_iff. Z.div_mod_to_equations. lia.
    + apply Z.compare_gt_iff. Z.div_mod_to_equations. lia.
  - symmetry. apply Z.compare_lt_iff. Z.div_mod_to_equations. lia.
  - symmetry. apply Z.compare_gt_iff. Z.div_mod_to_equations. lia.
Qed.

Lemma compare_refl_string (s : string) : String.compare s s = Eq.
Proof.
  induction s as [|c s IH]; [reflexivity|]. cbn [String.compare].
  unfold Ascii.compare. now rewrite N.compare_refl.
Qed.

(** The names of two entries compare as their minutes do. *)
Lemma compare_entry_name a b :
  valid a = true -> valid b = true ->
  String.compare (entry_name a) (entry_name b) = cmp (floor_minute a) (floor_minute b).
Proof.
  intros (Hya & Hma & Hda & Hha & Hmia & _)%valid_spec
         (Hyb & Hmb & Hdb & Hhb & Hmib & _)%valid_spec.
  pose proof (days_in_month_le (year a) (month a)).
  pose proof (days_in_month_le (year b) (month b)).
  unfold entry_name, strftime_YmdHM, strftime_Ymd.
  rewrite !string_app_assoc.
  rewrite compare_app_length, compare_pad4 by (reflexivity || lia).
  rewrite compare_app_length, compare_pad2 by (reflexivity || lia).
  rewrite compare_app_length, compare_pad2 by (reflexivity || lia).
  rewrite compare_app_length, compare_pad2 by (reflexivity || lia).
  rewrite compare_app_length, compare_pad2 by (reflexivity || lia).
  rewrite compare_refl_string.
  unfold cmp, floor_minute. simpl.
  destruct (year a ?= year b); [|done..].
  destruct (month a ?= month b); [|done..].
  destruct (day a ?= day b); [|done..].
  destruct (hour a ?= hour b); [|done..].
  destruct (minute a ?= minute b); done.
Qed.
End NameOrder.

Section LastEntryExtras.
Import DateTime PyStr FS HourlyWorklogWindow Aux.
Open Scope Z_scope.

(** X7. For the years 1000..9999 entry names sort as time does: the
    name [save_entry] derives from one time is lexicographically at most
    the name it derives from another exactly when the first time's
    minute is not later than the second's.  So in a day folder whose
    entries carry such names the last name of the sorted list is the
    entry of the latest minute, and that is the entry [get_last_entry]
    reads. *)
Theorem get_last_entry_reads_latest_minute t dir latest :
  valid latest = true -> 1000 <= year latest ->
  is_Some (entries_of t dir !! entry_name latest) ->
  (forall g, is_Some (entries_of t dir !! g) -> endswith g SUFFIX = true ->
     exists d, valid d = true /\ 1000 <= year d /\ g = entry_name d
               /\ ge (floor_minute latest) (floor_minute d) = true) ->
  get_last_entry t dir
  = Ret (match read_text t dir (entry_name latest) with
         | Ret s => Some s
         | Raise _ => None
         end)
  /\ forall a b, valid a = true -> valid b = true ->
       1000 <= year a -> 1000 <= year b ->
       (String.le (entry_name a) (entry_name b)
        <-> ge (floor_minute b) (floor_minute a) = true).
Proof.
  intros Hv Hy Hin Hall.
  assert (Hord : forall a b, valid a = true -> valid b = true ->
            (String.le (entry_name a) (entry_name b)
             <-> ge (floor_minute b) (floor_minute a) = true)).
  { intros a b Ha Hb. unfold String.le, String.leb, ge.
    rewrite (compare_entry_name a b Ha Hb),
      (cmp_antisym (floor_minute a) (floor_minute b)).
    destruct (cmp (floor_minute a) (floor_minute b)); simpl; split; try done. }
  split; [|intros a b Ha Hb _ _; now apply Hord].
  apply get_last_entry_latest. split; [done|]. split; [apply endswith_app|].
  intros g Hg Hs. destruct (Hall g Hg Hs) as (d & Hd & _ & -> & Hge).
  now apply Hord.
Qed.

Lemma get_last_entry_reads_latest_minute_witness :
  valid Sample.afternoon = true /\ 1000 <= year Sample.afternoon
  /\ is_Some (entries_of Sample.two_sessions "20250101.002"
                !! entry_name Sample.afternoon)
  /\ get_last_entry Sample.two_sessions "20250101.002"
     = Ret (match read_text Sample.two_sessions "20250101.002"
                    (entry_name Sample.afternoon) with
            | Ret s => Some s
            | Raise _ => None
            end).
Proof.
  assert (H1 : valid Sample.afternoon = true) by (vm_compute; reflexivity).
  assert (H2 : 1000 <= year Sample.afternoon) by (vm_compute; discriminate).
  assert (E : entries_of Sample.two_sessions "20250101.002"
              = {[ "202501011200.hourlies"%string := Regular "abc" true;
                   "202501011300.hourlies"%string := Regular "xyz" true ]})
    by (vm_compute; reflexivity).
  assert (H3 : is_Some (entries_of Sample.two_sessions "20250101.002"
                          !! entry_name Sample.afternoon))
    by (eexists; vm_compute; reflexivity).
  assert (H4 : forall g,
             is_Some (entries_of Sample.two_sessions "20250101.002" !! g) ->
             endswith g SUFFIX = true ->
             exists d, valid d = true /\ 1000 <= year d /\ g = entry_name d
                       /\ ge (floor_minute Sample.afternoon) (floor_minute d) = true).
  { intros g Hx _. rewrite E in Hx.
    destruct (decide (g = "202501011200.hourlies"%string)) as [->|G1].
    { exists (mkdt 2025 1 1 12 0 0 0).
      repeat split; try (vm_compute; reflexivity). vm_compute. discriminate. }
    destruct (decide (g = "202501011300.hourlies"%string)) as [->|G2].
    { exists Sample.afternoon.
      repeat split; try (vm_compute; reflexivity). vm_compute. discriminate. }
    rewrite lookup_insert_ne, lookup_singleton_ne in Hx by done.
    destruct Hx as [? Hx]. discriminate Hx. }
  split; [exact H1|]. split; [exact H2|]. split; [exact H3|].
  exact (proj1 (get_last_entry_reads_latest_minute Sample.two_sessions
                  "20250101.002" Sample.afternoon H1 H2 H3 H4)).
Defined.

Lemma two_sessions_latest :
  latest_entry Sample.two_sessions "20250101.002" "202501011300.hourlies".
Proof.
  split; [vm_compute; eauto|]. split; [vm_compute; reflexivity|].
  intros g [x Hx] _.
  assert (E : entries_of Sample.two_sessions "20250101.002"
              = {[ "202501011200.hourlies"%string := Regular "abc" true;
                   "202501011300.hourlies"%string := Regular "xyz" true ]})
    by (vm_compute; reflexivity).
  rewrite E in Hx.
  destruct (decide (g = "202501011200.hourlies"%string)) as [->|H1];
    [vm_compute; exact I|].
  destruct (decide (g = "202501011300.hourlies"%string)) as [->|H2];
    [vm_compute; exact I|].
  rewrite lookup_insert_ne, lookup_singleton_ne in Hx by done. discriminate Hx.
Qed.

(** X8. What "Same as last hour" does.  With no day folder, or none of
    its entries ending in the suffix, the box "No Previous Entry" is
    shown.  Otherwise the lexicographically last entry is read: its text
    is put into the text field when it can be read and is not empty, and
    the box is shown when the read fails or the text is empty; a failed
    read never raises.  The listing is not guarded: a day folder path
    that is a regular file, or a directory that refuses access, makes
    [same_as_last_hour] raise what [os.listdir] raises. *)
Theorem same_as_last_hour_cases t dir :
  (t !! dir = None -> same_as_last_hour t dir = Ret [ShowInfo_NoPreviousEntry])
  /\ (forall fd, t !! dir = Some (NFolder fd) ->
        (forall f, is_Some (entries fd !! f) -> endswith f SUFFIX = false) ->
        same_as_last_hour t dir = Ret [ShowInfo_NoPreviousEntry])
  /\ (forall f, latest_entry t dir f ->
        same_as_last_hour t dir
        = Ret (match read_text t dir f with
               | Ret (c :: s) => [SetText (c :: s)]
               | _ => [ShowInfo_NoPreviousEntry]
               end))
  /\ (t !! dir = Some NFile -> same_as_last_hour t dir = Raise NotADirectoryError)
  /\ (t !! dir = Some NNoAccess -> same_as_last_hour t dir = Raise PermissionError).
Proof.
  split; [|split; [|split; [|split]]].
  - intros E. unfold same_as_last_hour. now rewrite (get_last_entry_absent t dir E).
  - intros fd E Hno. unfold same_as_last_hour.
    now rewrite (get_last_entry_none t dir fd E Hno).
  - intros f Hf. unfold same_as_last_hour.
    rewrite (get_last_entry_latest t dir f Hf).
    now destruct (read_text t dir f) as [[|c s]|e].
  - intros E. unfold same_as_last_hour, get_last_entry, path_exists, listdir.
    now rewrite E.
  - intros E. unfold same_as_last_hour, get_last_entry, path_exists, listdir.
    now rewrite E.
Qed.

Lemma same_as_last_hour_cases_witness :
  latest_entry Sample.two_sessions "20250101.002" "202501011300.hourlies"
  /\ same_as_last_hour Sample.two_sessions "20250101.002"
     = Ret (match read_text Sample.two_sessions "20250101.002"
                    "202501011300.hourlies" with
            | Ret (c :: s) => [SetText (c :: s)]
            | _ => [ShowInfo_NoPreviousEntry]
            end)
  /\ same_as_last_hour Sample.locked_day "20250101.001" = Raise PermissionError.
Proof.
  pose proof two_sessions_latest as H1.
  split; [exact H1|]. split.
  - exact (proj1 (proj2 (proj2 (same_as_last_hour_cases Sample.two_sessions
                                  "20250101.002")))
             "202501011300.hourlies"%string H1).
  - exact (proj2 (proj2 (proj2 (proj2 (same_as_last_hour_cases Sample.locked_day
                                         "20250101.001"))))
             eq_refl).
Defined.

(** X9. After a save, "Same as last hour" brings the saved text back:
    when the name the entry was saved under is not below the name of any
    entry the folder already had, and the text has no carriage return,
    [get_last_entry] returns the saved text and [same_as_last_hour] puts
    it into the text field. *)
Theorem same_as_last_hour_after_save os fuel t dir text answer now cb f c :
  valid now = true ->
  outcome_of (save_entry os fuel t dir text answer now cb) = Saved f c ->
  Forall (fun ch => ch <> 13) c ->
  (forall g, is_Some (entries_of t dir !! g) -> endswith g SUFFIX = true ->
     String.le g f) ->
  let t' := fs_after (save_entry os fuel t dir text answer now cb) in
  get_last_entry t' dir = Ret (Some c)
  /\ same_as_last_hour t' dir = Ret [SetText c].
Proof.
  intros Hv Hs Hcr Hmax. cbv zeta.
  destruct (save_entry_spec os fuel t dir text answer now cb Hv)
    as (_ & _ & Hff & _ & H).
  destruct (H f c Hs) as (Hne & _ & data & Hd & Hent).
  destruct (Hff f) as (k & _ & Hk & _); [unfold opened_name; now rewrite Hs|].
  set (t' := fs_after _) in *.
  assert (Hlatest : latest_entry t' dir f).
  { split; [|split].
    - rewrite Hent, lookup_insert_eq. eauto.
    - rewrite Hk. apply endswith_app.
    - intros g. rewrite Hent. destruct (decide (g = f)) as [->|Hgf]; [done|].
      rewrite lookup_insert_ne by done. apply Hmax. }
  assert (Hl : get_last_entry t' dir = Ret (Some c)).
  { rewrite (get_last_entry_latest t' dir f Hlatest).
    rewrite (read_text_entries _ _ _ data) by (now rewrite Hent, lookup_insert_eq).
    now rewrite (from_disk_to_disk os c data Hcr Hd). }
  split; [exact Hl|]. unfold same_as_last_hour. rewrite Hl. simpl.
  destruct c; done.
Qed.

Lemma same_as_last_hour_after_save_witness :
  valid Sample.afternoon = true
  /\ outcome_of (save_entry TextIO.Posix 1 Sample.two_sessions "20250101.002"
                   [32; 97; 10] false Sample.afternoon false)
     = Saved "202501011301.hourlies" [97]
  /\ Forall (fun ch => ch <> 13) [97]
  /\ same_as_last_hour
       (fs_after (save_entry TextIO.Posix 1 Sample.two_sessions "20250101.002"
                    [32; 97; 10] false Sample.afternoon false))
       "20250101.002"
     = Ret [SetText [97]].
Proof.
  assert (H1 : valid Sample.afternoon = true) by (vm_compute; reflexivity).
  assert (H2 : outcome_of (save_entry TextIO.Posix 1 Sample.two_sessions
                             "20250101.002" [32; 97; 10] false Sample.afternoon false)
               = Saved "202501011301.hourlies" [97]) by (vm_compute; reflexivity).
  assert (H3 : Forall (fun ch => ch <> 13) [97]) by (repeat constructor; discriminate).
  assert (H4 : forall g, is_Some (entries_of Sample.two_sessions "20250101.002" !! g) ->
                 endswith g SUFFIX = true -> String.le g "202501011301.hourlies").
  { intros g Hx _.
    assert (E : entries_of Sample.two_sessions "20250101.002"
                = {[ "202501011200.hourlies"%string := Regular "abc" true;
                     "202501011300.hourlies"%string := Regular "xyz" true ]})
      by (vm_compute; reflexivity).
    rewrite E in Hx.
    destruct (decide (g = "202501011200.hourlies"%string)) as [->|G1];
      [vm_compute; exact I|].
    destruct (decide (g = "202501011300.hourlies"%string)) as [->|G2];
      [vm_compute; exact I|].
    rewrite lookup_insert_ne, lookup_singleton_ne in Hx by done.
    destruct Hx as [? Hx]. discriminate Hx. }
  split; [exact H1|]. split; [exact H2|]. split; [exact H3|].
  exact (proj2 (same_as_last_hour_after_save TextIO.Posix 1 Sample.two_sessions
                  "20250101.002" [32; 97; 10] false Sample.afternoon false
                  "202501011301.hourlies" [97] H1 H2 H3 H4)).
Defined.
End LastEntryExtras.

(** * Configuration: what is loaded, and where from *)

Section ConfigExtras.
Import Config.
Variable json_load : string -> option json.
Variable json_dump : json -> string.
Variable user_data_path : string.

(** On a value that is not a dictionary the merge loop succeeds only
    when every key is found in it, and then changes nothing. *)
Lemma merge_defaults_other items config :
  (forall m, config <> JObj m) ->
  match merge_defaults items config with
  | Ret c => c = config /\ forallb (has_key config) items.*1 = true
  | Raise _ => forallb (has_key config) items.*1 = false
  end.
Proof.
  intros Hno. induction items as [|[key value] rest IH]; [done|].
  cbn [merge_defaults fmap list_fmap forallb fst]. unfold has_key at 1 3.
  destruct (contains config key) as [[|]|e]; cbn [bind negb andb]; [exact IH|..].
  - destruct config; try done. now destruct (Hno m).
  - done.
Qed.

Lemma lookup_defaults (items : list (string * json)) key :
  key ∈ items.*1 -> is_Some ((list_to_map items : gmap string json) !! key).
Proof.
  intros Hin. destruct (list_to_map items !! key) eqn:E; [eauto|].
  now apply not_elem_of_list_to_map in E.
Qed.

(** Whatever the merge loop returns has every key. *)
Lemma merge_defaults_keys items config c key :
  merge_defaults items config = Ret c -> key ∈ items.*1 -> has_key c key = true.
Proof.
  intros Hm Hin.
  assert (Hobj : (exists m, config = JObj m) \/ (forall m, config <> JObj m)).
  { destruct config; try (right; discriminate). left. eauto. }
  destruct Hobj as [[m ->]|Hno].
  - rewrite merge_defaults_obj in Hm. injection Hm as <-.
    unfold has_key, contains. destruct (lookup_defaults items key Hin) as [v Hv].
    rewrite lookup_merged, Hv. now destruct (m !! key).
  - pose proof (merge_defaults_other items config Hno) as H. rewrite Hm in H.
    destruct H as [-> Hall]. rewrite forallb_forall in Hall.
    apply Hall. now apply list_elem_of_In.
Qed.

Lemma default_copy_keys key :
  key ∈ (default_config user_data_path).*1 ->
  has_key (default_copy user_data_path) key = true.
Proof.
  intros Hin. unfold has_key, default_copy, contains.
  now destruct (lookup_defaults _ key Hin) as [v ->].
Qed.

(** X10. Every key of the default configuration is in what
    [load_config] returns, whichever way it returns: the merged file,
    the defaults after a failure, or the defaults of a first run.  When
    the result is a dictionary, [get] on such a key gives its value and
    never the fallback. *)
Theorem load_config_has_default_keys dir_ok f f' cfg key :
  load_config json_load json_dump user_data_path dir_ok f = Ret (f', cfg) ->
  key ∈ (default_config user_data_path).*1 ->
  contains cfg key = Ret true
  /\ forall m fallback, cfg = JObj m ->
       exists v, m !! key = Some v /\ get cfg key fallback = Ret v.
Proof.
  intros Hl Hin.
  assert (Hk : has_key cfg key = true).
  { unfold load_config in Hl. destruct f as [|readable text].
    - unfold save_config in Hl. destruct dir_ok; [|discriminate].
      injection Hl as _ <-. now apply default_copy_keys.
    - unfold try_except in Hl.
      destruct (bind _ _) as [[f0 c0]|e] eqn:E.
      + injection Hl as _ <-.
        destruct readable; [|discriminate]. cbn [bind] in E.
        destruct (json_load text) as [v|]; [|discriminate]. cbn [bind] in E.
        destruct (merge_defaults _ v) as [c|] eqn:Hm; [|discriminate].
        cbn [bind] in E. injection E as _ <-.
        exact (merge_defaults_keys _ _ _ _ Hm Hin).
      + injection Hl as _ <-. now apply default_copy_keys. }
  unfold has_key in Hk.
  split; [destruct (contains cfg key) as [[|]|]; done|].
  intros m fallback ->. simpl in *.
  destruct (m !! key) as [v|]; [eauto|discriminate].
Qed.

(** X11. A readable file whose JSON value is not an object: the
    membership tests and the item assignment of the merge loop decide.
    The defaults are returned unless every default key is "in" the
    value (a list that has the four names, a string that contains
    them), in which case the value itself is returned as the
    configuration. *)
Theorem load_config_not_an_object dir_ok text v :
  json_load text = Some v -> (forall m, v <> JObj m) ->
  load_config json_load json_dump user_data_path dir_ok (Present true text)
  = Ret (Present true text,
         if forallb (has_key v) (default_config user_data_path).*1 then v
         else default_copy user_data_path).
Proof.
  intros Hv Hno. unfold load_config. cbn [bind]. rewrite Hv. cbn [bind].
  pose proof (merge_defaults_other (default_config user_data_path) v Hno) as H.
  destruct (merge_defaults _ v) as [c|e]; cbn [bind try_except].
  - destruct H as [-> ->]. reflexivity.
  - now rewrite H.
Qed.

(** X12. The first run and the second: with no file, [load_config]
    writes the defaults and returns them, unless the directory cannot
    be written, in which case [PermissionError] leaves it; and when
    [json.load] reads back what [json.dump] wrote, loading the file
    just written returns the defaults again and leaves the file
    alone. *)
Theorem load_config_first_run dir_ok :
  json_load (json_dump (default_copy user_data_path))
  = Some (default_copy user_data_path) ->
  let written := Present true (json_dump (default_copy user_data_path)) in
  load_config json_load json_dump user_data_path true Absent
  = Ret (written, default_copy user_data_path)
  /\ load_config json_load json_dump user_data_path dir_ok written
     = Ret (written, default_copy user_data_path)
  /\ load_config json_load json_dump user_data_path false Absent
     = Raise PermissionError.
Proof.
  intros Hrt. cbv zeta. split; [reflexivity|]. split; [|reflexivity].
  rewrite (load_config_obj json_load json_dump user_data_path dir_ok _ _ Hrt).
  assert (E : forall m : gmap string json, m ∪ m = m).
  { intros m. apply map_eq. intros k. rewrite lookup_merged. now destruct (m !! k). }
  now rewrite E.
Qed.
End ConfigExtras.

Section ConfigWitnesses.
Import Config.

Lemma load_config_has_default_keys_witness :
  load_config Sample.toy_load Sample.toy_dump "/home/u" true (Present true "{}")
  = Ret (Present true "{}", default_copy "/home/u")
  /\ "popup_at_minute"%string ∈ (default_config "/home/u").*1
  /\ contains (default_copy "/home/u") "popup_at_minute" = Ret true.
Proof.
  assert (H1 : load_config Sample.toy_load Sample.toy_dump "/home/u" true
                 (Present true "{}")
               = Ret (Present true "{}", default_copy "/home/u"))
    by (vm_compute; reflexivity).
  assert (H2 : "popup_at_minute"%string ∈ (default_config "/home/u").*1)
    by (right; left).
  split; [exact H1|]. split; [exact H2|].
  exact (proj1 (load_config_has_default_keys Sample.toy_load Sample.toy_dump
                  "/home/u" true _ _ _ _ H1 H2)).
Defined.

Lemma load_config_not_an_object_witness :
  (fun _ : string => Some (JInt 7)) "7"%string = Some (JInt 7)
  /\ (forall m, JInt 7 <> JObj m)
  /\ load_config (fun _ => Some (JInt 7)) Sample.toy_dump "/home/u" true
       (Present true "7")
     = Ret (Present true "7",
            if forallb (has_key (JInt 7)) (default_config "/home/u").*1
            then JInt 7 else default_copy "/home/u").
Proof.
  assert (H1 : (fun _ : string => Some (JInt 7)) "7"%string = Some (JInt 7))
    by reflexivity.
  assert (H2 : forall m, JInt 7 <> JObj m) by discriminate.
  split; [exact H1|]. split; [exact H2|].
  exact (load_config_not_an_object (fun _ => Some (JInt 7)) Sample.toy_dump
           "/home/u" true "7" (JInt 7) H1 H2).
Defined.

Lemma load_config_first_run_witness :
  Sample.defaults_load (Sample.defaults_dump (default_copy "/home/u"))
  = Some (default_copy "/home/u")
  /\ load_config Sample.defaults_load Sample.defaults_dump "/home/u" false
       (Present true (Sample.defaults_dump (default_copy "/home/u")))
     = Ret (Present true (Sample.defaults_dump (default_copy "/home/u")),
            default_copy "/home/u").
Proof.
  assert (H1 : Sample.defaults_load (Sample.defaults_dump (default_copy "/home/u"))
               = Some (default_copy "/home/u")) by reflexivity.
  split; [exact H1|].
  exact (proj1 (proj2 (load_config_first_run Sample.defaults_load
                         Sample.defaults_dump "/home/u" false H1))).
Defined.
End ConfigWitnesses.

Section ConfigDirectory.
Import Config.

Lemma posix_join_nonempty a b : b <> EmptyString -> posix_join a b <> EmptyString.
Proof.
  intros Hb. unfold posix_join. destruct a as [|c a].
  - simpl. exact Hb.
  - destruct (_ || _); discriminate.
Qed.

Lemma truthy_opt_Some v : truthy_opt v = true -> v <> None /\ v <> Some EmptyString.
Proof. destruct v as [[|c s]|]; simpl; intros H; try discriminate H; done. Qed.

(** X13. [get_default_config_directory] never returns the empty string,
    and it returns [None] only on Windows when neither [LOCALAPPDATA]
    nor [APPDATA] is set to something non-empty; there [LOCALAPPDATA]
    is preferred, and elsewhere [XDG_CONFIG_HOME] is preferred to the
    [.config] directory of the home directory. *)
Theorem get_default_config_directory_spec os_name getenv home :
  let r := get_default_config_directory os_name getenv home in
  r <> Some EmptyString
  /\ (r = None <-> os_name = "nt"%string
                   /\ truthy_opt (getenv "LOCALAPPDATA"%string) = false
                   /\ truthy_opt (getenv "APPDATA"%string) = false)
  /\ (forall v, r = Some v ->
        (os_name = "nt"%string ->
           getenv "LOCALAPPDATA"%string = Some v
           \/ (truthy_opt (getenv "LOCALAPPDATA"%string) = false
               /\ getenv "APPDATA"%string = Some v))
        /\ (os_name <> "nt"%string ->
              getenv "XDG_CONFIG_HOME"%string = Some v
              \/ (truthy_opt (getenv "XDG_CONFIG_HOME"%string) = false
                  /\ v = posix_join home ".config"))).
Proof.
  cbv zeta. unfold get_default_config_directory.
  destruct (String.eqb_spec os_name "nt") as [->|Hos].
  - destruct (truthy_opt (getenv "LOCALAPPDATA"%string)) eqn:E1.
    + apply truthy_opt_Some in E1 as [H1 H2].
      split; [done|]. split; [split; [done|now intros (_ & ? & _)]|].
      intros v Hv. split; [now left|done].
    + destruct (truthy_opt (getenv "APPDATA"%string)) eqn:E2.
      * apply truthy_opt_Some in E2 as [H1 H2].
        split; [done|]. split; [split; [done|now intros (_ & _ & ?)]|].
        intros v Hv. split; [now right|done].
      * split; [done|]. split; [done|]. intros v Hv. discriminate Hv.
  - destruct (truthy_opt (getenv "XDG_CONFIG_HOME"%string)) eqn:E1.
    + apply truthy_opt_Some in E1 as [H1 H2].
      split; [done|]. split; [split; [done|now intros (? & _)]|].
      intros v Hv. split; [done|now left].
    + split; [|split; [split; [discriminate|now intros (? & _)]|]].
      * intros [= H]. now apply posix_join_nonempty in H.
      * intros v [= <-]. split; [done|]. intros _. now right.
Qed.

Lemma get_default_config_directory_spec_witness :
  get_default_config_directory "nt" Sample.roaming_only "/home/u"
  <> Some EmptyString
  /\ get_default_config_directory "nt" Sample.roaming_only "/home/u"
     = Some "C:\Users\u\AppData\Roaming"%string.
Proof.
  split.
  - exact (proj1 (get_default_config_directory_spec "nt" Sample.roaming_only
                    "/home/u")).
  - reflexivity.
Defined.
End ConfigDirectory.

(** * The application: day folders, timer threads and the end of the day *)

Section AppExtras.
Import DateTime PyStr FS HourlyWorklogWindow HourliesApp Aux.
Open Scope Z_scope.

(** X14. Whenever [start_new_day] returns, it has not removed or changed
    anything in the worklog folder: all that was there is still there,
    at most one name is new, and the folder adopted is a directory
    whose name starts with today's date.  The timer runs afterwards, and
    no popup has been asked for. *)
Theorem start_new_day_keeps_worklog fuel t a now t1 a1 :
  start_new_day fuel t a now = Some (Ret (t1, a1)) ->
  t ⊆ t1
  /\ (size t1 <= S (size t))%nat
  /\ exists f, a1 = adopted a f
       /\ folder_of_day t1 (strftime_Ymd now) f
       /\ timer_active a1 = true
       /\ popups a1 = popups a.
Proof.
  set (today := strftime_Ymd now).
  assert (Happ : forall f, timer_active (adopted a f) = true
                           /\ popups (adopted a f) = popups a).
  { intros f. unfold adopted. cbv zeta. simpl. split; [apply start_timer_active|].
    unfold start_timer. now destruct (timer_active a). }
  unfold start_new_day. fold today.
  pose proof (next_folder_spec t today fuel 1) as Hs.
  destruct (next_folder fuel t today 1) as [cand|]; [|discriminate].
  destruct Hs as (k & Hk & -> & Hfree & _).
  destruct (List.filter (fun f => startswith f today && isdir t f) (listdir_root t))
    as [|g l] eqn:Hex.
  - unfold makedirs. rewrite Hfree. cbn [bind fst snd]. intros [= <- <-].
    split; [now apply insert_subseteq|].
    split; [rewrite map_size_insert_None by done; lia|].
    exists (numbered today k). split; [reflexivity|].
    split; [|apply Happ]. split; [apply numbered_startswith|].
    unfold isdir. now rewrite lookup_insert_eq.
  - cbn [bind fst snd]. intros [= <- <-].
    split; [done|]. split; [lia|].
    assert (Hne : g :: l <> []) by done.
    destruct (sorted_last_greatest (g :: l) EmptyString Hne) as [Hlast _].
    fold (sorted_last (g :: l)) in Hlast.
    exists (sorted_last (g :: l)). split; [reflexivity|].
    split; [|apply Happ]. apply existing_folders_spec. fold today. now rewrite Hex.
Qed.

Lemma start_new_day_keeps_worklog_witness :
  start_new_day 1 Sample.file_in_the_way init Sample.morning
  = Some (Ret (<["20250101.002"%string := NFolder (mkfolder ∅ true)]>
                 Sample.file_in_the_way,
               adopted init "20250101.002"))
  /\ Sample.file_in_the_way
     ⊆ <["20250101.002"%string := NFolder (mkfolder ∅ true)]> Sample.file_in_the_way.
Proof.
  assert (H1 : start_new_day 1 Sample.file_in_the_way init Sample.morning
               = Some (Ret (<["20250101.002"%string := NFolder (mkfolder ∅ true)]>
                              Sample.file_in_the_way,
                            adopted init "20250101.002")))
    by (vm_compute; reflexivity).
  split; [exact H1|].
  exact (proj1 (start_new_day_keeps_worklog 1 Sample.file_in_the_way init
                  Sample.morning _ _ H1)).
Defined.

(** X15. However often [start_timer] is called, and whatever the timer
    threads do in between, it starts at most one thread as long as the
    timer is not stopped: none when the timer is active already. *)
Theorem start_timer_starts_one_thread m acts : forall a,
  Forall (fun act => stops act = false) acts ->
  List.length (timer_threads (run m a acts))
  = (List.length (timer_threads a)
     + if timer_active a then 0
       else if existsb (fun act => match act with StartTimer => true | _ => false end)
                 acts
            then 1 else 0)%nat
  /\ (timer_active a = true -> timer_active (run m a acts) = true).
Proof.
  induction acts as [|act acts IH]; intros a Hall.
  - simpl. split; [destruct (timer_active a); lia|done].
  - apply Forall_cons in Hall as [Hact Hall].
    destruct (IH (step m a act) Hall) as [Hlen Hon].
    change (run m a (act :: acts)) with (run m (step m a act) acts).
    rewrite Hlen, step_threads_length. split.
    + destruct (timer_active a) eqn:Ha.
      * rewrite (step_active m a act Hact Ha). destruct act; lia.
      * destruct act as [i now| | |]; try discriminate Hact.
        -- cbn [existsb orb]. simpl timer_active.
           destruct (timer_threads a !! i); simpl; rewrite Ha; lia.
        -- cbn [existsb orb step]. rewrite start_timer_active. lia.
    + intros Ha. apply Hon. now apply step_active.
Qed.

Lemma start_timer_starts_one_thread_witness :
  Forall (fun act => stops act = false)
    [StartTimer; Worker 0 Sample.morning; StartTimer; StartTimer]
  /\ List.length (timer_threads
                    (run 0 init [StartTimer; Worker 0 Sample.morning;
                                 StartTimer; StartTimer]))
     = 1%nat.
Proof.
  assert (H1 : Forall (fun act => stops act = false)
                 [StartTimer; Worker 0 Sample.morning; StartTimer; StartTimer])
    by (repeat constructor).
  split; [exact H1|].
  exact (proj1 (start_timer_starts_one_thread 0 _ init H1)).
Defined.

Lemma step_worker m a i now p :
  timer_threads a !! i = Some p ->
  step m a (Worker i now)
  = mkapp (day_folder a) (timer_active a)
      (<[i := (timer_loop_step m now (timer_active a) p).1]> (timer_threads a))
      (popups a + (timer_loop_step m now (timer_active a) p).2)
      (status_label a) (worklog_window a) (window_callback a) (quit a).
Proof. intros H. simpl. now rewrite H. Qed.

(** X16. Stopping the timer does not end a thread that is asleep: when
    [end_of_day] is followed by [start_timer] (which [start_new_day]
    calls) before the sleeping thread wakes, a second thread is started,
    and the first one, on waking, finds the flag set again, asks for its
    popup and goes on. *)
Theorem restart_keeps_sleeping_thread m a i next_hour wait now1 now2 :
  day_folder a <> None ->
  timer_threads a !! i = Some (Sleeping next_hour wait) ->
  let a' := run m a [EndOfDay; StartTimer; Worker i now1; Worker i now2] in
  timer_active a' = true
  /\ popups a' = S (popups a)
  /\ timer_threads a' = <[i := AtWhile]> (timer_threads a) ++ [AtWhile].
Proof.
  intros Hd Hi. cbv zeta.
  assert (Hlt : (i < List.length (timer_threads a))%nat) by now apply lookup_lt_Some in Hi.
  set (b := step m (step m a EndOfDay) StartTimer).
  assert (Hb : timer_active b = true /\ popups b = popups a
               /\ timer_threads b = timer_threads a ++ [AtWhile]).
  { unfold b. simpl. unfold end_of_day.
    destruct (day_folder a); [|done]. now destruct (worklog_window a). }
  destruct Hb as (Hon & Hpop & Hthr).
  assert (Hbi : timer_threads b !! i = Some (Sleeping next_hour wait)).
  { rewrite Hthr. now apply lookup_app_l_Some. }
  change (run m a [EndOfDay; StartTimer; Worker i now1; Worker i now2])
    with (step m (step m b (Worker i now1)) (Worker i now2)).
  rewrite (step_worker m b i now1 _ Hbi).
  set (c := mkapp _ _ _ _ _ _ _ _).
  assert (Hci : timer_threads c !! i = Some AfterSleep).
  { unfold c. simpl. apply list_lookup_insert_eq. rewrite Hthr, length_app. lia. }
  rewrite (step_worker m c i now2 _ Hci). unfold c. simpl. rewrite Hon. simpl.
  split; [done|]. split; [lia|].
  rewrite list_insert_insert_eq, Hthr. now rewrite insert_app_l.
Qed.

Lemma restart_keeps_sleeping_thread_witness :
  day_folder Sample.stopped <> None
  /\ timer_threads Sample.stopped !! 0%nat
     = Some (Sleeping (mkdt 2025 1 1 11 0 0 0) 3595000000)
  /\ popups (run 0 Sample.stopped
               [EndOfDay; StartTimer; Worker 0 Sample.morning; Worker 0 Sample.morning])
     = S (popups Sample.stopped).
Proof.
  assert (H1 : day_folder Sample.stopped <> None) by discriminate.
  assert (H2 : timer_threads Sample.stopped !! 0%nat
               = Some (Sleeping (mkdt 2025 1 1 11 0 0 0) 3595000000)) by reflexivity.
  split; [exact H1|]. split; [exact H2|].
  exact (proj1 (proj2 (restart_keeps_sleeping_thread 0 Sample.stopped 0 _ _
                         Sample.morning Sample.morning H1 H2))).
Defined.

(** X17. A trigger minute outside 0..59 silently disables the popups:
    the thread's [replace] raises [ValueError] on its first pass, the
    thread ends there, and whatever happens afterwards, restarts
    included, no popup is ever asked for. *)
Theorem invalid_minute_never_pops_up m acts : forall a,
  ~ (0 <= m <= 59) ->
  Forall (fun p => at_loop_head p = true) (timer_threads a) ->
  popups (run m a acts) = popups a
  /\ Forall (fun p => at_loop_head p = true) (timer_threads (run m a acts))
  /\ forall now, timer_loop_step m now true AtWhile = (Crashed ValueError, O).
Proof.
  intros a Hm Hall.
  assert (Hnt : forall now, next_trigger now m = Raise ValueError).
  { intros now. unfold next_trigger, replace_minute.
    destruct (Z.leb_spec 0 m), (Z.leb_spec m 59); try lia; reflexivity. }
  assert (Hstep : forall now active p, at_loop_head p = true ->
            at_loop_head (timer_loop_step m now active p).1 = true
            /\ (timer_loop_step m now active p).2 = O).
  { intros now active p Hp. destruct p; try discriminate Hp; simpl.
    - destruct active; [rewrite Hnt|]; done.
    - done.
    - done. }
  assert (Hone : forall b act,
            Forall (fun p => at_loop_head p = true) (timer_threads b) ->
            popups (step m b act) = popups b
            /\ Forall (fun p => at_loop_head p = true) (timer_threads (step m b act))).
  { intros b act Hb. destruct act as [i now| | |].
    - destruct (timer_threads b !! i) as [p|] eqn:Hi.
      + rewrite (step_worker m b i now p Hi). simpl.
        destruct (Hstep now (timer_active b) p) as [H1 H2].
        { rewrite Forall_forall in Hb. apply Hb.
          now apply list_elem_of_lookup_2 in Hi. }
        rewrite H2. split; [lia|]. apply Forall_insert; done.
      + simpl. rewrite Hi. done.
    - simpl. unfold start_timer. destruct (timer_active b); [done|]. simpl.
      split; [done|]. apply Forall_app. split; [done|]. repeat constructor.
    - done.
    - simpl. unfold end_of_day. destruct (day_folder b), (worklog_window b); done. }
  assert (Hrun : popups (run m a acts) = popups a
                 /\ Forall (fun p => at_loop_head p = true)
                      (timer_threads (run m a acts))).
  { revert a Hall. induction acts as [|act acts IH]; intros a Hall; [done|].
    change (run m a (act :: acts)) with (run m (step m a act) acts).
    destruct (Hone a act Hall) as [Hp Hf].
    destruct (IH _ Hf) as [Hp' Hf']. split; [congruence|done]. }
  destruct Hrun as [H1 H2]. split; [done|]. split; [done|].
  intros now. simpl. now rewrite Hnt.
Qed.

Lemma invalid_minute_never_pops_up_witness :
  ~ (0 <= 60 <= 59)
  /\ Forall (fun p => at_loop_head p = true) (timer_threads init)
  /\ popups (run 60 init [StartTimer; Worker 0 Sample.morning;
                          Worker 0 Sample.afternoon; StartTimer])
     = popups init.
Proof.
  assert (H1 : ~ (0 <= 60 <= 59)) by lia.
  assert (H2 : Forall (fun p => at_loop_head p = true) (timer_threads init))
    by constructor.
  split; [exact H1|]. split; [exact H2|].
  exact (proj1 (invalid_minute_never_pops_up 60 _ init H1 H2)).
Defined.

(** X18. While the timer stays active a timer thread asks for exactly
    one popup per pass through its loop: after any number of passes,
    with clock readings before the year 9999 and a trigger minute in
    0..59, the popups asked for are as many as the passes, the thread is
    back at the loop head, and it has not crashed. *)
Theorem timer_fires_once_per_pass m i nows : forall a,
  0 <= m <= 59 ->
  timer_active a = true ->
  timer_threads a !! i = Some AtWhile ->
  Forall (fun now => valid now = true /\ year now < 9999) nows ->
  let a' := run m a (flat_map (loop_pass i) nows) in
  popups a' = (popups a + List.length nows)%nat
  /\ timer_threads a' !! i = Some AtWhile
  /\ timer_active a' = true.
Proof.
  induction nows as [|now nows IH]; intros a Hm Hon Hi Hall; cbv zeta.
  - simpl. split; [lia|done].
  - apply Forall_cons in Hall as [[Hv Hy] Hall].
    destruct (next_trigger_Ret now m Hv Hm Hy) as (nh & w & Hnt).
    assert (Hlt : (i < List.length (timer_threads a))%nat)
      by now apply lookup_lt_Some in Hi.
    set (b := run m a (loop_pass i now)).
    assert (Hb : popups b = S (popups a) /\ timer_threads b !! i = Some AtWhile
                 /\ timer_active b = true).
    { unfold b, loop_pass, run. cbn [fold_left].
      rewrite (step_worker m a i now _ Hi). rewrite Hon.
      cbn [timer_loop_step]. rewrite Hnt. cbn [fst snd].
      set (c1 := mkapp _ _ _ _ _ _ _ _).
      assert (H1 : timer_threads c1 !! i = Some (Sleeping nh w))
        by (unfold c1; simpl; now apply list_lookup_insert_eq).
      rewrite (step_worker m c1 i now _ H1).
      set (c2 := mkapp _ _ _ _ _ _ _ _).
      assert (H2 : timer_threads c2 !! i = Some AfterSleep).
      { unfold c2, c1. simpl. apply list_lookup_insert_eq. now rewrite length_insert. }
      rewrite (step_worker m c2 i now _ H2). unfold c2, c1. simpl.
      split; [lia|]. split; [|done].
      apply list_lookup_insert_eq. now rewrite !length_insert. }
    destruct Hb as (Hp & Hbi & Hbon).
    change (flat_map (loop_pass i) (now :: nows))
      with (loop_pass i now ++ flat_map (loop_pass i) nows).
    unfold run. rewrite fold_left_app. fold (run m a (loop_pass i now)). fold b.
    fold (run m b (flat_map (loop_pass i) nows)).
    destruct (IH b Hm Hbon Hbi Hall) as (H1 & H2 & H3).
    split; [|done]. rewrite H1, Hp. simpl. lia.
Qed.

Lemma timer_fires_once_per_pass_witness :
  0 <= 0 <= 59
  /\ timer_active (start_timer init) = true
  /\ timer_threads (start_timer init) !! 0%nat = Some AtWhile
  /\ Forall (fun now => valid now = true /\ year now < 9999)
       [Sample.morning; Sample.afternoon]
  /\ popups (run 0 (start_timer init)
               (flat_map (loop_pass 0) [Sample.morning; Sample.afternoon]))
     = (popups (start_timer init) + 2)%nat.
Proof.
  assert (H1 : 0 <= 0 <= 59) by lia.
  assert (H2 : timer_active (start_timer init) = true) by reflexivity.
  assert (H3 : timer_threads (start_timer init) !! 0%nat = Some AtWhile) by reflexivity.
  assert (H4 : Forall (fun now => valid now = true /\ year now < 9999)
                 [Sample.morning; Sample.afternoon]).
  { repeat constructor; (vm_compute; reflexivity). }
  split; [exact H1|]. split; [exact H2|]. split; [exact H3|]. split; [exact H4|].
  exact (proj1 (timer_fires_once_per_pass 0 0 _ (start_timer init) H1 H2 H3 H4)).
Defined.

(** X19. After [end_of_day] the Save button ends the application
    exactly when the entry was written: a refusal, a missing previous
    entry or a failed write leave it running, with the timer stopped.
    Before [end_of_day], when the window has no callback, the Save
    button never changes the application state. *)
Theorem end_of_day_quits_after_save os fuel t a d w text answer now r a' :
  day_folder a = Some d -> worklog_window a = Some w -> quit a = false ->
  save_button os fuel t (end_of_day a) text answer now = Some (r, a') ->
  r = save_entry os fuel t w text answer now true
  /\ (quit a' = true <-> exists f c, outcome_of r = Saved f c)
  /\ timer_active a' = false
  /\ (window_callback a = false ->
      save_button os fuel t a text answer now
      = Some (save_entry os fuel t w text answer now false, a)).
Proof.
  intros Hd Hw Hq. unfold save_button at 1, end_of_day. rewrite Hd, Hw. simpl.
  rewrite callback_called_iff. intros [= <- <-].
  split; [done|]. split; [|split].
  - destruct (outcome_of _) eqn:Ho; simpl; rewrite ?Hq;
      (split; [try discriminate|]); try (now intros (? & ? & ?)); eauto.
  - now destruct (outcome_of _).
  - intros Hcb. unfold save_button. rewrite Hw, Hcb. simpl.
    rewrite callback_called_iff. now destruct (outcome_of _).
Qed.

Lemma end_of_day_quits_after_save_witness :
  day_folder Sample.logging = Some "20250101.002"%string
  /\ worklog_window Sample.logging = Some "20250101.002"%string
  /\ quit Sample.logging = false
  /\ exists r a',
       save_button TextIO.Posix 1 Sample.two_sessions (end_of_day Sample.logging)
         [97; 10] false Sample.afternoon = Some (r, a')
       /\ r = save_entry TextIO.Posix 1 Sample.two_sessions "20250101.002"
                [97; 10] false Sample.afternoon true
       /\ quit a' = true.
Proof.
  assert (H1 : day_folder Sample.logging = Some "20250101.002"%string) by reflexivity.
  assert (H2 : worklog_window Sample.logging = Some "20250101.002"%string)
    by reflexivity.
  assert (H3 : quit Sample.logging = false) by reflexivity.
  split; [exact H1|]. split; [exact H2|]. split; [exact H3|].
  eexists _, _. 
  assert (H4 : save_button TextIO.Posix 1 Sample.two_sessions
                 (end_of_day Sample.logging) [97; 10] false Sample.afternoon
               = Some (save_entry TextIO.Posix 1 Sample.two_sessions "20250101.002"
                         [97; 10] false Sample.afternoon true,
                       close_app (end_of_day Sample.logging)))
    by (vm_compute; reflexivity).
  split; [exact H4|].
  split; [exact (proj1 (end_of_day_quits_after_save TextIO.Posix 1
                          Sample.two_sessions Sample.logging _ _ [97; 10] false
                          Sample.afternoon _ _ H1 H2 H3 H4))|].
  reflexivity.
Defined.
End AppExtras.
